(** * FlexMaster: leveling engine, progress ledger, routine parser and
      sport classifier

    A shallow embedding of the pure and database-facing parts of
    [main.py], [ai_engine.py] and [dbinit.py], and the properties the
    specification states about them.

    Conventions of the embedding.
    - A Python [int] is a [Z].  A Python [float] is an IEEE-754 binary64
      number, a [spec_float] of the standard library at precision 53 and
      maximal exponent 1024; the operations [/], [math.sqrt] and
      [math.floor] are the correctly rounded ones of that format.
    - A Python [str] is a [string], one [ascii] per character (code
      points U+0000 to U+00FF).
    - A Python exception that leaves a function is a [Raise] in the
      [result] type; [try]/[except] is a [match] on it.
    - The sqlite tables [users], [completed_exercises] and [routines] are
      the fields of the record [db]. *)

From Stdlib Require Import ZArith Lia List String Ascii Bool Permutation.
From Stdlib Require Import Floats.SpecFloat.
From stdpp Require Import base option strings pretty gmap.

Local Open Scope Z_scope.

(** ** Exceptions and fallible computations *)

Inductive exn : Type :=
| OverflowError
| ValueError
| ZeroDivisionError
| OperationalError
| TypeError
| AttributeError.

Inductive result (A : Type) : Type :=
| Ok (a : A)
| Raise (e : exn).

Arguments Ok {A} a.
Arguments Raise {A} e.

Definition bind {A B : Type} (r : result A) (k : A -> result B) : result B :=
  match r with
  | Ok a => k a
  | Raise e => Raise e
  end.

Notation "'do' x <- r ; k" := (bind r (fun x => k))
  (at level 10, x name, r at level 100, k at level 200).

(** ** Binary64 arithmetic used by the leveling formula *)

Module Float.

Definition prec : Z := 53.
Definition emax : Z := 1024.

(** [a / b] on two Python ints: the quotient rounded once, to nearest
    even; a quotient beyond the largest float raises [OverflowError]. *)
Definition int_true_divide (a b : Z) : result spec_float :=
  if b =? 0 then Raise ZeroDivisionError
  else if a =? 0 then Ok (S754_zero (b <? 0))
  else
    let '(mz, ez, lz) := SFdiv_core_binary prec emax (Z.abs a) 0 (Z.abs b) 0 in
    match binary_round_aux prec emax (xorb (a <? 0) (b <? 0)) mz ez lz with
    | S754_infinity _ => Raise OverflowError
    | q => Ok q
    end.

(** [math.sqrt]: a negative argument is a domain error. *)
Definition math_sqrt (x : spec_float) : result spec_float :=
  match x with
  | S754_finite true _ _ => Raise ValueError
  | S754_infinity true => Raise ValueError
  | _ => Ok (SFsqrt prec emax x)
  end.

(** [math.floor]: the largest int below a finite float. *)
Definition math_floor (x : spec_float) : result Z :=
  match x with
  | S754_zero _ => Ok 0
  | S754_finite s m e => Ok (Z.shiftl (cond_Zopp s (Zpos m)) e)
  | S754_infinity _ => Raise OverflowError
  | S754_nan => Raise ValueError
  end.

End Float.

(** ** XP and leveling ([main.py]) *)

(** [calculate_level]: [0] for [xp <= 0], otherwise
    [max(0, math.floor(math.sqrt(xp / 50)))]. *)
Definition calculate_level (xp : Z) : result Z :=
  if xp <=? 0 then Ok 0
  else
    do q <- Float.int_true_divide xp 50;
    do r <- Float.math_sqrt q;
    do f <- Float.math_floor r;
    Ok (Z.max 0 f).

(** [xp_for_next_level]: [(current_level + 1) ** 2 * 50]. *)
Definition xp_for_next_level (current_level : Z) : Z :=
  (current_level + 1) ^ 2 * 50.

(** The level line of the migration script [dbinit.py]:
    [max(0, math.floor(math.sqrt(total_xp / 50))) if total_xp > 0 else 0]. *)
Definition dbinit_level (total_xp : Z) : result Z :=
  if 0 <? total_xp then
    do q <- Float.int_true_divide total_xp 50;
    do r <- Float.math_sqrt q;
    do f <- Float.math_floor r;
    Ok (Z.max 0 f)
  else Ok 0.

(** The level of the specification: the integer part of the exact square
    root of the exact quotient. *)
Definition exact_level (xp : Z) : Z :=
  if xp <=? 0 then 0 else Z.max 0 (Z.sqrt (xp / 50)).

(** ** Python string operations *)

Module PyStr.

Local Open Scope string_scope.

(** [str.isspace] on one character. *)
Definition is_space (c : ascii) : bool :=
  let n := nat_of_ascii c in
  ((9 <=? n) && (n <=? 13) || (28 <=? n) && (n <=? 32)
   || (n =? 133) || (n =? 160))%nat.

(** [str.lower] on one character: the ASCII and Latin-1 capitals. *)
Definition lower_char (c : ascii) : ascii :=
  let n := nat_of_ascii c in
  if ((65 <=? n) && (n <=? 90)
      || (192 <=? n) && (n <=? 222) && negb (n =? 215))%nat
  then ascii_of_nat (n + 32) else c.

Fixpoint lower (s : string) : string :=
  match s with
  | EmptyString => EmptyString
  | String c r => String (lower_char c) (lower r)
  end.

Fixpoint lstrip (s : string) : string :=
  match s with
  | EmptyString => EmptyString
  | String c r => if is_space c then lstrip r else s
  end.

Fixpoint rstrip (s : string) : string :=
  match s with
  | EmptyString => EmptyString
  | String c r =>
      match rstrip r with
      | EmptyString => if is_space c then EmptyString else String c EmptyString
      | r' => String c r'
      end
  end.

(** [s.strip()] *)
Definition strip (s : string) : string := rstrip (lstrip s).

(** [sub in s] *)
Fixpoint contains (sub s : string) : bool :=
  String.prefix sub s ||
  match s with
  | EmptyString => false
  | String _ r => contains sub r
  end.

(** [s.find(c)] for a one-character [c]: the first index, or [-1]. *)
Fixpoint find (s : string) (c : ascii) : Z :=
  match s with
  | EmptyString => -1
  | String a r =>
      if Ascii.eqb a c then 0
      else let i := find r c in if Z.eqb i (-1) then -1 else i + 1
  end.

(** [s.rfind(c)]: the last index, or [-1]. *)
Fixpoint rfind (s : string) (c : ascii) : Z :=
  match s with
  | EmptyString => -1
  | String a r =>
      let i := rfind r c in
      if Z.eqb i (-1) then (if Ascii.eqb a c then 0 else -1) else i + 1
  end.

(** [s[start:stop]] for [0 <= start]. *)
Definition slice (s : string) (start stop : Z) : string :=
  String.substring (Z.to_nat start) (Z.to_nat (stop - start)) s.

(** Truth value of a string: non-empty. *)
Definition truthy (s : string) : bool :=
  match s with EmptyString => false | _ => true end.

(** A dict with string keys, in insertion order. *)
Fixpoint dict_get {A : Type} (d : list (string * A)) (k : string) : option A :=
  match d with
  | [] => None
  | (k', v) :: rest => if String.eqb k' k then Some v else dict_get rest k
  end.

End PyStr.

(** ** The AI engine ([ai_engine.py]) *)

(** Values produced by [json.loads]. *)
#[warnings="-register-all"]
Inductive json : Type :=
| JNull
| JBool (b : bool)
| JInt (z : Z)
| JFloat (f : spec_float)
| JStr (s : string)
| JList (l : list json)
| JDict (d : list (string * json)).

(** Outcome of [json.loads]: a value, or an exception with its message. *)
Inductive loads_result : Type :=
| Loaded (v : json)
| LoadError (msg : string).

(** The library and service calls the engine relies on.
    - [json_loads]: [json.loads];
    - [py_repr]: [str(x)] for a value [x] that is not a [str];
    - [int_of_text]: [int(s)] for a [str], [None] when it raises;
    - [responses_create]: [client.responses.create(model, instructions,
      input).output_text], which may raise. *)
Class PyRuntime : Type := {
  json_loads : string -> loads_result;
  py_repr : json -> string;
  int_of_text : string -> option Z;
  responses_create : string -> string -> string -> result (option string)
}.

(** [WarmupMove], as the dict appended to [warmups]. *)
Record warmup : Type := {
  w_name : string;
  w_duration : Z;
  w_notes : string;
  w_movement_type : string
}.

(** The dict returned by [generate_warmups]. *)
Record routine : Type := {
  r_exercise : string;
  r_sport_category : string;
  r_muscle_groups : string;
  r_warmups : list warmup;
  r_safety : string;
  r_raw : string;
  r_error : option string
}.

(** The user profile passed as [user_data]. *)
Record user_data : Type := {
  ud_age : option string;
  ud_fitness_level : option string;
  ud_preference : option string
}.

Module AIEngine.
Import PyStr.

Local Open Scope string_scope.

(** [SPORT_CATEGORIES], in definition order. *)
Definition SPORT_CATEGORIES : list (string * string) :=
  [ ("soccer", "Ball Sports"); ("football", "Ball Sports");
    ("basketball", "Ball Sports"); ("volleyball", "Ball Sports");
    ("tennis", "Racket Sports"); ("badminton", "Racket Sports");
    ("table tennis", "Racket Sports"); ("squash", "Racket Sports");
    ("pickleball", "Racket Sports");
    ("running", "Endurance"); ("jogging", "Endurance");
    ("marathon", "Endurance"); ("cycling", "Endurance");
    ("swimming", "Endurance"); ("triathlon", "Endurance");
    ("weightlifting", "Strength Training");
    ("powerlifting", "Strength Training");
    ("bodybuilding", "Strength Training");
    ("crossfit", "Strength Training");
    ("gym", "Strength Training"); ("lifting", "Strength Training");
    ("boxing", "Combat Sports"); ("mma", "Combat Sports");
    ("kickboxing", "Combat Sports"); ("martial arts", "Combat Sports");
    ("judo", "Combat Sports"); ("karate", "Combat Sports");
    ("yoga", "Flexibility"); ("pilates", "Flexibility");
    ("stretching", "Flexibility"); ("gymnastics", "Flexibility");
    ("hiking", "Outdoor"); ("climbing", "Outdoor");
    ("rock climbing", "Outdoor"); ("bouldering", "Outdoor");
    ("skiing", "Outdoor"); ("snowboarding", "Outdoor");
    ("dance", "Dance"); ("ballet", "Dance"); ("hip hop", "Dance");
    ("zumba", "Dance") ].

(** The test of the partial-match loop:
    [sport_key in exercise_lower or exercise_lower in sport_key]. *)
Definition partial_hit (exercise_lower sport_key : string) : bool :=
  contains sport_key exercise_lower || contains exercise_lower sport_key.

(** The partial-match loop over [items()]: the first hit returns. *)
Fixpoint partial_match (items : list (string * string))
    (exercise_lower : string) : option string :=
  match items with
  | [] => None
  | (sport_key, category) :: rest =>
      if partial_hit exercise_lower sport_key then Some category
      else partial_match rest exercise_lower
  end.

(** [categorize_sport] *)
Definition categorize_sport (exercise : string) : string :=
  let exercise_lower := strip (lower exercise) in
  match dict_get SPORT_CATEGORIES exercise_lower with
  | Some category => category
  | None =>
      match partial_match SPORT_CATEGORIES exercise_lower with
      | Some category => category
      | None => "Other"
      end
  end.

(** [if x:] on an optional profile field. *)
Definition field_truthy (o : option string) : bool :=
  match o with
  | Some s => truthy s
  | None => false
  end.

Definition field_text (o : option string) : string :=
  match o with
  | Some s => s
  | None => ""
  end.

(** [_build_prompt] *)
Definition _build_prompt (exercise muscle_groups : string)
    (ud : option user_data) : string :=
  let base_prompt :=
    "Create a safe warm-up routine for " +:+ exercise +:+ ". " +:+
    "Target muscle groups: " +:+ muscle_groups +:+ ". " in
  let base_prompt :=
    match ud with
    | Some u =>
        let p := base_prompt in
        let p := if field_truthy (ud_age u)
                 then p +:+ "User age: " +:+ field_text (ud_age u) +:+ ". "
                 else p in
        let p := if field_truthy (ud_fitness_level u)
                 then p +:+ "Fitness level: " +:+
                      field_text (ud_fitness_level u) +:+ ". "
                 else p in
        if field_truthy (ud_preference u)
        then p +:+ "User preference: " +:+
             field_text (ud_preference u) +:+ ". "
        else p
    | None => base_prompt
    end in
  base_prompt +:+
  "Return ONLY valid JSON matching the schema described in the instructions.".

Definition dq : string := String (ascii_of_nat 34) "".
Definition nl : string := String (ascii_of_nat 10) "".

(** The local [instructions] of [generate_warmups]; [dq] is the double
    quote and [nl] the line feed. *)
Definition instructions : string :=
  "You are a sports warm-up assistant. " +:+
  "Output must be STRICT JSON only, no markdown, no commentary." +:+ nl +:+ nl +:+
  "Schema:" +:+ nl +:+
  "{" +:+ nl +:+
  "  " +:+ dq +:+ "warmups" +:+ dq +:+ ": [" +:+ nl +:+
  "    {" +:+ nl +:+
  "      " +:+ dq +:+ "name" +:+ dq +:+ ": string," +:+ nl +:+
  "      " +:+ dq +:+ "duration_seconds" +:+ dq +:+ ": integer," +:+ nl +:+
  "      " +:+ dq +:+ "notes" +:+ dq +:+ ": string," +:+ nl +:+
  "      " +:+ dq +:+ "movement_type" +:+ dq +:+
  ": string  // One of: Mobility, Activation, Stability, Power, Balance" +:+ nl +:+
  "    }" +:+ nl +:+
  "  ]," +:+ nl +:+
  "  " +:+ dq +:+ "safety" +:+ dq +:+ ": string" +:+ nl +:+
  "}" +:+ nl +:+ nl +:+
  "Rules:" +:+ nl +:+
  "- Provide 6 to 10 warmups." +:+ nl +:+
  "- Classify each exercise by movement type:" +:+ nl +:+
  "  * Mobility: Joint range of motion, dynamic stretches" +:+ nl +:+
  "  * Activation: Muscle engagement, neural activation" +:+ nl +:+
  "  * Stability: Core control, balance foundations" +:+ nl +:+
  "  * Power: Explosive movements, plyometrics" +:+ nl +:+
  "  * Balance: Coordination, proprioception" +:+ nl +:+
  "- Include a variety of movement types for comprehensive warm-up." +:+ nl +:+
  "- Use realistic durations; total time 6-12 minutes." +:+ nl +:+
  "- Personalize based on user's age, fitness level, and preferences." +:+ nl +:+
  "- No medical claims; advise consulting professionals when needed." +:+ nl.

(** [_safe_json_load]: Python's [None] is [JNull] in the first component. *)
Definition _safe_json_load `{PyRuntime} (text : string)
    : json * option string :=
  if negb (truthy text) then (JNull, Some "Empty model output.")
  else
    match json_loads text with
    | Loaded v => (v, None)
    | LoadError _ =>
        let start := find text "{"%char in
        let end_ := rfind text "}"%char in
        if negb (start =? -1)%Z && negb (end_ =? -1)%Z && (start <? end_)%Z
        then
          let candidate := slice text start (end_ + 1) in
          match json_loads candidate with
          | Loaded v => (v, None)
          | LoadError e => (JNull, Some ("JSON parse error: " +:+ e))
          end
        else (JNull, Some "No JSON object found in model output.")
    end.

(** [str(x)] *)
Definition py_str `{PyRuntime} (x : json) : string :=
  match x with
  | JStr s => s
  | _ => py_repr x
  end.

(** [int(x)] on a float: truncation; infinities and NaN raise. *)
Definition int_of_float (f : spec_float) : option Z :=
  match f with
  | S754_zero _ => Some 0%Z
  | S754_finite s m e => Some (cond_Zopp s (Z.shiftl (Zpos m) e))
  | S754_infinity _ | S754_nan => None
  end.

(** [int(x)], [None] when it raises. *)
Definition py_int `{PyRuntime} (x : json) : option Z :=
  match x with
  | JInt z => Some z
  | JBool b => Some (if b then 1 else 0)%Z
  | JFloat f => int_of_float f
  | JStr s => int_of_text s
  | JNull | JList _ | JDict _ => None
  end.

(** [d.get(k, default)] *)
Definition get_default (d : list (string * json)) (k : string)
    (default : json) : json :=
  match dict_get d k with
  | Some v => v
  | None => default
  end.

Definition valid_types : list string :=
  ["Mobility"; "Activation"; "Stability"; "Power"; "Balance"].

(** [x in valid_types] *)
Definition in_valid_types (x : string) : bool :=
  existsb (String.eqb x) valid_types.

(** The body of [for item in items], threading the list [warmups]. *)
Definition warmup_step `{PyRuntime} (warmups : list warmup) (item : json)
    : list warmup :=
  match item with
  | JDict d =>
      let n := strip (py_str (get_default d "name" (JStr ""))) in
      let dv := get_default d "duration_seconds"
                  (get_default d "duration" (JInt 0)) in
      let d_int := match py_int dv with
                   | Some z => z
                   | None => 0%Z
                   end in
      let notes := strip (py_str (get_default d "notes" (JStr ""))) in
      let movement_type :=
        strip (py_str (get_default d "movement_type" (JStr "Mobility"))) in
      let movement_type :=
        if in_valid_types movement_type then movement_type
        else "Mobility" in
      if truthy n && (0 <? d_int)%Z
      then warmups ++ [ {| w_name := n; w_duration := d_int;
                           w_notes := notes;
                           w_movement_type := movement_type |} ]
      else warmups
  | _ => warmups
  end.

Fixpoint warmup_loop `{PyRuntime} (items : list json)
    (warmups : list warmup) : list warmup :=
  match items with
  | [] => warmups
  | item :: rest => warmup_loop rest (warmup_step warmups item)
  end.

(** The part of [generate_warmups] after the provider call:
    [routine_obj] to the pair [(warmups, safety)]. *)
Definition extract `{PyRuntime} (routine_obj : json)
    : list warmup * string :=
  match routine_obj with
  | JDict d =>
      let safety := strip (py_str (get_default d "safety" (JStr ""))) in
      match get_default d "warmups" (JList []) with
      | JList items => (warmup_loop items [], safety)
      | _ => ([], safety)
      end
  | _ => ([], "")
  end.

Definition or_text (o : option string) (default : string) : string :=
  match o with
  | Some s => if truthy s then s else default
  | None => default
  end.

(** [generate_warmups]; [model] is [self.model]. *)
Definition generate_warmups `{PyRuntime} (model : string)
    (exercise muscle_groups : string) (ud : option user_data)
    : result routine :=
  do output_text <- responses_create model instructions
                      (_build_prompt exercise muscle_groups ud);
  let raw_text := strip (match output_text with
                         | Some s => s
                         | None => ""
                         end) in
  let '(routine_obj, parse_error) := _safe_json_load raw_text in
  let '(warmups, safety) := extract routine_obj in
  match warmups with
  | [] =>
      Ok {| r_exercise := exercise;
            r_sport_category := categorize_sport exercise;
            r_muscle_groups := muscle_groups;
            r_warmups := [];
            r_safety := "";
            r_raw := raw_text;
            r_error := Some (or_text parse_error
                               "Could not parse the model output.") |}
  | _ =>
      Ok {| r_exercise := exercise;
            r_sport_category := categorize_sport exercise;
            r_muscle_groups := muscle_groups;
            r_warmups := warmups;
            r_safety := safety;
            r_raw := raw_text;
            r_error := None |}
  end.

End AIEngine.

(** ** The database and the request handlers ([main.py]) *)

(** The closed vocabulary of movement types: the five tags the
    recomputation loops iterate over. *)
Inductive movement_type : Type :=
| Mobility
| Activation
| Stability
| Power
| Balance.

Definition movement_type_name (mt : movement_type) : string :=
  match mt with
  | Mobility => "Mobility"
  | Activation => "Activation"
  | Stability => "Stability"
  | Power => "Power"
  | Balance => "Balance"
  end.

(** The list the recomputation loops iterate over. *)
Definition movement_types : list movement_type :=
  [Mobility; Activation; Stability; Power; Balance].

(** SQLite keeps an INTEGER in 64 bits. *)
Definition min_int64 : Z := (- 2 ^ 63)%Z.

Definition max_int64 : Z := (2 ^ 63 - 1)%Z.

Definition in_int64 (z : Z) : bool :=
  (min_int64 <=? z)%Z && (z <=? max_int64)%Z.

(** What the column [total_xp] holds: NULL, an integer, or a value
    that has left the 64-bit integers (SQLite goes on with a REAL);
    what such a value is, and what later additions make of it, is not
    followed. *)
Inductive total : Type :=
| TNull
| TInt (z : Z)
| TUnknown.

(** The numeric columns of a row of [users] ([dbinit.py]). *)
Record user_row : Type := {
  total_xp : total;
  mobility_level : Z;
  activation_level : Z;
  stability_level : Z;
  power_level : Z;
  balance_level : Z
}.

(** A row of [completed_exercises]: the columns the queries read.
    [movement_type] is the stored text and [xp_earned] the stored
    integer, [None] for NULL.  The columns [routine_id] and
    [exercise_name] are written and never read. *)
Record completed_exercise : Type := {
  ce_user_id : Z;
  ce_movement_type : option string;
  ce_xp_earned : option Z
}.

(** A row of [routines]. *)
Record routine_row : Type := {
  rt_user_id : Z;
  rt_routine_json : routine;
  rt_sport_category : string
}.

Record db : Type := {
  users : gmap Z user_row;
  completed_exercises : list completed_exercise;
  routines : list routine_row
}.

(** A database operation: it returns or raises, and leaves the committed
    state. *)
Definition M (A : Type) : Type := db -> result A * db.

Definition ret {A : Type} (a : A) : M A := fun s => (Ok a, s).

Definition raise {A : Type} (e : exn) : M A := fun s => (Raise e, s).

Definition mbind_db {A B : Type} (m : M A) (k : A -> M B) : M B :=
  fun s =>
    match m s with
    | (Ok a, s') => k a s'
    | (Raise e, s') => (Raise e, s')
    end.

Notation "'exec' m ; k" := (mbind_db m (fun _ => k))
  (at level 10, m at level 100, k at level 200).

(** A value bound to a [?] of a statement. *)
Inductive param : Type :=
| PNull
| PInt (z : Z)
| PText (t : string).

(** A statement on values of a request.  Its outcome is [None] where
    this model does not follow SQLite: a float, list or dict parameter,
    text in an integer column or an integer in a text column, a
    statement whose column name is not one of the level columns. *)
Definition sql (A : Type) : Type := option (result A).

Definition sql_bind {A B : Type} (m : sql A) (k : A -> sql B) : sql B :=
  match m with
  | None => None
  | Some (Raise e) => Some (Raise e)
  | Some (Ok a) => k a
  end.

Notation "'with_param' x <- m ; k" := (sql_bind m (fun x => k))
  (at level 10, x name, m at level 100, k at level 200).

(** A request handler on such values: [None] as for [sql]; otherwise it
    returns or raises, and leaves the committed state. *)
Definition op (A : Type) : Type := db -> option (result A * db).

Definition op_ret {A : Type} (a : A) : op A := fun s => Some (Ok a, s).

Definition op_raise {A : Type} (e : exn) : op A :=
  fun s => Some (Raise e, s).

Definition op_bind {A B : Type} (m : op A) (k : A -> op B) : op B :=
  fun s =>
    match m s with
    | Some (Ok a, s') => k a s'
    | Some (Raise e, s') => Some (Raise e, s')
    | None => None
    end.

Notation "'run' m ; k" := (op_bind m (fun _ => k))
  (at level 10, m at level 100, k at level 200).

Module Main.
Import AIEngine.

Local Open Scope string_scope.

(** How [sqlite3] binds a Python value: [None] as NULL, [bool] and
    [int] as INTEGER, with [OverflowError] outside 64 bits, [str] as
    TEXT. *)
Definition bind_param (v : json) : sql param :=
  match v with
  | JNull => Some (Ok PNull)
  | JBool b => Some (Ok (PInt (if b then 1 else 0)%Z))
  | JInt z => if in_int64 z then Some (Ok (PInt z))
              else Some (Raise OverflowError)
  | JStr t => Some (Ok (PText t))
  | JFloat _ | JList _ | JDict _ => None
  end.

(** What a TEXT column, or a comparison with one, makes of a
    parameter. *)
Definition as_text (p : param) : sql (option string) :=
  match p with
  | PNull => Some (Ok None)
  | PText t => Some (Ok (Some t))
  | PInt _ => None
  end.

(** What an INTEGER column, or an addition to one, makes of a
    parameter. *)
Definition as_integer (p : param) : sql (option Z) :=
  match p with
  | PNull => Some (Ok None)
  | PInt z => Some (Ok (Some z))
  | PText _ => None
  end.

(** [level_field = f"{movement_type.lower()}_level"] *)
Definition level_field (movement_type : string) : string :=
  PyStr.lower movement_type +:+ "_level".

(** [UPDATE users SET {field} = ?] on one row, for the level columns. *)
Definition column_setter (field : string)
    : option (Z -> user_row -> user_row) :=
  if String.eqb field "mobility_level" then
    Some (fun v u =>
      {| total_xp := total_xp u; mobility_level := v;
         activation_level := activation_level u;
         stability_level := stability_level u;
         power_level := power_level u;
         balance_level := balance_level u |})
  else if String.eqb field "activation_level" then
    Some (fun v u =>
      {| total_xp := total_xp u; mobility_level := mobility_level u;
         activation_level := v;
         stability_level := stability_level u;
         power_level := power_level u;
         balance_level := balance_level u |})
  else if String.eqb field "stability_level" then
    Some (fun v u =>
      {| total_xp := total_xp u; mobility_level := mobility_level u;
         activation_level := activation_level u;
         stability_level := v;
         power_level := power_level u;
         balance_level := balance_level u |})
  else if String.eqb field "power_level" then
    Some (fun v u =>
      {| total_xp := total_xp u; mobility_level := mobility_level u;
         activation_level := activation_level u;
         stability_level := stability_level u;
         power_level := v;
         balance_level := balance_level u |})
  else if String.eqb field "balance_level" then
    Some (fun v u =>
      {| total_xp := total_xp u; mobility_level := mobility_level u;
         activation_level := activation_level u;
         stability_level := stability_level u;
         power_level := power_level u;
         balance_level := v |})
  else None.

(** The cached level column of a movement type. *)
Definition get_level (mt : movement_type) (u : user_row) : Z :=
  match mt with
  | Mobility => mobility_level u
  | Activation => activation_level u
  | Stability => stability_level u
  | Power => power_level u
  | Balance => balance_level u
  end.

(** The integer [SUM] over the rows in table order: a NULL is skipped,
    and once the running sum leaves 64 bits the query fails with
    "integer overflow", whatever the later rows hold. *)
Fixpoint sum_integers (values : list (option Z)) (acc : Z) : result Z :=
  match values with
  | [] => Ok acc
  | None :: rest => sum_integers rest acc
  | Some x :: rest =>
      if in_int64 (acc + x) then sum_integers rest (acc + x)%Z
      else Raise OperationalError
  end.

(** [WHERE user_id = ? AND movement_type = ?]: the text comparison is
    exact, and a NULL on either side matches nothing. *)
Definition row_matches (user_id : Z) (movement_type : option string)
    (r : completed_exercise) : bool :=
  (ce_user_id r =? user_id)%Z
  && match ce_movement_type r, movement_type with
     | Some t, Some t' => String.eqb t t'
     | _, _ => false
     end.

(** [SELECT COALESCE(SUM(xp_earned), 0) FROM completed_exercises
     WHERE user_id = ? AND movement_type = ?] *)
Definition sum_xp_earned (rows : list completed_exercise)
    (user_id : Z) (movement_type : option string) : result Z :=
  sum_integers
    (map ce_xp_earned (List.filter (row_matches user_id movement_type) rows))
    0%Z.

(** [update_movement_level]; [xp_amount] is not used by the body.  A
    [movement_type] that is [None] fails at [.lower()], after the
    query. *)
Definition update_movement_level (user_id : Z) (movement_type : json)
    (xp_amount : json) : op unit :=
  fun s =>
    match (with_param _ <- bind_param (JInt user_id);
           with_param p <- bind_param movement_type;
           as_text p) with
    | None => None
    | Some (Raise e) => Some (Raise e, s)
    | Some (Ok text) =>
        match (do current_xp <-
                 sum_xp_earned (completed_exercises s) user_id text;
               calculate_level current_xp) with
        | Raise e => Some (Raise e, s)
        | Ok new_level =>
            match text with
            | None => Some (Raise AttributeError, s)
            | Some t =>
                match column_setter (level_field t) with
                | None => None
                | Some set =>
                    Some (Ok tt,
                          {| users := alter (set new_level) user_id (users s);
                             completed_exercises := completed_exercises s;
                             routines := routines s |})
                end
            end
        end
    end.

(** [total_xp + ?] on a stored total: NULL on either side gives NULL;
    an integer result that leaves 64 bits is not followed further. *)
Definition new_total (stored : total) (amount : option Z) : total :=
  match stored, amount with
  | TInt t, Some x => if in_int64 (t + x) then TInt (t + x) else TUnknown
  | TUnknown, Some _ => TUnknown
  | _, _ => TNull
  end.

Definition with_total (value : total) (u : user_row) : user_row :=
  {| total_xp := value;
     mobility_level := mobility_level u;
     activation_level := activation_level u;
     stability_level := stability_level u;
     power_level := power_level u;
     balance_level := balance_level u |}.

(** [UPDATE users SET total_xp = total_xp + ? WHERE id = ?], with the
    parameters [(xp_amount, user_id)]. *)
Definition add_total_xp (user_id : Z) (xp_amount : json) : op unit :=
  fun s =>
    match (with_param p <- bind_param xp_amount;
           with_param _ <- bind_param (JInt user_id);
           as_integer p) with
    | None => None
    | Some (Raise e) => Some (Raise e, s)
    | Some (Ok amount) =>
        Some (Ok tt,
              {| users := alter (fun u =>
                                   with_total (new_total (total_xp u) amount)
                                     u)
                            user_id (users s);
                 completed_exercises := completed_exercises s;
                 routines := routines s |})
    end.

(** [add_xp]: the total is committed before the level is refreshed. *)
Definition add_xp (user_id : Z) (movement_type xp_amount : json)
    : op unit :=
  run add_total_xp user_id xp_amount;
  update_movement_level user_id movement_type xp_amount.

(** [save_completed_exercise]: the parameters are bound in the order of
    the tuple; a parameter that cannot be bound raises and no row is
    written. *)
Definition save_completed_exercise (user_id : Z)
    (routine_id exercise_name movement_type xp_earned : json) : op unit :=
  fun s =>
    match (with_param _ <- bind_param (JInt user_id);
           with_param _ <- bind_param routine_id;
           with_param _ <- bind_param exercise_name;
           with_param m <- bind_param movement_type;
           with_param x <- bind_param xp_earned;
           with_param text <- as_text m;
           with_param xp <- as_integer x;
           Some (Ok {| ce_user_id := user_id; ce_movement_type := text;
                       ce_xp_earned := xp |})) with
    | None => None
    | Some (Raise e) => Some (Raise e, s)
    | Some (Ok row) =>
        Some (Ok tt, {| users := users s;
                        completed_exercises := completed_exercises s ++ [row];
                        routines := routines s |})
    end.

(** [category_keywords] of [save_routine], in definition order. *)
Definition category_keywords : list (string * list string) :=
  [ ("Running", ["running"; "run"; "sprint"; "jog"; "marathon"; "5k"; "10k"]);
    ("Weightlifting", ["squat"; "deadlift"; "bench press"; "overhead press";
                       "lifting"; "weights"; "barbell"; "dumbbell"]);
    ("Cycling", ["cycling"; "bike"; "biking"; "spin"]);
    ("Swimming", ["swimming"; "swim"; "freestyle"; "backstroke";
                  "breaststroke"]);
    ("Tennis", ["tennis"; "serve"; "forehand"; "backhand"]);
    ("Basketball", ["basketball"; "jump shot"; "layup"; "dunk";
                    "free throw"]);
    ("Soccer", ["soccer"; "football"; "kick"; "dribbling"]);
    ("Yoga", ["yoga"; "downward dog"; "warrior"; "tree pose";
              "sun salutation"]);
    ("Martial Arts", ["martial arts"; "karate"; "taekwondo"; "judo";
                      "boxing"; "kickboxing"; "mma"]);
    ("Rock Climbing", ["climbing"; "bouldering"; "rock climbing"]);
    ("CrossFit", ["crossfit"; "wod"; "amrap"; "emom"]);
    ("Pilates", ["pilates"]);
    ("Dance", ["dance"; "ballet"; "hip hop"; "contemporary"]);
    ("Golf", ["golf"; "swing"; "putt"; "drive"]);
    ("Volleyball", ["volleyball"; "spike"; "serve"; "bump"]) ].

(** [any(keyword in exercise_name for keyword in keywords)] *)
Definition any_keyword (keywords : list string) (exercise_name : string)
    : bool :=
  existsb (fun keyword => PyStr.contains keyword exercise_name) keywords.

(** The keyword loop with its [break]: the category it leaves in
    [sport_category]. *)
Fixpoint keyword_loop (items : list (string * list string))
    (exercise_name sport_category : string) : string :=
  match items with
  | [] => sport_category
  | (category, keywords) :: rest =>
      if any_keyword keywords exercise_name then category
      else keyword_loop rest exercise_name sport_category
  end.

(** The category [save_routine] stores.  [routine_data] comes from
    [generate_warmups], whose dict always has the keys [sport_category]
    and [exercise]. *)
Definition stored_category (routine_data : routine) : string :=
  let sport_category := r_sport_category routine_data in
  if String.eqb sport_category "Other" || negb (PyStr.truthy sport_category)
  then
    let exercise_name := PyStr.lower (r_exercise routine_data) in
    let sport_category :=
      keyword_loop category_keywords exercise_name sport_category in
    if negb (PyStr.truthy sport_category) || String.eqb sport_category "Other"
    then "General Fitness"
    else sport_category
  else sport_category.

(** [save_routine]: the new row's id is returned. *)
Definition save_routine (user_id : Z) (routine_data : routine) : M Z :=
  fun s =>
    (Ok (Z.of_nat (length (routines s)) + 1)%Z,
     {| users := users s;
        completed_exercises := completed_exercises s;
        routines := routines s ++
                    [ {| rt_user_id := user_id;
                         rt_routine_json := routine_data;
                         rt_sport_category := stored_category routine_data |} ] |}).

(** The dict returned by [get_user_stats]. *)
Record user_stats : Type := {
  st_total_xp : total;
  st_total_routines : Z;
  st_total_exercises : Z;
  st_levels : list (string * Z);
  st_movement_xp : list (string * Z)
}.

(** The loop of [get_user_stats] over the movement types, filling
    [movement_xp] and [calculated_levels]. *)
Fixpoint stats_loop (rows : list completed_exercise) (user_id : Z)
    (mts : list movement_type)
    (movement_xp calculated_levels : list (string * Z))
    : result (list (string * Z) * list (string * Z)) :=
  match mts with
  | [] => Ok (movement_xp, calculated_levels)
  | mt :: rest =>
      do xp <- sum_xp_earned rows user_id (Some (movement_type_name mt));
      do level <- calculate_level xp;
      stats_loop rows user_id rest
        (movement_xp ++ [(PyStr.lower (movement_type_name mt), xp)])
        (calculated_levels ++ [(PyStr.lower (movement_type_name mt), level)])
  end.

Definition count_where {A : Type} (p : A -> bool) (l : list A) : Z :=
  Z.of_nat (length (List.filter p l)).

(** [get_user_stats]: a read; a [user_id] outside 64 bits cannot be
    bound, a missing user row fails at [user["total_xp"]], and a NULL
    total is reported as [0]. *)
Definition get_user_stats (user_id : Z) (s : db) : result user_stats :=
  if negb (in_int64 user_id) then Raise OverflowError else
  let total_routines :=
    count_where (fun r => (rt_user_id r =? user_id)%Z) (routines s) in
  let total_exercises :=
    count_where (fun r => (ce_user_id r =? user_id)%Z)
      (completed_exercises s) in
  let user := users s !! user_id in
  do r <- stats_loop (completed_exercises s) user_id movement_types [] [];
  match user with
  | None => Raise TypeError
  | Some u =>
      Ok {| st_total_xp := match total_xp u with
                           | TNull => TInt 0
                           | t => t
                           end;
            st_total_routines := total_routines;
            st_total_exercises := total_exercises;
            st_levels := snd r;
            st_movement_xp := fst r |}
  end.

(** Responses of the two API endpoints; the success response repeats
    the XP value of the request. *)
Inductive response : Type :=
| NotAuthenticated
| Success (xp : json).

(** [complete_exercise]; [session] is the logged-in user id, if any, and
    [data] the JSON body of the request.  A body that is not an object
    has no [get]. *)
Definition complete_exercise (session : option Z) (data : json)
    : op response :=
  match session with
  | None => op_ret NotAuthenticated
  | Some user_id =>
      match data with
      | JDict d =>
          let routine_id := get_default d "routine_id" JNull in
          let exercise_name := get_default d "exercise_name" JNull in
          let movement_type := get_default d "movement_type" JNull in
          let xp_earned := get_default d "xp_earned" (JInt 10) in
          run save_completed_exercise user_id routine_id exercise_name
                movement_type xp_earned;
          run add_xp user_id movement_type xp_earned;
          op_ret (Success xp_earned)
      | _ => op_raise AttributeError
      end
  end.

(** [complete_routine]; [bonus_xp] is [50] when the key is absent. *)
Definition complete_routine (session : option Z) (data : json)
    : op response :=
  match session with
  | None => op_ret NotAuthenticated
  | Some user_id =>
      match data with
      | JDict d =>
          let routine_id := get_default d "routine_id" JNull in
          let bonus_xp := get_default d "bonus_xp" (JInt 50) in
          run add_total_xp user_id bonus_xp;
          op_ret (Success bonus_xp)
      | _ => op_raise AttributeError
      end
  end.

(** A request to one of the two endpoints. *)
Inductive request : Type :=
| CompleteExercise (session : option Z) (data : json)
| CompleteRoutine (session : option Z) (data : json).

Definition handle (r : request) : op response :=
  match r with
  | CompleteExercise session data => complete_exercise session data
  | CompleteRoutine session data => complete_routine session data
  end.

(** The committed state after a sequence of requests; a request that
    raises is answered with an error and the next one is served. *)
Fixpoint serve (rs : list request) (s : db) : option db :=
  match rs with
  | [] => Some s
  | r :: rest =>
      match handle r s with
      | Some (_, s') => serve rest s'
      | None => None
      end
  end.

End Main.

(** ** The pages ([main.py]) and the migration ([dbinit.py]) *)

(** What a route answers: a redirect or a rendered template with the
    values the template receives. *)
Inductive page : Type :=
| RedirectLogin
| RedirectProfile
| RedirectInteractive (routine_id : Z)
| IndexPage (error : option string) (exercise muscle_groups : string)
| ResultsPage (routine_data : routine) (routine_id : option Z)
| InteractivePage (routine_id : Z) (exercise muscle_groups : string)
    (warmups : list warmup) (safety : string).

(** HTTP methods of the [home] route. *)
Inductive http_method : Type := GET | POST.

Module Pages.
Import PyStr AIEngine Main.

Local Open Scope string_scope.

(** [(request.form.get(k) or "").strip()] *)
Definition form_text (field : option string) : string :=
  strip (match field with
         | Some s => if truthy s then s else ""
         | None => ""
         end).

(** The dict [user_data] that [home] builds from the row [get_user]
    returns; the profile columns of [users] are kept apart from
    [user_row], and [user] stands for them. *)
Definition profile_of (user : option user_data) : user_data :=
  match user with
  | Some u => u
  | None => {| ud_age := None; ud_fitness_level := None;
               ud_preference := None |}
  end.

(** [home]; [session] is the logged-in user id, [user] the profile
    columns of the row [get_user] returns, [model] the engine's model. *)
Definition home `{PyRuntime} (model : string) (session : option Z)
    (method : http_method) (form_exercise form_muscle_groups : option string)
    (user : option user_data) : M page :=
  match session with
  | None => ret RedirectLogin
  | Some user_id =>
      match method with
      | GET => ret (IndexPage None "" "")
      | POST =>
          let exercise := form_text form_exercise in
          let muscle_groups := form_text form_muscle_groups in
          if negb (truthy exercise) || negb (truthy muscle_groups)
          then ret (IndexPage
                      (Some "Please enter both the exercise name and target muscle groups.")
                      exercise muscle_groups)
          else
            match generate_warmups model exercise muscle_groups
                    (Some (profile_of user)) with
            | Raise e => raise e
            | Ok result =>
                if match r_warmups result with [] => false | _ => true end
                   && negb (match r_error result with
                            | Some e => truthy e
                            | None => false
                            end)
                then
                  fun s =>
                    match save_routine user_id result s with
                    | (Ok routine_id, s') =>
                        if (routine_id =? 0)%Z
                        then (Ok (ResultsPage result None), s')
                        else (Ok (RedirectInteractive routine_id), s')
                    | (Raise e, s') => (Raise e, s')
                    end
                else ret (ResultsPage result None)
            end
      end
  end.

(** [SELECT routine_json, user_id FROM routines WHERE id = ?]: ids are
    the positions of the rows, from 1, as [save_routine] hands them out;
    no route deletes a row. *)
Definition routine_by_id (s : db) (routine_id : Z) : option routine_row :=
  if (routine_id <=? 0)%Z then None
  else nth_error (routines s) (Z.to_nat (routine_id - 1)).

(** [view_routine]; the stored JSON text is read back as the dict that
    was written. *)
Definition view_routine (session : option Z) (routine_id : Z) (s : db)
    : page :=
  match session with
  | None => RedirectLogin
  | Some user_id =>
      match routine_by_id s routine_id with
      | None => RedirectProfile
      | Some row =>
          if negb (rt_user_id row =? user_id)%Z then RedirectProfile
          else ResultsPage (rt_routine_json row) (Some routine_id)
      end
  end.

(** [interactive_routine]; every warmup written by [generate_warmups]
    has its [movement_type], so the loop that fills a missing one
    changes nothing. *)
Definition interactive_routine (session : option Z) (routine_id : Z)
    (s : db) : page :=
  match session with
  | None => RedirectLogin
  | Some user_id =>
      match routine_by_id s routine_id with
      | None => RedirectProfile
      | Some row =>
          if negb (rt_user_id row =? user_id)%Z then RedirectProfile
          else
            let routine_data := rt_routine_json row in
            InteractivePage routine_id (r_exercise routine_data)
              (r_muscle_groups routine_data) (r_warmups routine_data)
              (r_safety routine_data)
      end
  end.

(** The category [profile] files a routine under. *)
Definition profile_category (routine_data : routine) : string :=
  let category := r_sport_category routine_data in
  if negb (truthy category) || String.eqb category "Other"
  then "General Fitness"
  else category.

(** [categories[category].append(routine)], creating the key at its
    first use. *)
Fixpoint append_to (categories : list (string * list routine_row))
    (category : string) (row : routine_row)
    : list (string * list routine_row) :=
  match categories with
  | [] => [(category, [row])]
  | (c, l) :: rest =>
      if String.eqb c category then (c, (l ++ [row])%list) :: rest
      else (c, l) :: append_to rest category row
  end.

(** The grouping loop of [profile] over the rows [get_routines]
    returns. *)
Fixpoint group_routines (rows : list routine_row)
    (categories : list (string * list routine_row))
    : list (string * list routine_row) :=
  match rows with
  | [] => categories
  | row :: rest =>
      group_routines rest
        (append_to categories (profile_category (rt_routine_json row)) row)
  end.

End Pages.

Module Dbinit.
Import Main.

Local Open Scope string_scope.

(** [UPDATE routines SET sport_category = 'General Fitness' WHERE
    sport_category IS NULL OR sport_category = '' OR sport_category =
    'Other'] on one row; the column of [routine_row] is a string, so
    the NULL case does not arise. *)
Definition default_category (row : routine_row) : routine_row :=
  if String.eqb (rt_sport_category row) ""
     || String.eqb (rt_sport_category row) "Other"
  then {| rt_user_id := rt_user_id row;
          rt_routine_json := rt_routine_json row;
          rt_sport_category := "General Fitness" |}
  else row.

(** The loop over the movement types for one user: the sum, the level,
    the [UPDATE] of the level column. *)
Fixpoint recalculate (rows : list completed_exercise) (user_id : Z)
    (mts : list movement_type) (users : gmap Z user_row)
    : result (gmap Z user_row) :=
  match mts with
  | [] => Ok users
  | mt :: rest =>
      do total_xp <-
        sum_xp_earned rows user_id (Some (movement_type_name mt));
      do level <- dbinit_level total_xp;
      match column_setter (level_field (movement_type_name mt)) with
      | None => Raise OperationalError
      | Some set =>
          recalculate rows user_id rest (alter (set level) user_id users)
      end
  end.

(** The loop over the ids [SELECT id FROM users] returned. *)
Fixpoint recalculate_users (rows : list completed_exercise) (ids : list Z)
    (users : gmap Z user_row) : result (gmap Z user_row) :=
  match ids with
  | [] => Ok users
  | user_id :: rest =>
      do users' <- recalculate rows user_id movement_types users;
      recalculate_users rows rest users'
  end.

(** The data part of the migration script: the category update, then the
    recalculation of every user's levels, then the commit.  An
    exception leaves the script before the commit, so nothing of it is
    stored. *)
Definition migrate (s : db) : result db :=
  let routines' := map default_category (routines s) in
  do users' <- recalculate_users (completed_exercises s)
                 (map fst (map_to_list (users s))) (users s);
  Ok {| users := users';
        completed_exercises := completed_exercises s;
        routines := routines' |}.

End Dbinit.

(** ** Notions of the specification *)

Module Spec.
Import PyStr AIEngine Main Pages.

Local Open Scope string_scope.

(** [sub] occurs in [s]. *)
Definition is_substring (sub s : string) : Prop :=
  exists pre post, s = pre +:+ sub +:+ post.

(** The partial-match rule of the sport classifier: the keyword occurs
    in the input, or the input occurs in the keyword. *)
Definition substring_hit (input key : string) : Prop :=
  is_substring key input \/ is_substring input key.

(** A string made of whitespace only (the empty string included). *)
Fixpoint all_space (s : string) : bool :=
  match s with
  | EmptyString => true
  | String c r => is_space c && all_space r
  end.

(** A string that does not start with whitespace. *)
Definition starts_clean (s : string) : Prop :=
  match s with
  | EmptyString => True
  | String c _ => is_space c = false
  end.

(** The character [c] occurs in [s]. *)
Fixpoint occurs (c : ascii) (s : string) : Prop :=
  match s with
  | EmptyString => False
  | String a r => a = c \/ occurs c r
  end.

(** [candidate] is the part of [text] from its first opening brace to
    its last closing brace, the latter coming after the former. *)
Definition span (text candidate : string) : Prop :=
  exists a mid b,
    text = a +:+ String "{" (mid +:+ String "}" b)
    /\ ~ occurs "{" a /\ ~ occurs "}" b
    /\ candidate = String "{" (mid +:+ "}").

(** The categories the classifier can answer. *)
Definition sport_categories : list string :=
  [ "Ball Sports"; "Racket Sports"; "Endurance"; "Strength Training";
    "Combat Sports"; "Flexibility"; "Outdoor"; "Dance"; "Other" ].

(** One keyword of the list occurs in the exercise name. *)
Definition keyword_hit (keywords : list string) (name : string) : Prop :=
  exists keyword, In keyword keywords /\ is_substring keyword name.

(** The provider's text: [resp.output_text or ""]. *)
Definition text_of (output_text : option string) : string :=
  match output_text with
  | Some s => s
  | None => ""
  end.

(** The routine parser's rule for one element of [warmups], in the words
    of the specification. *)
Section Moves.
Context `{PyRuntime}.

(** name: text, trimmed; absent means empty. *)
Definition move_name (d : list (string * json)) : string :=
  strip (py_str (match dict_get d "name" with
                 | Some v => v
                 | None => JStr ""
                 end)).

(** duration: [duration_seconds], else [duration], else [0]; coerced
    to an integer, a failed coercion counting as [0]. *)
Definition move_duration (d : list (string * json)) : Z :=
  let raw := match dict_get d "duration_seconds" with
             | Some v => v
             | None => match dict_get d "duration" with
                       | Some v => v
                       | None => JInt 0
                       end
             end in
  match py_int raw with
  | Some z => z
  | None => 0%Z
  end.

Definition move_notes (d : list (string * json)) : string :=
  strip (py_str (match dict_get d "notes" with
                 | Some v => v
                 | None => JStr ""
                 end)).

(** movement type: text, trimmed, ["Mobility"] when absent; any value
    outside the five tags becomes ["Mobility"]. *)
Definition move_type (d : list (string * json)) : string :=
  let raw := strip (py_str (match dict_get d "movement_type" with
                            | Some v => v
                            | None => JStr "Mobility"
                            end)) in
  if decide (raw ∈ valid_types) then raw else "Mobility".

(** An element is kept when it is a mapping with a non-empty name and
    a strictly positive duration. *)
Definition kept_move (item : json) : option warmup :=
  match item with
  | JDict d =>
      if decide (move_name d <> "" /\ (0 < move_duration d)%Z)
      then Some {| w_name := move_name d;
                   w_duration := move_duration d;
                   w_notes := move_notes d;
                   w_movement_type := move_type d |}
      else None
  | _ => None
  end.
End Moves.

(** A parsed document that yields no move: it is not an object, or it
    has no list under [warmups], or no element of that list is kept. *)
Definition no_moves `{PyRuntime} (v : json) : Prop :=
  match v with
  | JDict d =>
      match dict_get d "warmups" with
      | Some (JList items) => omap kept_move items = []
      | _ => True
      end
  | _ => True
  end.

(** A profile field that is absent or empty. *)
Definition blank_field (o : option string) : Prop :=
  o = None \/ o = Some "".

(** A form field that is absent or made of whitespace only. *)
Definition blank_form_field (field : option string) : Prop :=
  match field with
  | Some text => all_space text = true
  | None => True
  end.

(** The rows filed under [category]. *)
Definition filed_under (category : string) (rows : list routine_row)
    : list routine_row :=
  List.filter
    (fun row => String.eqb (profile_category (rt_routine_json row)) category)
    rows.

(** A well-formed move: a trimmed, non-empty name, trimmed notes, a
    positive duration and one of the five movement types. *)
Definition valid_warmup (w : warmup) : Prop :=
  w_name w <> "" /\ strip (w_name w) = w_name w
  /\ strip (w_notes w) = w_notes w
  /\ (0 < w_duration w)%Z
  /\ In (w_movement_type w) valid_types.

(** A stored routine as [home] means to store it: it has warmups, all
    well-formed, no error, and its row a named category. *)
Definition sound_row (row : routine_row) : Prop :=
  r_warmups (rt_routine_json row) <> []
  /\ Forall valid_warmup (r_warmups (rt_routine_json row))
  /\ r_error (rt_routine_json row) = None
  /\ rt_sport_category row <> "" /\ rt_sport_category row <> "Other".

(** The movement type a text spells, letter for letter. *)
Definition tag_of (t : string) : option movement_type :=
  if String.eqb t "Mobility" then Some Mobility
  else if String.eqb t "Activation" then Some Activation
  else if String.eqb t "Stability" then Some Stability
  else if String.eqb t "Power" then Some Power
  else if String.eqb t "Balance" then Some Balance
  else None.

(** The non-NULL XP values of the rows of [(user_id, mt)]. *)
Definition xp_values (rows : list completed_exercise) (user_id : Z)
    (mt : movement_type) : list Z :=
  omap ce_xp_earned
    (List.filter (row_matches user_id (Some (movement_type_name mt))) rows).

(** The sum of [xp_earned] over the rows of [(user_id, mt)], as an
    integer without bound. *)
Definition xp_sum (rows : list completed_exercise) (user_id : Z)
    (mt : movement_type) : Z :=
  fold_right Z.add 0%Z (xp_values rows user_id mt).

(** The sum of the absolute values of the same XP: when it is within
    64 bits, so is every partial sum, in whatever order the rows are. *)
Definition xp_magnitude (rows : list completed_exercise) (user_id : Z)
    (mt : movement_type) : Z :=
  fold_right (fun x acc => (Z.abs x + acc)%Z) 0%Z (xp_values rows user_id mt).

(** The ledger rows of one user. *)
Definition ledger_of (rows : list completed_exercise) (user_id : Z)
    : list completed_exercise :=
  List.filter (fun r => (ce_user_id r =? user_id)%Z) rows.

(** XP of the ledger rows of one user. *)
Definition ledger_total (rows : list completed_exercise) (user_id : Z) : Z :=
  fold_right Z.add 0%Z (omap ce_xp_earned (ledger_of rows user_id)).

(** The logged-in user of a request, if any. *)
Definition session_of (r : request) : option Z :=
  match r with
  | CompleteExercise session _ => session
  | CompleteRoutine session _ => session
  end.

(** A value [sqlite3] binds without raising. *)
Definition bindable (v : json) : bool :=
  match bind_param v with
  | Some (Ok _) => true
  | _ => false
  end.

(** What a regular request asks for: nothing when nobody is logged in,
    the completion of a move, or the bonus of a routine. *)
Inductive action : Type :=
| Refused
| Move (user_id : Z) (mt : movement_type) (xp : Z)
| Bonus (user_id : Z) (bonus : Z).

(** The regular requests: without a session any body; with a session a
    JSON object in which [movement_type] spells one of the five tags,
    [xp_earned] and [bonus_xp] are integers within 64 bits ([10] and
    [50] when the key is absent), and [routine_id] and [exercise_name]
    can be bound. *)
Definition action_of (r : request) : option action :=
  match r with
  | CompleteExercise None _ => Some Refused
  | CompleteRoutine None _ => Some Refused
  | CompleteExercise (Some user_id) (JDict d) =>
      match get_default d "movement_type" JNull,
            get_default d "xp_earned" (JInt 10) with
      | JStr t, JInt xp =>
          match tag_of t with
          | Some mt =>
              if in_int64 user_id
                 && bindable (get_default d "routine_id" JNull)
                 && bindable (get_default d "exercise_name" JNull)
                 && in_int64 xp
              then Some (Move user_id mt xp)
              else None
          | None => None
          end
      | _, _ => None
      end
  | CompleteRoutine (Some user_id) (JDict d) =>
      match get_default d "bonus_xp" (JInt 50) with
      | JInt bonus =>
          if in_int64 user_id && in_int64 bonus
          then Some (Bonus user_id bonus)
          else None
      | _ => None
      end
  | _ => None
  end.

Definition regular (r : request) : Prop := is_Some (action_of r).

(** The ledger row a regular request creates, if any. *)
Definition row_of (r : request) : option completed_exercise :=
  match action_of r with
  | Some (Move user_id mt xp) =>
      Some {| ce_user_id := user_id;
              ce_movement_type := Some (movement_type_name mt);
              ce_xp_earned := Some xp |}
  | _ => None
  end.

(** The rows a regular request appends: one or none. *)
Definition rows_of (r : request) : list completed_exercise :=
  match row_of r with
  | Some e => [e]
  | None => []
  end.

(** The request completes a move of [(user_id, mt)]. *)
Definition moves (user_id : Z) (mt : movement_type) (r : request) : Prop :=
  exists xp, action_of r = Some (Move user_id mt xp).

(** The bonus a regular request awards to [user_id]. *)
Definition bonus_of (r : request) (user_id : Z) : Z :=
  match action_of r with
  | Some (Bonus u bonus) => if (u =? user_id)%Z then bonus else 0%Z
  | _ => 0%Z
  end.


(** What a regular request adds to the total of [user_id]: the XP of
    its row, or its bonus. *)
Definition gain (r : request) (user_id : Z) : Z :=
  (ledger_total (rows_of r) user_id + bonus_of r user_id)%Z.

(** The size of what a regular request adds to the total of
    [user_id]. *)
Definition swing_of (r : request) (user_id : Z) : Z :=
  match action_of r with
  | Some (Move u _ xp) => if (u =? user_id)%Z then Z.abs xp else 0%Z
  | Some (Bonus u bonus) => if (u =? user_id)%Z then Z.abs bonus else 0%Z
  | _ => 0%Z
  end.

Definition swing (rs : list request) (user_id : Z) : Z :=
  fold_right (fun r acc => (swing_of r user_id + acc)%Z) 0%Z rs.

(** The stored total XP of [user_id], when the user has a row. *)
Definition stored_total (s : db) (user_id : Z) : option total :=
  total_xp <$> users s !! user_id.

(** A stored integer total raised by [x]; NULL stays NULL. *)
Definition raised_by (x : Z) (stored : total) : total :=
  match stored with
  | TInt t => TInt (t + x)
  | other => other
  end.

(** No stored integer total leaves 64 bits while [rs] is served, in
    whatever order. *)
Definition totals_fit (s : db) (rs : list request) : Prop :=
  forall user_id t,
    stored_total s user_id = Some (TInt t) ->
    (Z.abs t + swing rs user_id <= max_int64)%Z.

(** The cached level of [(user_id, mt)], when the user has a row. *)
Definition stored_level (s : db) (user_id : Z) (mt : movement_type)
    : option Z :=
  get_level mt <$> users s !! user_id.

(** The cached level of [(user_id, mt)] is the level of the ledger. *)
Definition cache_right (s : db) (user_id : Z) (mt : movement_type) : Prop :=
  exists xp l,
    sum_xp_earned (completed_exercises s) user_id
      (Some (movement_type_name mt)) = Ok xp
    /\ calculate_level xp = Ok l
    /\ stored_level s user_id mt = Some l.

(** The level recomputed from the ledger: the query of the sum, then
    the formula. *)
Definition recomputed_level (rows : list completed_exercise) (user_id : Z)
    (mt : movement_type) : result Z :=
  do xp <- sum_xp_earned rows user_id (Some (movement_type_name mt));
  calculate_level xp.

(** The append-only part of a sequence of move completions. *)
Definition append_all (rows : list completed_exercise) (s : db) : db :=
  {| users := users s;
     completed_exercises := completed_exercises s ++ rows;
     routines := routines s |}.

(** The request that completes a move of [xp] points for [user_id]. *)
Definition completion (user_id : Z) (mt : movement_type) (xp : Z)
    : request :=
  CompleteExercise (Some user_id)
    (JDict [ ("routine_id", JInt 1); ("exercise_name", JStr "Arm circles");
             ("movement_type", JStr (movement_type_name mt));
             ("xp_earned", JInt xp) ]).

End Spec.

(** ** Data of the examples *)

Module Examples.
Import PyStr AIEngine Main Spec.

Local Open Scope string_scope.

(** [s] between double quotes. *)
Definition quoted (s : string) : string := dq +:+ s +:+ dq.

(** A JSON document with three elements under [warmups]. *)
Definition demo_text : string :=
  "{" +:+ quoted "warmups" +:+ ": [{" +:+
  quoted "name" +:+ ": " +:+ quoted "Arm circles" +:+ ", " +:+
  quoted "duration_seconds" +:+ ": 30, " +:+
  quoted "movement_type" +:+ ": " +:+ quoted "Explosive" +:+ "}, {" +:+
  quoted "name" +:+ ": " +:+ quoted " " +:+ ", " +:+
  quoted "duration" +:+ ": 20}, 7], " +:+
  quoted "safety" +:+ ": " +:+ quoted "Stop if it hurts." +:+ "}".

(** The value of [json.loads demo_text]. *)
Definition demo_doc : json :=
  JDict [ ("warmups",
           JList [ JDict [ ("name", JStr "Arm circles");
                           ("duration_seconds", JInt 30);
                           ("movement_type", JStr "Explosive") ];
                   JDict [ ("name", JStr " "); ("duration", JInt 20) ];
                   JInt 7 ]);
          ("safety", JStr "Stop if it hurts.") ].

(** The provider's answer: the document inside a sentence. *)
Definition demo_output : string :=
  "Here you go: " +:+ demo_text +:+ " Enjoy! ".

(** A runtime for the examples: [json.loads] knows [demo_text] and
    rejects any other text, the provider answers [demo_output].  The
    examples call [str] on strings, [None], booleans and integers and
    [int] on numbers only. *)
Definition demo_repr (x : json) : string :=
  match x with
  | JNull => "None"
  | JBool true => "True"
  | JBool false => "False"
  | JInt z => pretty z
  | _ => ""
  end.

#[local] Instance demo_runtime : PyRuntime := {|
  json_loads s :=
    if String.eqb s demo_text then Loaded demo_doc
    else LoadError "Expecting value: line 1 column 1 (char 0)";
  py_repr := demo_repr;
  int_of_text _ := None;
  responses_create _ _ _ := Ok (Some demo_output)
|}.

(** A runtime whose provider answers the JSON text [null]. *)
#[local] Instance null_runtime : PyRuntime := {|
  json_loads s :=
    if String.eqb s "null" then Loaded JNull
    else LoadError "Expecting value: line 1 column 1 (char 0)";
  py_repr := demo_repr;
  int_of_text _ := None;
  responses_create _ _ _ := Ok (Some " null ")
|}.

(** An element whose [duration_seconds] is null beside a valid
    [duration]. *)
Definition null_duration : list (string * json) :=
  [ ("name", JStr "Arm circles"); ("duration_seconds", JNull);
    ("duration", JInt 30) ].

Definition run_5k : routine :=
  {| r_exercise := "5k training run"; r_sport_category := "Other";
     r_muscle_groups := "legs"; r_warmups := []; r_safety := "";
     r_raw := ""; r_error := None |}.

Definition empty_db : db :=
  {| users := ∅; completed_exercises := []; routines := [] |}.

(** A fresh user, as [signup] inserts it: no XP, every level 0. *)
Definition fresh_user : user_row :=
  {| total_xp := TInt 0; mobility_level := 0; activation_level := 0;
     stability_level := 0; power_level := 0; balance_level := 0 |}.

Definition one_user_db : db :=
  {| users := {[ 1%Z := fresh_user ]}; completed_exercises := [];
     routines := [] |}.

Definition move_a : completed_exercise :=
  {| ce_user_id := 1; ce_movement_type := Some "Mobility";
     ce_xp_earned := Some 150%Z |}.

Definition move_b : completed_exercise :=
  {| ce_user_id := 1; ce_movement_type := Some "Mobility";
     ce_xp_earned := Some 60%Z |}.

(** A database whose cached levels are behind its ledger, and which
    holds a routine stored under ["Other"]. *)
Definition stale_db : db :=
  {| users := {[ 1%Z := fresh_user ]};
     completed_exercises := [move_a; move_b];
     routines := [ {| rt_user_id := 1; rt_routine_json := run_5k;
                      rt_sport_category := "Other" |} ] |}.


(** A move completion that earns [2^62] XP, and the row it appends. *)
Definition huge_move : request := completion 1 Mobility (2 ^ 62).

Definition huge_row : completed_exercise :=
  {| ce_user_id := 1; ce_movement_type := Some "Mobility";
     ce_xp_earned := Some (2 ^ 62)%Z |}.


End Examples.

(** ** Properties of the binary64 operations *)

Module FloatFacts.
Import Float.

Lemma digits2_pos_size (p : positive) : digits2_pos p = Pos.size p.
Proof. induction p; simpl; congruence. Qed.

(** [Zdigits2] is the bit length. *)
Lemma Zdigits2_bounds (m : Z) :
  0 < m -> 2 ^ (Zdigits2 m - 1) <= m < 2 ^ Zdigits2 m.
Proof.
  destruct m as [|p|p]; try lia. intros _. simpl Zdigits2.
  rewrite digits2_pos_size.
  pose proof (Pos.size_gt p) as Hgt. pose proof (Pos.size_le p) as Hle.
  split.
  - assert (H : (2 ^ Z.pos (Pos.size p) <= 2 * Z.pos p)).
    { rewrite <- Pos2Z.inj_pow. change (2 * Z.pos p) with (Z.pos p~0). lia. }
    replace (Z.pos (Pos.size p)) with (Z.succ (Z.pos (Pos.size p) - 1)) in H by lia.
    rewrite Z.pow_succ_r in H by lia. lia.
  - rewrite <- Pos2Z.inj_pow. lia.
Qed.

Lemma Zdigits2_unique (m d : Z) :
  2 ^ (d - 1) <= m < 2 ^ d -> 0 < d -> Zdigits2 m = d.
Proof.
  intros [Hlo Hhi] Hd.
  assert (Hm : 0 < m) by (pose proof (Z.pow_pos_nonneg 2 (d - 1)); lia).
  pose proof (Zdigits2_bounds m Hm) as [Hlo' Hhi'].
  assert (Hd' : 0 < Zdigits2 m) by (destruct m; simpl; lia).
  destruct (Z.lt_trichotomy (Zdigits2 m) d) as [H|[H|H]]; [exfalso| exact H | exfalso].
  - assert (2 ^ Zdigits2 m <= 2 ^ (d - 1)) by (apply Z.pow_le_mono_r; lia). lia.
  - assert (2 ^ d <= 2 ^ (Zdigits2 m - 1)) by (apply Z.pow_le_mono_r; lia). lia.
Qed.

Lemma fexp_unfold (x : Z) : fexp prec emax x = Z.max (x - 53) (-1074).
Proof. reflexivity. Qed.

(** One right shift halves the mantissa. *)
Lemma shr_1_m (r : shr_record) :
  0 <= shr_m r -> shr_m (shr_1 r) = shr_m r / 2.
Proof.
  destruct r as [m r s]; simpl. intros Hm.
  rewrite <- Z.div2_div.
  destruct m as [|[p|p|]|p]; try reflexivity; lia.
Qed.

Lemma iter_shr_1_m (p : positive) (r : shr_record) :
  0 <= shr_m r -> shr_m (SpecFloat.iter_pos shr_1 p r) = shr_m r / 2 ^ Zpos p.
Proof.
  revert r. induction p as [p IH|p IH|]; intros r Hr; simpl SpecFloat.iter_pos.
  - assert (H1 : 0 <= shr_m (shr_1 r)).
    { rewrite shr_1_m by assumption. apply Z.div_pos; lia. }
    assert (H2 : 0 <= shr_m (SpecFloat.iter_pos shr_1 p (shr_1 r))).
    { rewrite IH by assumption. apply Z.div_pos; lia. }
    rewrite IH, IH, shr_1_m by assumption.
    rewrite !Z.div_div by lia. f_equal.
    replace (Z.pos p~1) with (1 + Z.pos p + Z.pos p) by lia.
    rewrite !Z.pow_add_r by lia. lia.
  - assert (H2 : 0 <= shr_m (SpecFloat.iter_pos shr_1 p r)).
    { rewrite IH by assumption. apply Z.div_pos; lia. }
    rewrite IH, IH by assumption.
    rewrite Z.div_div by lia. f_equal.
    replace (Z.pos p~0) with (Z.pos p + Z.pos p) by lia.
    rewrite Z.pow_add_r by lia. lia.
  - rewrite shr_1_m by assumption. reflexivity.
Qed.

Lemma shr_record_of_loc_m (m : Z) (l : location) :
  shr_m (shr_record_of_loc m l) = m.
Proof. destruct l as [|[]]; reflexivity. Qed.

(** Rounding to nearest moves the truncated mantissa up by at most one. *)
Lemma round_nearest_even_bounds (m : Z) (l : location) :
  m <= round_nearest_even m l <= m + 1.
Proof.
  destruct l as [|[]]; simpl; try lia.
  destruct (Z.even m); lia.
Qed.

(** A mantissa of [53] bits or more, in the normal range, is shifted down
    to exactly [53] bits. *)
Lemma shr_fexp_normal (m e : Z) (l : location) :
  0 < m -> 53 <= Zdigits2 m -> -1074 <= e + (Zdigits2 m - 53) ->
  exists r, shr_fexp prec emax m e l = (r, e + (Zdigits2 m - 53))
            /\ shr_m r = m / 2 ^ (Zdigits2 m - 53).
Proof.
  intros Hm Hd He. unfold shr_fexp. rewrite fexp_unfold.
  replace (Z.max (Zdigits2 m + e - 53) (-1074) - e) with (Zdigits2 m - 53) by lia.
  unfold shr. destruct (Zdigits2 m - 53) as [|k|k] eqn:Hk; try lia.
  - eexists; split.
    + rewrite Z.add_0_r. reflexivity.
    + rewrite shr_record_of_loc_m, Z.pow_0_r, Z.div_1_r. reflexivity.
  - eexists; split; [reflexivity|].
    rewrite iter_shr_1_m; rewrite shr_record_of_loc_m; [reflexivity|lia].
Qed.

(** The rounding step in the normal range: the result is a finite float
    whose value is the truncated mantissa or its successor, at the
    exponent of the truncation. *)
Lemma binary_round_aux_normal (m e : Z) (l : location) :
  0 < m -> 53 <= Zdigits2 m ->
  -1074 <= e + (Zdigits2 m - 53) -> e + (Zdigits2 m - 53) + 1 <= 971 ->
  exists (mf : positive) (ef m2 : Z),
    binary_round_aux prec emax false m e l = S754_finite false mf ef
    /\ m / 2 ^ (Zdigits2 m - 53) <= m2 <= m / 2 ^ (Zdigits2 m - 53) + 1
    /\ e + (Zdigits2 m - 53) <= ef <= e + (Zdigits2 m - 53) + 1
    /\ m2 = Zpos mf * 2 ^ (ef - (e + (Zdigits2 m - 53)))
    /\ 2 ^ 52 <= Zpos mf < 2 ^ 53.
Proof.
  intros Hm Hd Hlo Hhi.
  set (k := Zdigits2 m - 53) in *.
  destruct (shr_fexp_normal m e l Hm Hd Hlo) as (r1 & Hr1 & Hm1).
  fold k in Hr1, Hm1.
  unfold binary_round_aux. rewrite Hr1.
  pose proof (round_nearest_even_bounds (shr_m r1) (loc_of_shr_record r1)) as Hrn.
  remember (round_nearest_even (shr_m r1) (loc_of_shr_record r1)) as m2 eqn:Em2.
  clear Em2. rewrite Hm1 in Hrn.
  pose proof (Zdigits2_bounds m Hm) as [Hdl Hdh].
  assert (Hk : 0 <= k) by (unfold k; lia).
  assert (Hq : 2 ^ 52 <= m / 2 ^ k < 2 ^ 53).
  { assert (Hp : 0 < 2 ^ k) by (apply Z.pow_pos_nonneg; lia).
    replace (Zdigits2 m - 1) with (52 + k) in Hdl by (unfold k; lia).
    replace (Zdigits2 m) with (53 + k) in Hdh by (unfold k; lia).
    rewrite Z.pow_add_r in Hdl, Hdh by lia.
    split.
    - apply Z.div_le_lower_bound; lia.
    - apply Z.div_lt_upper_bound; lia. }
  assert (Hm2 : 0 < m2) by lia.
  assert (Hcase : m2 < 2 ^ 53 \/ m2 = 2 ^ 53) by lia.
  destruct Hcase as [Hlt|Heq].
  - assert (Hd2 : Zdigits2 m2 = 53) by (apply Zdigits2_unique; simpl; lia).
    destruct (shr_fexp_normal m2 (e + k) loc_Exact Hm2) as (r2 & Hr2 & Hm2'); try lia.
    rewrite Hd2 in Hr2, Hm2'. change (53 - 53) with 0 in Hr2, Hm2'.
    rewrite Z.add_0_r in Hr2. rewrite Z.pow_0_r, Z.div_1_r in Hm2'.
    rewrite Hr2, Hm2'.
    destruct m2 as [|mf|mf]; try lia.
    replace (e + k <=? emax - prec) with true
      by (symmetry; apply Z.leb_le; unfold emax, prec; lia).
    exists mf, (e + k), (Z.pos mf). split; [reflexivity|].
    rewrite Z.sub_diag, Z.pow_0_r. lia.
  - assert (Hd2 : Zdigits2 m2 = 54) by (rewrite Heq; reflexivity).
    destruct (shr_fexp_normal m2 (e + k) loc_Exact Hm2) as (r2 & Hr2 & Hm2'); try lia.
    rewrite Hd2 in Hr2, Hm2'. change (54 - 53) with 1 in Hr2, Hm2'.
    rewrite Heq in Hm2'. change (2 ^ 53 / 2 ^ 1) with (Z.pos (2 ^ 52)) in Hm2'.
    rewrite Hr2, Hm2'.
    replace (e + k + 1 <=? emax - prec) with true
      by (symmetry; apply Z.leb_le; unfold emax, prec; lia).
    exists (2 ^ 52)%positive, (e + k + 1), m2. split; [reflexivity|].
    replace (e + k + 1 - (e + k)) with 1 by lia.
    rewrite Heq. repeat split; try lia; reflexivity.
Qed.

Lemma div_eucl_div_mod (a b : Z) : Z.div_eucl a b = (a / b, a mod b).
Proof. unfold Z.div, Z.modulo. destruct (Z.div_eucl a b); reflexivity. Qed.

Lemma Zdigits2_le (m d : Z) : 0 < m -> 0 <= d -> m < 2 ^ d -> Zdigits2 m <= d.
Proof.
  intros Hm Hd Hlt. pose proof (Zdigits2_bounds m Hm) as [Hlo _].
  destruct (Z_le_gt_dec (Zdigits2 m) d) as [H|H]; [exact H|exfalso].
  assert (2 ^ d <= 2 ^ (Zdigits2 m - 1)) by (apply Z.pow_le_mono_r; lia). lia.
Qed.

Lemma Zdigits2_ge (m d : Z) : 0 < m -> 2 ^ (d - 1) <= m -> d <= Zdigits2 m.
Proof.
  intros Hm Hle. pose proof (Zdigits2_bounds m Hm) as [_ Hhi].
  assert (Hd' : 0 < Zdigits2 m) by (destruct m; simpl; lia).
  destruct (Z_le_gt_dec d (Zdigits2 m)) as [H|H]; [exact H|exfalso].
  assert (2 ^ Zdigits2 m <= 2 ^ (d - 1)) by (apply Z.pow_le_mono_r; lia). lia.
Qed.

(** The division core on [xp] and [50]: the quotient is computed on
    [xp] scaled up to [59] bits. *)
Lemma SFdiv_core_50 (xp : Z) :
  0 < xp -> xp < 2 ^ 52 ->
  SFdiv_core_binary prec emax xp 0 50 0 =
    (xp * 2 ^ (59 - Zdigits2 xp) / 50, - (59 - Zdigits2 xp),
     new_location 50 ((xp * 2 ^ (59 - Zdigits2 xp)) mod 50)).
Proof.
  intros Hpos Hlt.
  assert (Hd : Zdigits2 xp <= 52) by (apply Zdigits2_le; lia).
  assert (Hd0 : 0 < Zdigits2 xp) by (destruct xp; simpl; lia).
  unfold SFdiv_core_binary. rewrite fexp_unfold.
  change (Zdigits2 50) with 6.
  replace (Z.min (Z.max (Zdigits2 xp + 0 - (6 + 0) - 53) (-1074)) (0 - 0))
    with (- (59 - Zdigits2 xp)) by lia.
  replace (0 - 0 - - (59 - Zdigits2 xp)) with (59 - Zdigits2 xp) by lia.
  destruct (59 - Zdigits2 xp) as [|s|s] eqn:Hs; try lia.
  rewrite Z.shiftl_mul_pow2 by lia.
  rewrite div_eucl_div_mod. reflexivity.
Qed.

(** Bounds carried through a floor division by a positive [P]. *)
Lemma quot_low (a b c P : Z) :
  0 < P -> a * P <= b -> b < c * P + P -> a <= c.
Proof.
  intros HP Hab Hbc.
  assert (H : a * P < (c + 1) * P) by lia.
  apply Z.mul_lt_mono_pos_r in H; lia.
Qed.

(** The truncated quotient of [xp * s2] by [50], shifted down by [k2],
    stays above [n2 * 64 * T] when [50 * n2 <= xp]. *)
Lemma bracket_low (n2 xp s2 q q1 k2 T : Z) :
  0 <= n2 -> 0 < T -> 0 < k2 -> s2 = 64 * T * k2 ->
  50 * n2 <= xp -> xp * s2 < 50 * q + 50 ->
  q < k2 * q1 + k2 ->
  n2 * (64 * T) <= q1.
Proof.
  intros Hn HT Hk Hs Hlo Hqh Hq1h.
  assert (HU : 0 < T * k2) by (apply Z.mul_pos_pos; assumption).
  assert (Hs0 : 0 <= s2) by lia.
  assert (H1 : 50 * n2 * s2 <= xp * s2)
    by (apply Z.mul_le_mono_nonneg_r; assumption).
  assert (H2 : n2 * s2 <= q) by (apply (quot_low _ (xp * s2) _ 50); lia).
  apply (quot_low _ q _ k2); [assumption | | lia].
  rewrite Hs in H2. lia.
Qed.

(** ... and below [(64 * N - 1) * T] when [xp < 50 * N]. *)
Lemma bracket_upp (N xp s2 q q1 k2 T : Z) :
  0 < T -> 0 < k2 -> s2 = 64 * T * k2 ->
  xp < 50 * N -> 50 * q <= xp * s2 -> k2 * q1 <= q ->
  q1 < (64 * N - 1) * T.
Proof.
  intros HT Hk Hs Hhi Hql Hq1l.
  destruct (Z_lt_le_dec q1 ((64 * N - 1) * T)) as [H|H]; [exact H|exfalso].
  assert (HU : 0 < T * k2) by (apply Z.mul_pos_pos; assumption).
  assert (Hs0 : 0 <= s2) by lia.
  assert (H1 : (64 * N - 1) * T * k2 <= q1 * k2)
    by (apply Z.mul_le_mono_nonneg_r; lia).
  assert (H2 : xp * s2 <= (50 * N - 1) * s2)
    by (apply Z.mul_le_mono_nonneg_r; lia).
  rewrite Hs in H2, Hql. lia.
Qed.

(** The rounded mantissa [mf], at a scale [PF] with [PF * D = 64 * T],
    keeps the two bounds. *)
Lemma round_bracket (n2 N q1 m2 mf PF D T : Z) :
  0 < D -> PF * D = 64 * T -> q1 <= m2 <= q1 + 1 -> m2 = mf * D ->
  n2 * (64 * T) <= q1 -> q1 + 1 <= (64 * N - 1) * T ->
  mf * 64 <= (64 * N - 1) * PF /\ n2 * PF <= mf.
Proof.
  intros HD HPD Hm2 Hval Hlow Hupp.
  assert (HN : N * (PF * D) = N * (64 * T)) by (now rewrite HPD).
  assert (Hn : n2 * (PF * D) = n2 * (64 * T)) by (now rewrite HPD).
  split; apply Z.mul_le_mono_pos_r with (p := D); try assumption; lia.
Qed.

Lemma scale_above_64 (mf N PF : Z) :
  2 ^ 52 <= mf -> 0 < N -> N <= 2 ^ 46 -> mf * 64 <= (64 * N - 1) * PF ->
  64 < PF.
Proof.
  intros Hmf HN0 HN Hb.
  destruct (Z_lt_le_dec 64 PF) as [H|H]; [exact H|exfalso].
  assert (H1 : (64 * N - 1) * PF <= (64 * N - 1) * 64)
    by (apply Z.mul_le_mono_nonneg_l; lia).
  change (2 ^ 52) with 4503599627370496 in Hmf.
  change (2 ^ 46) with 70368744177664 in HN. lia.
Qed.

(** [xp / 50] for an [xp] whose exact level is [n < 2^23]: a finite float
    [mf * 2^(-F)] between [n^2] and [(n+1)^2 - 1/64]. *)
Lemma int_true_divide_50 (xp n : Z) :
  0 < xp -> 0 <= n -> n + 1 <= 2 ^ 23 ->
  50 * n ^ 2 <= xp -> xp < 50 * (n + 1) ^ 2 ->
  exists (mf : positive) (F : Z),
    int_true_divide xp 50 = Ok (S754_finite false mf (- F))
    /\ 2 ^ 52 <= Zpos mf < 2 ^ 53
    /\ 7 <= F <= 58
    /\ n ^ 2 * 2 ^ F <= Zpos mf
    /\ Zpos mf * 64 <= (64 * (n + 1) ^ 2 - 1) * 2 ^ F.
Proof.
  intros Hpos Hn Hn23 Hlo Hhi.
  assert (HN : (n + 1) ^ 2 <= 2 ^ 46).
  { change (2 ^ 46) with ((2 ^ 23) ^ 2). apply Z.pow_le_mono_l. lia. }
  assert (Hxp : xp < 2 ^ 52) by lia.
  assert (Hd : Zdigits2 xp <= 52) by (apply Zdigits2_le; lia).
  assert (Hd0 : 0 < Zdigits2 xp) by (destruct xp; simpl; lia).
  pose proof (Zdigits2_bounds xp Hpos) as [Hxl Hxh].
  unfold int_true_divide.
  replace (50 =? 0) with false by reflexivity.
  replace (xp =? 0) with false by (symmetry; apply Z.eqb_neq; lia).
  replace (xp <? 0) with false by (symmetry; apply Z.ltb_ge; lia).
  replace (Z.abs xp) with xp by lia. change (Z.abs 50) with 50.
  rewrite SFdiv_core_50 by assumption.
  set (s := 59 - Zdigits2 xp) in *.
  set (q := xp * 2 ^ s / 50).
  assert (Hs : 7 <= s <= 58) by (unfold s; lia).
  assert (Hps : 0 < 2 ^ s) by (apply Z.pow_pos_nonneg; lia).
  (* the scaled numerator has exactly 59 bits *)
  assert (Hnum : 2 ^ 58 <= xp * 2 ^ s < 2 ^ 59).
  { replace 58 with (Zdigits2 xp - 1 + s) by (unfold s; lia).
    replace 59 with (Zdigits2 xp + s) by (unfold s; lia).
    rewrite !Z.pow_add_r by lia. nia. }
  assert (Hq : 2 ^ 52 <= q < 2 ^ 54).
  { unfold q. split.
    - apply Z.div_le_lower_bound; lia.
    - apply Z.div_lt_upper_bound; lia. }
  assert (Hq0 : 0 < q) by lia.
  assert (Hdq : 53 <= Zdigits2 q <= 54).
  { split; [apply Zdigits2_ge | apply Zdigits2_le]; simpl; lia. }
  destruct (binary_round_aux_normal q (- s)
              (new_location 50 ((xp * 2 ^ s) mod 50)) Hq0)
    as (mf & ef & m2 & Hr & Hm2 & Hef & Hval & Hmf); try lia.
  change (xorb false (50 <? 0)) with false. rewrite Hr.
  set (k := Zdigits2 q - 53) in *.
  exists mf, (- ef). rewrite Z.opp_involutive. split; [reflexivity|].
  split; [exact Hmf|].
  (* everything in terms of T = 2^(E-6), E = s - k *)
  assert (Hk : k = 0 \/ k = 1) by lia.
  assert (HE : ef = - s + k \/ ef = - s + k + 1) by lia.
  set (T := 2 ^ (s - k - 6)).
  assert (HT : 0 < T) by (apply Z.pow_pos_nonneg; lia).
  assert (H2s : 2 ^ s = 64 * T * 2 ^ k).
  { unfold T. change 64 with (2 ^ 6). rewrite <- !Z.pow_add_r by lia.
    f_equal. lia. }
  assert (Hql : 50 * q <= xp * 2 ^ s) by (apply Z.mul_div_le; lia).
  assert (Hqh : xp * 2 ^ s < 50 * q + 50).
  { pose proof (Z.mul_succ_div_gt (xp * 2 ^ s) 50). lia. }
  assert (Hq1l : 2 ^ k * (q / 2 ^ k) <= q)
    by (apply Z.mul_div_le; apply Z.pow_pos_nonneg; lia).
  assert (Hq1h : q < 2 ^ k * (q / 2 ^ k) + 2 ^ k).
  { pose proof (Z.mul_succ_div_gt q (2 ^ k)).
    assert (0 < 2 ^ k) by (apply Z.pow_pos_nonneg; lia). lia. }
  set (N := (n + 1) ^ 2) in *.
  set (q1 := q / 2 ^ k) in *.
  assert (Hpk : 0 < 2 ^ k) by (apply Z.pow_pos_nonneg; lia).
  assert (Hn2 : 0 <= n ^ 2) by (apply Z.pow_nonneg; lia).
  assert (Hlow : n ^ 2 * (64 * T) <= q1).
  { apply (bracket_low (n ^ 2) xp (2 ^ s) q q1 (2 ^ k) T); lia. }
  assert (Hupp : q1 + 1 <= (64 * N - 1) * T).
  { assert (q1 < (64 * N - 1) * T); [|lia].
    apply (bracket_upp N xp (2 ^ s) q q1 (2 ^ k) T); lia. }
  assert (HF : 2 ^ (- ef) * 2 ^ (ef - (- s + k)) = 64 * T).
  { unfold T. change 64 with (2 ^ 6). rewrite <- !Z.pow_add_r by lia.
    f_equal. lia. }
  assert (HPF : 0 < 2 ^ (- ef)) by (apply Z.pow_pos_nonneg; lia).
  assert (HD : 0 < 2 ^ (ef - (- s + k))) by (apply Z.pow_pos_nonneg; lia).
  assert (Hbnd : Z.pos mf * 64 <= (64 * N - 1) * 2 ^ (- ef)
                 /\ n ^ 2 * 2 ^ (- ef) <= Z.pos mf).
  { apply (round_bracket (n ^ 2) N q1 m2 (Z.pos mf) (2 ^ (- ef))
             (2 ^ (ef - (- s + k))) T); assumption. }
  destruct Hbnd as [Hb1 Hb2].
  split; [|split; assumption].
  split; [|lia].
  assert (HN0 : 0 < N) by (unfold N; apply Z.pow_pos_nonneg; lia).
  assert (H64 : 2 ^ 6 < 2 ^ (- ef)).
  { change (2 ^ 6) with 64.
    apply (scale_above_64 (Z.pos mf) N); [lia | assumption | assumption |].
    exact Hb1. }
  apply Z.pow_lt_mono_r_iff in H64; lia.
Qed.

(** The square-root core on a [53]-bit mantissa: the integer root is
    taken on the mantissa scaled up to [105] or [106] bits. *)
Lemma SFsqrt_core_53 (mf : positive) (F : Z) :
  2 ^ 52 <= Zpos mf < 2 ^ 53 -> 7 <= F <= 58 ->
  exists l,
    SFsqrt_core_binary prec emax (Zpos mf) (- F) =
      (Z.sqrt (Zpos mf * 2 ^ (2 * (26 - (- F) / 2) - F)), - (26 - (- F) / 2), l).
Proof.
  intros Hmf HF.
  assert (Hd : Zdigits2 (Z.pos mf) = 53) by (apply Zdigits2_unique; simpl; lia).
  unfold SFsqrt_core_binary. rewrite Hd, fexp_unfold, !Z.div2_div.
  set (h := (- F) / 2).
  assert (Hh : 2 * h <= - F < 2 * h + 2).
  { unfold h. pose proof (Z.mul_div_le (- F) 2).
    pose proof (Z.mul_succ_div_gt (- F) 2). lia. }
  replace ((53 + - F + 1) / 2) with (h + 27).
  2:{ unfold h. replace (53 + - F + 1) with (- F + 27 * 2) by lia.
      rewrite Z.div_add by lia. reflexivity. }
  replace (Z.min (Z.max (h + 27 - 53) (-1074)) h) with (- (26 - h)) by lia.
  replace (- F - 2 * - (26 - h)) with (2 * (26 - h) - F) by lia.
  destruct (2 * (26 - h) - F) as [|t|t] eqn:Ht; try lia.
  rewrite Z.shiftl_mul_pow2 by lia.
  pose proof (Z.sqrtrem_sqrt (Z.pos mf * 2 ^ Z.pos t)) as Hsq.
  destruct (Z.sqrtrem (Z.pos mf * 2 ^ Z.pos t)) as [q r]. simpl in Hsq.
  subst q. eexists. reflexivity.
Qed.

(** [(64 * (n+1)^2 - 1) * 2^54 < ((n+1) * 2^30 - 1)^2] up to [n+1 = 2^23]. *)
Lemma square_gap (a : Z) :
  0 < a -> a <= 8388608 ->
  (64 * (a * a) - 1) * 18014398509481984
  < (a * 1073741824 - 1) * (a * 1073741824 - 1).
Proof. intros H0 H1. lia. Qed.

(** The rounded root [mr], at a scale [PE] with [G2 = PE * D], has
    integer part [n]. *)
Lemma floor_bracket (n q m2 mr PE D G2 CW : Z) :
  0 < D -> G2 = PE * D -> q <= m2 <= q + 1 -> m2 = mr * D ->
  n * G2 <= q -> q < CW -> CW < (n + 1) * G2 ->
  0 <= mr - n * PE < PE.
Proof.
  intros HD HG Hm2 Hval Hlow Hupp HCn. subst G2 m2.
  assert (H1 : n * PE * D <= mr * D) by lia.
  assert (H2 : mr * D < (n + 1) * PE * D) by lia.
  apply Z.mul_le_mono_pos_r in H1; [|assumption].
  apply Z.mul_lt_mono_pos_r in H2; [|assumption]. lia.
Qed.

(** [math.floor(math.sqrt(x))] for a float [x = mf * 2^(-F)] between
    [n^2] and [(n+1)^2 - 1/64], when [n < 2^23]: exactly [n]. *)
Lemma floor_sqrt_bracket (mf : positive) (F n : Z) :
  2 ^ 52 <= Zpos mf < 2 ^ 53 -> 7 <= F <= 58 ->
  0 <= n -> n + 1 <= 2 ^ 23 ->
  n ^ 2 * 2 ^ F <= Zpos mf ->
  Zpos mf * 64 <= (64 * (n + 1) ^ 2 - 1) * 2 ^ F ->
  exists r, math_sqrt (S754_finite false mf (- F)) = Ok r
            /\ math_floor r = Ok n.
Proof.
  intros Hmf HF Hn Hn23 Hlo Hhi.
  unfold math_sqrt, SFsqrt.
  destruct (SFsqrt_core_53 mf F Hmf HF) as (l & Hcore). rewrite Hcore.
  set (h := (- F) / 2) in *.
  assert (Hh : 2 * h <= - F < 2 * h + 2).
  { unfold h. pose proof (Z.mul_div_le (- F) 2).
    pose proof (Z.mul_succ_div_gt (- F) 2). lia. }
  set (G := 26 - h) in *.
  assert (HG : 30 <= G <= 55) by (unfold G; lia).
  set (t := 2 * G - F) in *.
  assert (Ht : t = 52 \/ t = 53) by (unfold t, G; lia).
  set (m' := Z.pos mf * 2 ^ t) in *.
  set (q := Z.sqrt m') in *.
  assert (Hm' : 2 ^ 104 <= m' < 2 ^ 106).
  { unfold m'. destruct Ht as [Ht|Ht]; rewrite Ht.
    - change (2 ^ 104) with (2 ^ 52 * 2 ^ 52).
      change (2 ^ 106) with (2 ^ 53 * 2 ^ 52 * 2). lia.
    - change (2 ^ 104) with (2 ^ 52 * 2 ^ 52).
      change (2 ^ 106) with (2 ^ 53 * 2 ^ 53).
      assert (0 < 2 ^ 53) by lia. nia. }
  assert (Hq : 2 ^ 52 <= q < 2 ^ 53).
  { unfold q. split.
    - apply Z.sqrt_le_square; lia.
    - apply Z.sqrt_lt_square; lia. }
  assert (Hq0 : 0 < q) by lia.
  assert (Hdq : Zdigits2 q = 53) by (apply Zdigits2_unique; simpl; lia).
  destruct (binary_round_aux_normal q (- G) l Hq0)
    as (mr & er & m2 & Hr & Hm2 & Her & Hval & Hmr); try lia.
  rewrite Hdq in Hm2, Her, Hval. change (53 - 53) with 0 in Hm2, Her, Hval.
  rewrite Z.pow_0_r, Z.div_1_r in Hm2. rewrite Z.add_0_r in Her, Hval.
  rewrite Hr. eexists; split; [reflexivity|].
  unfold math_floor, cond_Zopp. f_equal.
  (* powers of two in play *)
  set (PF := 2 ^ F) in *.
  assert (HPF : 0 < PF) by (apply Z.pow_pos_nonneg; lia).
  set (W := 2 ^ (G - 30)).
  assert (HW : 0 < W) by (apply Z.pow_pos_nonneg; lia).
  assert (H2G : 2 ^ G = 2 ^ 30 * W).
  { unfold W. rewrite <- Z.pow_add_r by lia. f_equal. lia. }
  assert (H2t : 2 ^ t * PF = 2 ^ G * 2 ^ G).
  { unfold PF, t. rewrite <- !Z.pow_add_r by lia. f_equal. lia. }
  assert (Hpt : 0 < 2 ^ t) by (apply Z.pow_pos_nonneg; lia).
  set (N := (n + 1) ^ 2) in *.
  assert (HNsq : N = (n + 1) * (n + 1)) by (unfold N; lia).
  assert (Hnsq : n ^ 2 = n * n) by lia.
  set (C := (n + 1) * 2 ^ 30 - 1).
  (* lower bracket: n * 2^G <= q *)
  assert (HpG : 0 < 2 ^ G) by (apply Z.pow_pos_nonneg; lia).
  assert (Hlow : n * 2 ^ G <= q).
  { unfold q. apply Z.sqrt_le_square;
      [lia | apply Z.mul_nonneg_nonneg; lia |].
    unfold m'. rewrite Hnsq in Hlo.
    assert (n * n * PF * 2 ^ t <= Z.pos mf * 2 ^ t)
      by (apply Z.mul_le_mono_nonneg_r; lia).
    replace (n * 2 ^ G * (n * 2 ^ G)) with (n * n * (2 ^ G * 2 ^ G)) by ring.
    rewrite <- H2t. lia. }
  (* upper bracket: q + 1 <= C * W *)
  assert (HC : 0 <= C) by (unfold C; change (2 ^ 30) with 1073741824; lia).
  assert (Hupp : q < C * W).
  { assert (HC0 : 0 <= C * W) by (apply Z.mul_nonneg_nonneg; lia).
    unfold q. apply Z.sqrt_lt_square; [lia | exact HC0 |].
    unfold m'.
    assert (HBC : (64 * N - 1) * 2 ^ 54 < C * C).
    { unfold C. rewrite HNsq.
      change (2 ^ 54) with 18014398509481984.
      change (2 ^ 30) with 1073741824.
      change (2 ^ 23) with 8388608 in Hn23.
      apply square_gap; lia. }
    assert (H1 : Z.pos mf * 2 ^ 60 < C * C * PF).
    { change (2 ^ 60) with (64 * 2 ^ 54).
      assert (Ha : Z.pos mf * 64 * 2 ^ 54 <= (64 * N - 1) * PF * 2 ^ 54)
        by (apply Z.mul_le_mono_nonneg_r; lia).
      assert (Hb : (64 * N - 1) * 2 ^ 54 * PF < C * C * PF)
        by (apply Z.mul_lt_mono_pos_r; assumption).
      lia. }
    assert (H2 : Z.pos mf * 2 ^ t * 2 ^ 60 < C * W * (C * W) * 2 ^ 60).
    { replace (C * W * (C * W) * 2 ^ 60) with (C * C * (2 ^ 30 * W * (2 ^ 30 * W)))
        by (change (2 ^ 60) with (2 ^ 30 * 2 ^ 30); ring).
      rewrite <- H2G, <- H2t.
      assert (Hc : Z.pos mf * 2 ^ 60 * 2 ^ t < C * C * PF * 2 ^ t)
        by (apply Z.mul_lt_mono_pos_r; assumption).
      lia. }
    apply Z.mul_lt_mono_pos_r in H2; [exact H2 | lia]. }
  assert (HCn : C * W < (n + 1) * 2 ^ G).
  { rewrite H2G. unfold C. change (2 ^ 30) with 1073741824. lia. }
  (* the floor *)
  assert (Hneg : er < 0) by lia.
  rewrite <- (Z.opp_involutive er), Z.shiftl_opp_r, Z.shiftr_div_pow2 by lia.
  assert (Hpe : 0 < 2 ^ (- er)) by (apply Z.pow_pos_nonneg; lia).
  assert (HD : 0 < 2 ^ (er - - G)) by (apply Z.pow_pos_nonneg; lia).
  assert (H2e : 2 ^ G = 2 ^ (- er) * 2 ^ (er - - G)).
  { rewrite <- Z.pow_add_r by lia. f_equal. lia. }
  symmetry. apply Z.div_unique with (r := Z.pos mr - n * 2 ^ (- er)); [|lia].
  left.
  apply (floor_bracket n q m2 (Z.pos mr) (2 ^ (- er)) (2 ^ (er - - G))
           (2 ^ G) (C * W)); assumption.
Qed.

End FloatFacts.

(** ** Correct rounding: the level of a threshold *)

Module RoundingFacts.
Import Float FloatFacts.

Lemma shr_1_record (m : Z) (r s : bool) :
  0 <= m ->
  shr_1 (Build_shr_record m r s)
  = Build_shr_record (m / 2) (Z.odd m) (r || s).
Proof.
  intros Hm. rewrite <- Z.div2_div.
  destruct m as [|[p|p|]|p]; try reflexivity; lia.
Qed.

(** An invariant that one step carries from [j] to [j + 1] holds, after
    [iter_pos], [p] steps further. *)
Lemma iter_pos_steps {A : Type} (f : A -> A) (P : Z -> A -> Prop) :
  (forall j x, 0 <= j -> P j x -> P (j + 1) (f x)) ->
  forall (p : positive) (j : Z) (x : A),
    0 <= j -> P j x -> P (j + Zpos p) (SpecFloat.iter_pos f p x).
Proof.
  intros Hstep. induction p as [p IH|p IH|]; intros j x Hj Hx;
    simpl SpecFloat.iter_pos.
  - replace (j + Z.pos p~1) with (j + 1 + Z.pos p + Z.pos p) by lia.
    apply IH; [lia|]. apply IH; [lia|]. now apply Hstep.
  - replace (j + Z.pos p~0) with (j + Z.pos p + Z.pos p) by lia.
    apply IH; [lia|]. now apply IH.
  - now apply Hstep.
Qed.

(** The record after [j] shifts of [Q]: the mantissa is the quotient by
    [2^j]; the round bit says whether the remainder reaches the half,
    the sticky bit whether it is neither [0] nor the half. *)
Lemma shr_1_remainder (Q j : Z) (rec : shr_record) :
  0 <= j ->
  (0 <= shr_m rec
   /\ exists rho,
        Q = shr_m rec * 2 ^ j + rho /\ 0 <= rho < 2 ^ j
        /\ (shr_r rec = true <-> 2 ^ j <= 2 * rho)
        /\ (shr_s rec = true <-> rho <> 0 /\ 2 * rho <> 2 ^ j)) ->
  0 <= shr_m (shr_1 rec)
  /\ exists rho,
       Q = shr_m (shr_1 rec) * 2 ^ (j + 1) + rho /\ 0 <= rho < 2 ^ (j + 1)
       /\ (shr_r (shr_1 rec) = true <-> 2 ^ (j + 1) <= 2 * rho)
       /\ (shr_s (shr_1 rec) = true <-> rho <> 0 /\ 2 * rho <> 2 ^ (j + 1)).
Proof.
  intros Hj (Hm & rho & HQ & Hrho & Hr & Hs).
  destruct rec as [m r s]. cbn [shr_m shr_r shr_s] in *.
  rewrite shr_1_record by exact Hm. cbn [shr_m shr_r shr_s].
  assert (Hp : 0 < 2 ^ j) by (apply Z.pow_pos_nonneg; lia).
  rewrite Z.pow_add_r, Z.pow_1_r by lia.
  pose proof (Z.div_mod m 2 ltac:(lia)) as Hdm.
  pose proof (Z.mod_pos_bound m 2 ltac:(lia)) as Hb.
  assert (Hodd : Z.odd m = true <-> m mod 2 = 1).
  { rewrite Zmod_odd. destruct (Z.odd m); split; intros; lia || congruence. }
  split; [apply Z.div_pos; lia|].
  exists (rho + (m mod 2) * 2 ^ j).
  split; [rewrite HQ; rewrite Hdm at 1; ring|].
  assert (Hbit : m mod 2 = 0 \/ m mod 2 = 1) by lia.
  rewrite Hodd. clear Hodd Hdm HQ.
  destruct Hbit as [E|E]; rewrite E; clear E.
  - split; [lia|]. split; [lia|].
    rewrite orb_true_iff, Hr, Hs. split; [intros; lia|].
    intros [H1 H2].
    destruct (Z_le_gt_dec (2 ^ j) (2 * rho)); [now left|right; lia].
  - split; [lia|]. split; [lia|].
    rewrite orb_true_iff, Hr, Hs. split; [intros; lia|].
    intros [H1 H2].
    destruct (Z_le_gt_dec (2 ^ j) (2 * rho)); [now left|right; lia].
Qed.

(** Shifting an exact mantissa [m] down to [53] bits and rounding to
    nearest even gives a mantissa [m2] whose distance to [m], at the
    scale of the shift, is at most one half. *)
Lemma shr_fexp_exact (m e : Z) :
  0 < m -> 53 <= Zdigits2 m -> -1074 <= e + (Zdigits2 m - 53) ->
  exists r,
    shr_fexp prec emax m e loc_Exact = (r, e + (Zdigits2 m - 53))
    /\ (2 * round_nearest_even (shr_m r) (loc_of_shr_record r) - 1)
       * 2 ^ (Zdigits2 m - 53) <= 2 * m
    /\ 2 * m <= (2 * round_nearest_even (shr_m r) (loc_of_shr_record r) + 1)
                * 2 ^ (Zdigits2 m - 53).
Proof.
  intros Hm Hd He. unfold shr_fexp. rewrite fexp_unfold.
  replace (Z.max (Zdigits2 m + e - 53) (-1074) - e) with (Zdigits2 m - 53)
    by lia.
  unfold shr. destruct (Zdigits2 m - 53) as [|k|k] eqn:Hk; try lia.
  - eexists. split; [rewrite Z.add_0_r; reflexivity|].
    cbn [shr_record_of_loc shr_m loc_of_shr_record round_nearest_even].
    lia.
  - eexists. split; [reflexivity|].
    pose proof (iter_pos_steps shr_1
                  (fun j rec =>
                     0 <= shr_m rec
                     /\ exists rho,
                          m = shr_m rec * 2 ^ j + rho /\ 0 <= rho < 2 ^ j
                          /\ (shr_r rec = true <-> 2 ^ j <= 2 * rho)
                          /\ (shr_s rec = true
                              <-> rho <> 0 /\ 2 * rho <> 2 ^ j))
                  (shr_1_remainder m) k 0
                  (shr_record_of_loc m loc_Exact)) as Hinv.
    destruct Hinv as (Hm0 & rho & HQ & Hrho & Hr & Hs); [lia| |].
    { cbn [shr_record_of_loc shr_m shr_r shr_s]. split; [lia|].
      exists 0. rewrite Z.pow_0_r. repeat split; try lia; discriminate. }
    rewrite Z.add_0_l in *.
    destruct (SpecFloat.iter_pos shr_1 k (shr_record_of_loc m loc_Exact))
      as [mr r s].
    cbn [shr_m shr_r shr_s loc_of_shr_record] in *.
    assert (Hp : 0 < 2 ^ Z.pos k) by (apply Z.pow_pos_nonneg; lia).
    destruct r, s; cbn [round_nearest_even].
    + assert (2 ^ Z.pos k <= 2 * rho) by (apply Hr; reflexivity). lia.
    + assert (2 ^ Z.pos k <= 2 * rho) by (apply Hr; reflexivity).
      assert (Heq : 2 * rho = 2 ^ Z.pos k).
      { destruct (Z.eq_dec (2 * rho) (2 ^ Z.pos k)) as [E|E]; [exact E|].
        assert (false = true) by (apply Hs; lia). discriminate. }
      destruct (Z.even mr); lia.
    + assert (Hlt : 2 * rho < 2 ^ Z.pos k).
      { destruct (Z_lt_le_dec (2 * rho) (2 ^ Z.pos k)) as [E|E]; [exact E|].
        assert (false = true) by (apply Hr; lia). discriminate. }
      lia.
    + assert (Hlt : 2 * rho < 2 ^ Z.pos k).
      { destruct (Z_lt_le_dec (2 * rho) (2 ^ Z.pos k)) as [E|E]; [exact E|].
        assert (false = true) by (apply Hr; lia). discriminate. }
      lia.
Qed.

(** The rounding step in the normal range, with the rounded mantissa
    named: it is [round_nearest_even] of the shifted record. *)
Lemma binary_round_aux_round (m e : Z) (l : location) :
  0 < m -> 53 <= Zdigits2 m ->
  -1074 <= e + (Zdigits2 m - 53) -> e + (Zdigits2 m - 53) + 1 <= 971 ->
  exists (r1 : shr_record) (mf : positive) (ef : Z),
    shr_fexp prec emax m e l = (r1, e + (Zdigits2 m - 53))
    /\ binary_round_aux prec emax false m e l = S754_finite false mf ef
    /\ e + (Zdigits2 m - 53) <= ef <= e + (Zdigits2 m - 53) + 1
    /\ round_nearest_even (shr_m r1) (loc_of_shr_record r1)
       = Zpos mf * 2 ^ (ef - (e + (Zdigits2 m - 53)))
    /\ 2 ^ 52 <= Zpos mf < 2 ^ 53.
Proof.
  intros Hm Hd Hlo Hhi.
  set (k := Zdigits2 m - 53) in *.
  destruct (shr_fexp_normal m e l Hm Hd Hlo) as (r1 & Hr1 & Hm1).
  fold k in Hr1, Hm1.
  unfold binary_round_aux. rewrite Hr1.
  pose proof (round_nearest_even_bounds (shr_m r1) (loc_of_shr_record r1))
    as Hrn.
  remember (round_nearest_even (shr_m r1) (loc_of_shr_record r1)) as m2
    eqn:Em2.
  rewrite Hm1 in Hrn.
  pose proof (Zdigits2_bounds m Hm) as [Hdl Hdh].
  assert (Hk : 0 <= k) by (unfold k; lia).
  assert (Hq : 2 ^ 52 <= m / 2 ^ k < 2 ^ 53).
  { assert (Hp : 0 < 2 ^ k) by (apply Z.pow_pos_nonneg; lia).
    replace (Zdigits2 m - 1) with (52 + k) in Hdl by (unfold k; lia).
    replace (Zdigits2 m) with (53 + k) in Hdh by (unfold k; lia).
    rewrite Z.pow_add_r in Hdl, Hdh by lia.
    split.
    - apply Z.div_le_lower_bound; lia.
    - apply Z.div_lt_upper_bound; lia. }
  assert (Hm2 : 0 < m2) by lia.
  assert (Hcase : m2 < 2 ^ 53 \/ m2 = 2 ^ 53) by lia.
  destruct Hcase as [Hlt|Heq].
  - assert (Hd2 : Zdigits2 m2 = 53) by (apply Zdigits2_unique; simpl; lia).
    destruct (shr_fexp_normal m2 (e + k) loc_Exact Hm2) as (r2 & Hr2 & Hm2');
      try lia.
    rewrite Hd2 in Hr2, Hm2'. change (53 - 53) with 0 in Hr2, Hm2'.
    rewrite Z.add_0_r in Hr2. rewrite Z.pow_0_r, Z.div_1_r in Hm2'.
    rewrite Hr2, Hm2'.
    destruct m2 as [|mf|mf]; try lia.
    replace (e + k <=? emax - prec) with true
      by (symmetry; apply Z.leb_le; unfold emax, prec; lia).
    exists r1, mf, (e + k). split; [reflexivity|]. split; [reflexivity|].
    rewrite <- Em2, Z.sub_diag, Z.pow_0_r. lia.
  - assert (Hd2 : Zdigits2 m2 = 54) by (rewrite Heq; reflexivity).
    destruct (shr_fexp_normal m2 (e + k) loc_Exact Hm2) as (r2 & Hr2 & Hm2');
      try lia.
    rewrite Hd2 in Hr2, Hm2'. change (54 - 53) with 1 in Hr2, Hm2'.
    rewrite Heq in Hm2'. change (2 ^ 53 / 2 ^ 1) with (Z.pos (2 ^ 52)) in Hm2'.
    rewrite Hr2, Hm2'.
    replace (e + k + 1 <=? emax - prec) with true
      by (symmetry; apply Z.leb_le; unfold emax, prec; lia).
    exists r1, (2 ^ 52)%positive, (e + k + 1).
    split; [reflexivity|]. split; [reflexivity|].
    replace (e + k + 1 - (e + k)) with 1 by lia.
    rewrite <- Em2, Heq. repeat split; try lia; reflexivity.
Qed.

(** The division core on a multiple of [50]: the quotient is exact. *)
Lemma SFdiv_core_multiple (N : Z) :
  0 < N ->
  SFdiv_core_binary prec emax (50 * N) 0 50 0
  = (N * 2 ^ Z.max 0 (59 - Zdigits2 (50 * N)),
     - Z.max 0 (59 - Zdigits2 (50 * N)), loc_Exact).
Proof.
  intros HN.
  assert (Hd : 6 <= Zdigits2 (50 * N))
    by (apply Zdigits2_ge; [lia | change (2 ^ (6 - 1)) with 32; lia]).
  unfold SFdiv_core_binary. rewrite fexp_unfold.
  change (Zdigits2 50) with 6.
  set (s := Z.max 0 (59 - Zdigits2 (50 * N))).
  replace (Z.min (Z.max (Zdigits2 (50 * N) + 0 - (6 + 0) - 53) (-1074))
             (0 - 0)) with (- s) by (unfold s; lia).
  replace (0 - 0 - - s) with s by lia.
  assert (Hs : 0 <= s) by (unfold s; lia).
  destruct s as [|p|p] eqn:Es; try lia.
  - rewrite div_eucl_div_mod, Z.mul_comm, Z.div_mul, Z.mod_mul by lia.
    rewrite Z.pow_0_r, Z.mul_1_r. reflexivity.
  - rewrite Z.shiftl_mul_pow2 by lia.
    replace (50 * N * 2 ^ Z.pos p) with (N * 2 ^ Z.pos p * 50) by ring.
    rewrite div_eucl_div_mod, Z.div_mul, Z.mod_mul by lia. reflexivity.
Qed.

(** A relative error of [2^-53], kept under a common scale [P]. *)
Lemma half_ulp_scaled (X Q U P : Z) :
  0 < P -> 2 ^ 52 * U <= X -> 2 ^ 52 * U <= Q ->
  2 * X - U <= 2 * Q -> 2 * Q <= 2 * X + U ->
  (X * P - Q * P) * 2 ^ 53 <= Q * P
  /\ (Q * P - X * P) * 2 ^ 53 <= X * P.
Proof.
  intros HP HX HQ Hlo Hhi.
  change (2 ^ 52) with 4503599627370496 in *.
  change (2 ^ 53) with 9007199254740992.
  assert (H1 : (X - Q) * 9007199254740992 <= Q) by lia.
  assert (H2 : (Q - X) * 9007199254740992 <= X) by lia.
  apply Z.mul_le_mono_nonneg_r with (p := P) in H1; [|lia].
  apply Z.mul_le_mono_nonneg_r with (p := P) in H2; [|lia].
  split; lia.
Qed.

(** [xp / 50] for [xp = 50 * N]: the float nearest to [N].  At any
    scale [2^c] that makes both integers, the float and [N] differ by
    at most [2^-53] of either. *)
Lemma int_true_divide_multiple (N : Z) :
  0 < N -> N < 2 ^ 106 - 2 ^ 52 ->
  exists (mf : positive) (ef : Z),
    int_true_divide (50 * N) 50 = Ok (S754_finite false mf ef)
    /\ 2 ^ 52 <= Zpos mf < 2 ^ 53
    /\ -53 <= ef <= 53
    /\ forall c, 0 <= c -> 2 - ef <= c ->
         (Zpos mf * 2 ^ (ef + c) - N * 2 ^ c) * 2 ^ 53 <= N * 2 ^ c
         /\ (N * 2 ^ c - Zpos mf * 2 ^ (ef + c)) * 2 ^ 53
            <= Zpos mf * 2 ^ (ef + c).
Proof.
  intros HN HNmax.
  assert (Hxp : 0 < 50 * N) by lia.
  pose proof (Zdigits2_bounds (50 * N) Hxp) as [Hxl Hxh].
  assert (Hd : 6 <= Zdigits2 (50 * N))
    by (apply Zdigits2_ge; [lia | change (2 ^ (6 - 1)) with 32; lia]).
  unfold int_true_divide.
  replace (50 =? 0) with false by reflexivity.
  replace (50 * N =? 0) with false by (symmetry; apply Z.eqb_neq; lia).
  replace (50 * N <? 0) with false by (symmetry; apply Z.ltb_ge; lia).
  replace (Z.abs (50 * N)) with (50 * N) by lia. change (Z.abs 50) with 50.
  rewrite SFdiv_core_multiple by exact HN.
  set (d1 := Zdigits2 (50 * N)) in *.
  set (s := Z.max 0 (59 - d1)).
  assert (Hs : 0 <= s <= 53) by (unfold s; lia).
  assert (Hps : 0 < 2 ^ s) by (apply Z.pow_pos_nonneg; lia).
  set (Q := N * 2 ^ s).
  (* the scaled numerator has at least 59 bits *)
  assert (Hnum : 2 ^ 58 <= 50 * Q).
  { unfold Q. destruct (Z_le_gt_dec d1 59) as [H59|H59].
    - replace 58 with (d1 - 1 + s) by (unfold s; lia).
      rewrite Z.pow_add_r by lia.
      assert (2 ^ (d1 - 1) * 2 ^ s <= 50 * N * 2 ^ s)
        by (apply Z.mul_le_mono_nonneg_r; lia).
      lia.
    - assert (Es : s = 0) by (unfold s; lia). rewrite Es, Z.pow_0_r.
      assert (2 ^ 59 <= 2 ^ (d1 - 1)) by (apply Z.pow_le_mono_r; lia).
      change (2 ^ 58) with 288230376151711744.
      change (2 ^ 59) with 576460752303423488 in *. lia. }
  assert (Hsmall : 0 < s -> 50 * Q < 2 ^ 59).
  { intros Hs0. unfold Q.
    replace 59 with (d1 + s) by (unfold s; lia).
    rewrite Z.pow_add_r by lia.
    assert (50 * N * 2 ^ s < 2 ^ d1 * 2 ^ s)
      by (apply Z.mul_lt_mono_pos_r; lia).
    lia. }
  assert (HQ52 : 2 ^ 52 <= Q).
  { change (2 ^ 58) with 288230376151711744 in Hnum.
    change (2 ^ 52) with 4503599627370496. lia. }
  assert (HQ0 : 0 < Q) by lia.
  assert (HQmax : Q < 2 ^ 106).
  { destruct (Z.eq_dec s 0) as [Es|Es].
    - unfold Q. rewrite Es, Z.pow_0_r. lia.
    - assert (50 * Q < 2 ^ 59) by (apply Hsmall; lia).
      change (2 ^ 59) with 576460752303423488 in *.
      change (2 ^ 106) with 81129638414606681695789005144064. lia. }
  assert (HD : 53 <= Zdigits2 Q <= 106).
  { split; [apply Zdigits2_ge | apply Zdigits2_le]; simpl; lia. }
  assert (HDsmall : 0 < s -> Zdigits2 Q <= 54).
  { intros Hs0. apply Zdigits2_le; [lia | lia |].
    specialize (Hsmall Hs0).
    change (2 ^ 59) with 576460752303423488 in *.
    change (2 ^ 54) with 18014398509481984. lia. }
  pose proof (Zdigits2_bounds Q HQ0) as [HQl HQh].
  set (k := Zdigits2 Q - 53) in *.
  assert (Hk : 0 <= k <= 53) by (unfold k; lia).
  destruct (binary_round_aux_round Q (- s) loc_Exact HQ0)
    as (r1 & mf & ef & Hr1 & Hr & Hef & Hval & Hmf); try lia.
  destruct (shr_fexp_exact Q (- s) HQ0) as (r1' & Hr1' & Hlo & Hhi); try lia.
  fold k in Hr1, Hef, Hval, Hr1', Hlo, Hhi.
  assert (r1' = r1) by congruence. subst r1'.
  change (xorb false (50 <? 0)) with false. rewrite Hr.
  set (m2 := round_nearest_even (shr_m r1) (loc_of_shr_record r1)) in *.
  set (U := 2 ^ k) in *.
  assert (HU : 0 < U) by (apply Z.pow_pos_nonneg; lia).
  assert (HQU : 2 ^ 52 * U <= Q).
  { unfold U. rewrite <- Z.pow_add_r by lia.
    replace (52 + k) with (Zdigits2 Q - 1) by (unfold k; lia). exact HQl. }
  set (dl := ef - (- s + k)) in *.
  assert (Hdl : dl = 0 \/ dl = 1) by (unfold dl; lia).
  assert (Hm2 : 2 ^ 52 <= m2).
  { rewrite Hval. destruct Hdl as [E|E]; rewrite E; simpl Z.pow; lia. }
  exists mf, ef. split; [reflexivity|]. split; [exact Hmf|].
  assert (Hefmax : ef <= 53).
  { destruct (Z.eq_dec s 0) as [Es|Es].
    - destruct (Z_le_gt_dec (k + dl) 53) as [H|H]; [unfold dl in *; lia|].
      exfalso. assert (Ek : k = 53) by lia. assert (Ed : dl = 1) by lia.
      assert (Em2 : 2 ^ 53 <= m2).
      { rewrite Hval, Ed. change (2 ^ 1) with 2.
        change (2 ^ 53) with (2 ^ 52 * 2). lia. }
      unfold U in Hlo. rewrite Ek in Hlo.
      unfold Q in Hlo. rewrite Es, Z.pow_0_r, Z.mul_1_r in Hlo.
      change (2 ^ 53) with 9007199254740992 in *.
      change (2 ^ 106) with 81129638414606681695789005144064 in *.
      change (2 ^ 52) with 4503599627370496 in *. lia.
    - assert (Zdigits2 Q <= 54) by (apply HDsmall; lia).
      unfold dl, k in *. lia. }
  split; [unfold dl in *; lia|].
  intros c Hc0 Hc.
  assert (Hcs : s <= c).
  { destruct (Z.eq_dec s 0) as [Es|Es]; [lia|].
    assert (Zdigits2 Q <= 54) by (apply HDsmall; lia).
    unfold dl, k in *. lia. }
  set (P := 2 ^ (c - s)).
  assert (HP : 0 < P) by (apply Z.pow_pos_nonneg; lia).
  replace (Z.pos mf * 2 ^ (ef + c)) with (m2 * U * P).
  2:{ rewrite Hval. unfold U, P. rewrite <- !Z.mul_assoc.
      rewrite <- !Z.pow_add_r by lia. f_equal. f_equal. unfold dl. lia. }
  replace (N * 2 ^ c) with (Q * P).
  2:{ unfold Q, P. rewrite <- Z.mul_assoc, <- Z.pow_add_r by lia.
      f_equal. f_equal. lia. }
  apply (half_ulp_scaled (m2 * U) Q U P); try assumption; try lia.
  apply Z.mul_le_mono_nonneg_r; lia.
Qed.

(** The square-root core on a [53]-bit mantissa: the integer root of
    the mantissa scaled up to [105] or [106] bits, at half the
    exponent, and the place of the remainder. *)
Lemma SFsqrt_core_location (mf : positive) (ef : Z) :
  2 ^ 52 <= Zpos mf < 2 ^ 53 -> -1000 <= ef <= 1000 ->
  let m' := Zpos mf * 2 ^ (ef - 2 * (ef / 2 - 26)) in
  let q := Z.sqrt m' in
  SFsqrt_core_binary prec emax (Zpos mf) ef
  = (q, ef / 2 - 26,
     if m' - q * q =? 0 then loc_Exact
     else loc_Inexact (if m' - q * q <=? q then Lt else Gt)).
Proof.
  intros Hmf Hef m' q.
  assert (Hd : Zdigits2 (Z.pos mf) = 53) by (apply Zdigits2_unique; simpl; lia).
  unfold SFsqrt_core_binary. rewrite Hd, fexp_unfold, !Z.div2_div.
  set (h := ef / 2) in *.
  assert (Hh : 2 * h <= ef < 2 * h + 2).
  { unfold h. pose proof (Z.mul_div_le ef 2).
    pose proof (Z.mul_succ_div_gt ef 2). lia. }
  replace ((53 + ef + 1) / 2) with (h + 27).
  2:{ unfold h. replace (53 + ef + 1) with (ef + 27 * 2) by lia.
      rewrite Z.div_add by lia. reflexivity. }
  replace (Z.min (Z.max (h + 27 - 53) (-1074)) h) with (h - 26) by lia.
  unfold m' in q. unfold q, m'. clear q m'.
  destruct (ef - 2 * (h - 26)) as [|t|t] eqn:Ht; try lia.
  rewrite Z.shiftl_mul_pow2 by lia.
  set (m' := Z.pos mf * 2 ^ Z.pos t).
  assert (Hm' : 0 <= m') by (unfold m'; apply Z.mul_nonneg_nonneg; lia).
  pose proof (Z.sqrtrem_spec m' Hm') as Hspec.
  pose proof (Z.sqrtrem_sqrt m') as Hsq.
  destruct (Z.sqrtrem m') as [q r]. simpl in Hsq. subst q.
  destruct Hspec as [Hval Hr].
  replace (m' - Z.sqrt m' * Z.sqrt m') with r by lia. reflexivity.
Qed.

(** The integer root [q] of [m'], when [m'] is within [2^-53] of the
    square of [A]: [q] is [A] with a remainder below the half, or
    [A - 1] with a remainder above it. *)
Lemma sqrt_nearest (A q m' : Z) :
  0 < A -> 2 ^ 52 <= q < 2 ^ 53 ->
  q * q <= m' -> m' < (q + 1) * (q + 1) ->
  (m' - A * A) * 2 ^ 53 <= A * A ->
  (A * A - m') * 2 ^ 53 <= m' ->
  (q = A /\ m' - q * q <= q) \/ (q + 1 = A /\ q < m' - q * q).
Proof.
  intros HA Hq Hlo Hhi Hup Hdn.
  change (2 ^ 52) with 4503599627370496 in *.
  change (2 ^ 53) with 9007199254740992 in *.
  assert (HqA : q <= A).
  { destruct (Z_le_gt_dec q A) as [H|H]; [exact H|exfalso].
    assert (H1 : (A + 1) * (A + 1) <= q * q)
      by (apply Z.mul_le_mono_nonneg; lia).
    assert (H2 : A * A <= A * 9007199254740992)
      by (apply Z.mul_le_mono_nonneg_l; lia).
    lia. }
  assert (HAq : A <= q + 1).
  { destruct (Z_le_gt_dec A (q + 1)) as [H|H]; [exact H|exfalso].
    assert (H1 : (q + 2) * (q + 2) <= A * A)
      by (apply Z.mul_le_mono_nonneg; lia).
    assert (H2 : (q + 1) * (q + 1) <= (q + 1) * 9007199254740992)
      by (apply Z.mul_le_mono_nonneg_l; lia).
    lia. }
  destruct (Z.eq_dec q A) as [E|E].
  - left. split; [exact E|]. subst q.
    assert (H2 : A * A <= A * 9007199254740991)
      by (apply Z.mul_le_mono_nonneg_l; lia).
    lia.
  - right. assert (EA : A = q + 1) by lia. split; [lia|]. subst A.
    destruct (Z_lt_le_dec q (m' - q * q)) as [H|H]; [exact H|exfalso].
    assert (H2 : q * q <= q * 9007199254740991)
      by (apply Z.mul_le_mono_nonneg_l; lia).
    lia.
Qed.

Lemma shr_fexp_53 (q e : Z) (l : location) :
  Zdigits2 q = 53 -> -1074 <= e ->
  shr_fexp prec emax q e l = (shr_record_of_loc q l, e).
Proof.
  intros Hd He. unfold shr_fexp. rewrite Hd, fexp_unfold.
  replace (Z.max (53 + e - 53) (-1074) - e) with 0 by lia. reflexivity.
Qed.

Lemma loc_of_shr_record_of_loc (m : Z) (l : location) :
  loc_of_shr_record (shr_record_of_loc m l) = l.
Proof. destruct l as [|[]]; reflexivity. Qed.

(** [math.floor] of a float whose value is the integer [n]. *)
Lemma shiftl_integer (mr er n G : Z) :
  0 <= G -> 0 <= er + G -> mr * 2 ^ (er + G) = n * 2 ^ G ->
  Z.shiftl mr er = n.
Proof.
  intros HG Her Hval.
  assert (HpG : 0 < 2 ^ G) by (apply Z.pow_pos_nonneg; lia).
  destruct (Z_le_gt_dec 0 er) as [Hpos|Hneg].
  - rewrite Z.shiftl_mul_pow2 by lia.
    rewrite Z.pow_add_r, Z.mul_assoc in Hval by lia.
    apply Z.mul_cancel_r in Hval; lia.
  - rewrite <- (Z.opp_involutive er), Z.shiftl_opp_r, Z.shiftr_div_pow2 by lia.
    assert (Hp : 0 < 2 ^ (er + G)) by (apply Z.pow_pos_nonneg; lia).
    replace (2 ^ G) with (2 ^ (- er) * 2 ^ (er + G)) in Hval.
    2:{ rewrite <- Z.pow_add_r by lia. f_equal. lia. }
    rewrite Z.mul_assoc in Hval. apply Z.mul_cancel_r in Hval; [|lia].
    rewrite Hval. apply Z.div_mul.
    assert (0 < 2 ^ (- er)) by (apply Z.pow_pos_nonneg; lia). lia.
Qed.

(** [math.floor(math.sqrt(x))] for the float [x] nearest to [n * n]:
    the root is rounded to [n] itself. *)
Lemma floor_sqrt_square (mf : positive) (ef n : Z) :
  2 ^ 52 <= Zpos mf < 2 ^ 53 -> -53 <= ef <= 53 -> 0 < n ->
  (forall c, 0 <= c -> 2 - ef <= c ->
     (Zpos mf * 2 ^ (ef + c) - n * n * 2 ^ c) * 2 ^ 53 <= n * n * 2 ^ c
     /\ (n * n * 2 ^ c - Zpos mf * 2 ^ (ef + c)) * 2 ^ 53
        <= Zpos mf * 2 ^ (ef + c)) ->
  exists r, math_sqrt (S754_finite false mf ef) = Ok r
            /\ math_floor r = Ok n.
Proof.
  intros Hmf Hef Hn Herr.
  unfold math_sqrt, SFsqrt.
  rewrite (SFsqrt_core_location mf ef Hmf) by lia.
  set (h := ef / 2) in *.
  assert (Hh : 2 * h <= ef < 2 * h + 2).
  { unfold h. pose proof (Z.mul_div_le ef 2).
    pose proof (Z.mul_succ_div_gt ef 2). lia. }
  set (G := 26 - h).
  assert (HG : 0 <= G <= 53) by (unfold G; lia).
  replace (ef - 2 * (h - 26)) with (ef + 2 * G) by (unfold G; lia).
  replace (h - 26) with (- G) by (unfold G; lia).
  assert (Ht : ef + 2 * G = 52 \/ ef + 2 * G = 53) by (unfold G; lia).
  set (m' := Z.pos mf * 2 ^ (ef + 2 * G)) in *.
  set (q := Z.sqrt m') in *.
  assert (Hm' : 2 ^ 104 <= m' < 2 ^ 106).
  { unfold m'. destruct Ht as [Ht|Ht]; rewrite Ht.
    - change (2 ^ 104) with (2 ^ 52 * 2 ^ 52).
      change (2 ^ 106) with (2 ^ 53 * 2 ^ 52 * 2). lia.
    - change (2 ^ 104) with (2 ^ 52 * 2 ^ 52).
      change (2 ^ 106) with (2 ^ 53 * 2 ^ 53).
      assert (0 < 2 ^ 53) by lia. split.
      + assert (2 ^ 52 * 2 ^ 53 <= Z.pos mf * 2 ^ 53)
          by (apply Z.mul_le_mono_nonneg_r; lia).
        change (2 ^ 53) with (2 * 2 ^ 52) in *. lia.
      + apply Z.mul_lt_mono_pos_r; lia. }
  assert (Hq : 2 ^ 52 <= q < 2 ^ 53).
  { unfold q. split.
    - apply Z.sqrt_le_square; lia.
    - apply Z.sqrt_lt_square; lia. }
  assert (Hq0 : 0 < q) by lia.
  assert (Hdq : Zdigits2 q = 53) by (apply Zdigits2_unique; simpl; lia).
  pose proof (Z.sqrt_spec m' ltac:(lia)) as [Hql Hqh]. fold q in Hql, Hqh.
  set (A := n * 2 ^ G).
  assert (HpG : 0 < 2 ^ G) by (apply Z.pow_pos_nonneg; lia).
  assert (HA : 0 < A) by (unfold A; apply Z.mul_pos_pos; lia).
  destruct (Herr (2 * G)) as [Hup Hdn]; [lia | lia |].
  fold m' in Hup, Hdn.
  replace (n * n * 2 ^ (2 * G)) with (A * A) in Hup, Hdn.
  2:{ unfold A. replace (2 * G) with (G + G) by lia.
      rewrite Z.pow_add_r by lia. ring. }
  replace (Z.succ q * Z.succ q) with ((q + 1) * (q + 1)) in Hqh by lia.
  pose proof (sqrt_nearest A q m' HA Hq Hql Hqh Hup Hdn) as Hnear.
  destruct (binary_round_aux_round q (- G)
              (if m' - q * q =? 0 then loc_Exact
               else loc_Inexact (if m' - q * q <=? q then Lt else Gt)) Hq0)
    as (r1 & mr & er & Hr1 & Hr & Her & Hval & Hmr); try lia.
  rewrite Hdq in Hr1, Her, Hval. change (53 - 53) with 0 in Hr1, Her, Hval.
  rewrite Z.add_0_r in Hr1, Her, Hval.
  rewrite shr_fexp_53 in Hr1 by (try assumption; lia).
  injection Hr1 as <-.
  rewrite shr_record_of_loc_m, loc_of_shr_record_of_loc in Hval.
  rewrite Hr. eexists. split; [reflexivity|].
  unfold math_floor, cond_Zopp. f_equal.
  apply (shiftl_integer (Z.pos mr) er n G); [lia | lia |].
  replace (er + G) with (er - - G) by lia. rewrite <- Hval. fold A.
  destruct Hnear as [[Eq Hrem]|[Eq Hrem]].
  - destruct (Z.eqb_spec (m' - q * q) 0); [exact Eq|].
    replace (m' - q * q <=? q) with true by (symmetry; apply Z.leb_le; lia).
    exact Eq.
  - destruct (Z.eqb_spec (m' - q * q) 0); [lia|].
    replace (m' - q * q <=? q) with false by (symmetry; apply Z.leb_gt; lia).
    exact Eq.
Qed.

(** The level of a threshold [50 * n^2] is [n], up to [n = 2^53]. *)
Lemma calculate_level_square (n : Z) :
  0 < n -> n <= 2 ^ 53 -> calculate_level (50 * (n * n)) = Ok n.
Proof.
  intros Hn Hmax.
  destruct (Z.eq_dec n (2 ^ 53)) as [->|Hne]; [vm_compute; reflexivity|].
  assert (Hsq : n * n <= (2 ^ 53 - 1) * (2 ^ 53 - 1))
    by (apply Z.mul_le_mono_nonneg; lia).
  assert (Hpos : 0 < n * n) by (apply Z.mul_pos_pos; lia).
  destruct (int_true_divide_multiple (n * n) Hpos)
    as (mf & ef & Hdiv & Hmf & Hef & Herr).
  { change (2 ^ 53) with 9007199254740992 in Hsq.
    change (2 ^ 106) with 81129638414606681695789005144064.
    change (2 ^ 52) with 4503599627370496. lia. }
  destruct (floor_sqrt_square mf ef n Hmf Hef Hn Herr) as (r & Hsqrt & Hfloor).
  unfold calculate_level.
  replace (50 * (n * n) <=? 0) with false by (symmetry; apply Z.leb_gt; lia).
  rewrite Hdiv. cbn [bind]. rewrite Hsqrt. cbn [bind]. rewrite Hfloor.
  cbn [bind]. f_equal. lia.
Qed.

End RoundingFacts.

(** ** The leveling formula *)

Module LevelFacts.
Import Float FloatFacts RoundingFacts.

(** Inside a level band below [2^23] the float computation is exact. *)
Lemma calculate_level_band (xp n : Z) :
  0 < xp -> 0 <= n -> n + 1 <= 2 ^ 23 ->
  50 * n ^ 2 <= xp -> xp < 50 * (n + 1) ^ 2 ->
  calculate_level xp = Ok n.
Proof.
  intros Hpos Hn Hn23 Hlo Hhi.
  destruct (int_true_divide_50 xp n Hpos Hn Hn23 Hlo Hhi)
    as (mf & F & Hdiv & Hmf & HF & Hb1 & Hb2).
  destruct (floor_sqrt_bracket mf F n Hmf HF Hn Hn23 Hb1 Hb2)
    as (r & Hsqrt & Hfloor).
  unfold calculate_level.
  replace (xp <=? 0) with false by (symmetry; apply Z.leb_gt; lia).
  rewrite Hdiv. cbn [bind]. rewrite Hsqrt. cbn [bind]. rewrite Hfloor.
  cbn [bind]. f_equal. lia.
Qed.

(** The band of an [xp]: its exact level. *)
Lemma exact_level_band (xp : Z) :
  0 < xp ->
  let n := Z.sqrt (xp / 50) in
  0 <= n /\ 50 * n ^ 2 <= xp /\ xp < 50 * (n + 1) ^ 2.
Proof.
  intros Hpos n.
  assert (Hq : 0 <= xp / 50) by (apply Z.div_pos; lia).
  pose proof (Z.sqrt_spec (xp / 50) Hq) as [Hlo Hhi]. fold n in Hlo, Hhi.
  pose proof (Z.sqrt_nonneg (xp / 50)) as Hn. fold n in Hn.
  pose proof (Z.mul_div_le xp 50) as Hd1.
  pose proof (Z.mul_succ_div_gt xp 50) as Hd2.
  repeat split; [lia | nia | nia].
Qed.

Lemma exact_level_pos (xp : Z) :
  0 < xp -> exact_level xp = Z.sqrt (xp / 50).
Proof.
  intros Hpos. unfold exact_level.
  replace (xp <=? 0) with false by (symmetry; apply Z.leb_gt; lia).
  pose proof (Z.sqrt_nonneg (xp / 50)). lia.
Qed.

(** The migration script computes the same level as [calculate_level]. *)
Lemma dbinit_level_eq (xp : Z) : dbinit_level xp = calculate_level xp.
Proof.
  unfold dbinit_level, calculate_level.
  destruct (Z.ltb_spec 0 xp); destruct (Z.leb_spec xp 0); try lia; reflexivity.
Qed.

(** The formula never raises on a non-positive argument. *)
Lemma calculate_level_nonpos (xp : Z) : xp <= 0 -> calculate_level xp = Ok 0.
Proof.
  intros H. unfold calculate_level.
  replace (xp <=? 0) with true by (symmetry; apply Z.leb_le; lia).
  reflexivity.
Qed.

(** C2 (as amended): for every integer [xp <= 50 * 2^46],
    [calculate_level xp] returns without raising, and the result is [0]
    when [xp <= 0] and otherwise the exact integer part of the square
    root of [xp / 50], never below [0]. *)
Theorem calculate_level_exact (xp : Z) :
  xp <= 50 * 2 ^ 46 -> calculate_level xp = Ok (exact_level xp).
Proof.
  intros Hle.
  destruct (Z_le_gt_dec xp 0) as [Hnp|Hpos].
  - rewrite calculate_level_nonpos by assumption.
    unfold exact_level.
    replace (xp <=? 0) with true by (symmetry; apply Z.leb_le; lia).
    reflexivity.
  - assert (Hpos' : 0 < xp) by lia.
    destruct (Z.eq_dec xp (50 * 2 ^ 46)) as [->|Hne].
    + vm_compute. reflexivity.
    + rewrite exact_level_pos by assumption.
      destruct (exact_level_band xp Hpos') as (Hn & Hlo & Hhi).
      apply calculate_level_band; try assumption.
      set (n := Z.sqrt (xp / 50)) in *.
      assert (Hlt : n ^ 2 < (2 ^ 23) ^ 2).
      { change ((2 ^ 23) ^ 2) with (2 ^ 46). lia. }
      apply Z.pow_lt_mono_l_iff in Hlt; lia.
Qed.

Lemma calculate_level_exact_witness :
  1250 <= 50 * 2 ^ 46 /\ calculate_level 1250 = Ok 5.
Proof.
  split; [lia | exact (calculate_level_exact 1250 ltac:(lia))].
Defined.

(** C2, as stated, fails: at [xp = 499999999999999999] the quotient
    [xp / 50] rounds to the float [1e16], whose root is [1e8], one above
    the exact level [99999999]. *)
Lemma calculate_level_inexact :
  calculate_level 499999999999999999 = Ok 100000000
  /\ exact_level 499999999999999999 = 99999999.
Proof. split; vm_compute; reflexivity. Qed.

(** Beyond the float range the division raises. *)
Example calculate_level_overflow :
  calculate_level (10 ^ 400) = Raise OverflowError.
Proof. vm_compute. reflexivity. Qed.

(** The first [xp] above the proved range where the result is off. *)
Example calculate_level_first_miss :
  calculate_level (50 * (2 ^ 23 + 1) ^ 2 - 1) = Ok (2 ^ 23 + 1)
  /\ exact_level (50 * (2 ^ 23 + 1) ^ 2 - 1) = 2 ^ 23.
Proof. split; vm_compute; reflexivity. Qed.

(** C3 (as amended): for every level [L], [xp_for_next_level L] is
    [(L + 1)^2 * 50]; for [0 <= L < 2^23] one point below the threshold
    is still level [L]; and for [0 <= L < 2^53] the threshold itself is
    level [L + 1]. *)
Theorem level_threshold_inverse (L : Z) :
  xp_for_next_level L = (L + 1) ^ 2 * 50
  /\ (0 <= L < 2 ^ 23 ->
      calculate_level (xp_for_next_level L - 1) = Ok L)
  /\ (0 <= L < 2 ^ 53 ->
      calculate_level (xp_for_next_level L) = Ok (L + 1)).
Proof.
  unfold xp_for_next_level. split; [reflexivity|]. split.
  - intros [HL0 HL]. apply calculate_level_band; lia.
  - intros [HL0 HL].
    replace ((L + 1) ^ 2 * 50) with (50 * ((L + 1) * (L + 1))) by ring.
    apply calculate_level_square; lia.
Qed.

Lemma level_threshold_inverse_witness :
  xp_for_next_level 4 = (4 + 1) ^ 2 * 50
  /\ calculate_level (xp_for_next_level 4 - 1) = Ok 4
  /\ calculate_level (xp_for_next_level 4) = Ok (4 + 1).
Proof.
  destruct (level_threshold_inverse 4) as (H1 & H2 & H3).
  split; [exact H1|]. split; [apply H2; lia | apply H3; lia].
Defined.

(** C3, as stated, fails.  At [L = 2^23], one point below the threshold
    of level [8388609] the code already answers [8388609]: the first
    equation is lost.  At [L = 2^53] the threshold of level [2^53 + 1]
    is answered with [2^53]: the second equation is lost. *)
Lemma level_threshold_inverse_fails :
  calculate_level (xp_for_next_level 8388608 - 1) = Ok 8388609
  /\ calculate_level (xp_for_next_level (2 ^ 53)) = Ok (2 ^ 53).
Proof. split; vm_compute; reflexivity. Qed.

Example level_threshold_inverse_fails_1e8 :
  calculate_level (xp_for_next_level 99999999 - 1) = Ok 100000000.
Proof. vm_compute. reflexivity. Qed.

(** The first equation does not hold on the whole range of the
    second. *)
Example level_threshold_below_fails_late :
  calculate_level (xp_for_next_level (2 ^ 53 - 1) - 1) = Ok (2 ^ 53)
  /\ calculate_level (xp_for_next_level (2 ^ 53 - 1)) = Ok (2 ^ 53).
Proof. split; vm_compute; reflexivity. Qed.

(** Testable property 1 on the proved range: the level does not decrease
    with [xp]. *)
Lemma exact_level_monotone (a b : Z) :
  a <= b -> exact_level a <= exact_level b.
Proof.
  intros Hab. unfold exact_level.
  destruct (Z.leb_spec a 0), (Z.leb_spec b 0); try lia.
  assert (a / 50 <= b / 50) by (apply Z.div_le_mono; lia).
  pose proof (Z.sqrt_le_mono (a / 50) (b / 50)). lia.
Qed.

End LevelFacts.

(** ** Python string operations: facts *)

Module PyStrFacts.
Import PyStr Spec.

Local Open Scope string_scope.

Lemma prefix_spec (a s : string) :
  String.prefix a s = true <-> exists post, s = a +:+ post.
Proof.
  revert s. induction a as [|c a IH]; intros s.
  - split; [intros _; exists s; reflexivity | destruct s; reflexivity].
  - destruct s as [|d s]; simpl.
    + split; [discriminate | intros [post Hp]; discriminate].
    + destruct (ascii_dec c d) as [->|Hne].
      * rewrite IH. split; intros [post Hp]; exists post.
        -- now rewrite Hp.
        -- now inversion Hp.
      * split; [discriminate|]. intros [post Hp]. simpl in Hp.
        inversion Hp. congruence.
Qed.

(** [sub in s] decides occurrence. *)
Lemma contains_spec (sub s : string) :
  contains sub s = true <-> is_substring sub s.
Proof.
  unfold is_substring. induction s as [|c r IH].
  - unfold contains. rewrite orb_false_r, prefix_spec. split.
    + intros [post Hp]. exists "", post. exact Hp.
    + intros (pre & post & Hp). destruct pre; [|discriminate].
      exists post. exact Hp.
  - change (contains sub (String c r))
      with (String.prefix sub (String c r) || contains sub r).
    rewrite orb_true_iff, prefix_spec, IH. split.
    + intros [[post Hp]|(pre & post & Hp)].
      * exists "", post. exact Hp.
      * exists (String c pre), post. simpl. now rewrite Hp.
    + intros (pre & post & Hp). destruct pre as [|d pre].
      * left. exists post. exact Hp.
      * right. exists pre, post. simpl in Hp. now inversion Hp.
Qed.

Lemma contains_empty (s : string) : contains "" s = true.
Proof. destruct s; reflexivity. Qed.

(** Lower-casing leaves whitespace alone. *)
Lemma lower_char_space (c : ascii) :
  is_space c = true -> lower_char c = c.
Proof.
  destruct c as [[] [] [] [] [] [] [] []]; vm_compute;
    first [reflexivity | discriminate].
Qed.

Lemma lower_all_space (s : string) :
  all_space s = true -> lower s = s.
Proof.
  induction s as [|c r IH]; simpl; [reflexivity|].
  rewrite andb_true_iff. intros [Hc Hr].
  now rewrite lower_char_space, IH.
Qed.

Lemma lstrip_all_space (s : string) :
  all_space s = true -> lstrip s = "".
Proof.
  induction s as [|c r IH]; simpl; [reflexivity|].
  rewrite andb_true_iff. intros [Hc Hr]. now rewrite Hc, IH.
Qed.

(** Normalising blank input leaves the empty string. *)
Lemma strip_lower_all_space (s : string) :
  all_space s = true -> strip (lower s) = "".
Proof.
  intros H. unfold strip.
  now rewrite lower_all_space, lstrip_all_space.
Qed.

(** Lookup in a dict whose keys are distinct. *)
Lemma dict_get_In {A : Type} (d : list (string * A)) (k : string) (v : A) :
  NoDup (map fst d) -> In (k, v) d -> dict_get d k = Some v.
Proof.
  induction d as [|[k' v'] d IH]; simpl; [contradiction|].
  intros Hnd [Heq|Hin].
  - inversion Heq; subst. now rewrite String.eqb_refl.
  - inversion Hnd as [|? ? Hnotin Hnd']; subst.
    destruct (String.eqb_spec k' k) as [->|Hne].
    + exfalso. apply Hnotin. apply list_elem_of_In.
      apply in_map_iff. exists (k, v). split; [reflexivity | assumption].
    + now apply IH.
Qed.

Lemma dict_get_None {A : Type} (d : list (string * A)) (k : string) :
  (forall k' v, In (k', v) d -> k' <> k) -> dict_get d k = None.
Proof.
  induction d as [|[k' v'] d IH]; simpl; [reflexivity|].
  intros Hall. destruct (String.eqb_spec k' k) as [->|Hne].
  - exfalso. now apply (Hall k v'); [left|].
  - apply IH. intros k'' v Hin. apply (Hall k'' v). now right.
Qed.

End PyStrFacts.

(** ** The sport classifier *)

Module ClassifierFacts.
Import PyStr AIEngine Spec PyStrFacts.

Local Open Scope string_scope.

Lemma partial_hit_spec (input key : string) :
  partial_hit input key = true <-> substring_hit input key.
Proof.
  unfold partial_hit, substring_hit.
  now rewrite orb_true_iff, !contains_spec.
Qed.

(** The keys of the table are pairwise distinct. *)
Lemma SPORT_CATEGORIES_keys : NoDup (map fst SPORT_CATEGORIES).
Proof. apply (bool_decide_unpack _). vm_compute. reflexivity. Qed.

(** The loop returns the category of the first entry that hits. *)
Lemma partial_match_first (pre post : list (string * string))
    (k c x : string) :
  (forall k' c', In (k', c') pre -> partial_hit x k' = false) ->
  partial_hit x k = true ->
  partial_match (pre ++ (k, c) :: post)%list x = Some c.
Proof.
  induction pre as [|[k' c'] pre IH]; simpl; intros Hpre Hk.
  - now rewrite Hk.
  - rewrite (Hpre k' c') by now left.
    apply IH; [|assumption]. intros k'' c'' Hin. apply (Hpre k'' c''). now right.
Qed.

Lemma partial_match_none (items : list (string * string)) (x : string) :
  (forall k c, In (k, c) items -> partial_hit x k = false) ->
  partial_match items x = None.
Proof.
  induction items as [|[k c] items IH]; simpl; intros Hall; [reflexivity|].
  rewrite (Hall k c) by now left.
  apply IH. intros k' c' Hin. apply (Hall k' c'). now right.
Qed.

Lemma not_hit (x k : string) :
  ~ substring_hit x k -> partial_hit x k = false.
Proof.
  intros Hn. destruct (partial_hit x k) eqn:E; [|reflexivity].
  exfalso. apply Hn. now apply partial_hit_spec.
Qed.

(** C7: [categorize_sport] normalises its input (lower-case, trimmed);
    an exact hit in the keyword table decides; otherwise the first table
    entry, in definition order, whose key occurs in the input or contains
    it decides; when no entry matches the result is ["Other"].  The
    function is total and has no effect. *)
Theorem categorize_sport_spec (exercise : string) :
  let x := strip (lower exercise) in
  (forall k c, In (k, c) SPORT_CATEGORIES -> k = x ->
     categorize_sport exercise = c)
  /\ ((forall k c, In (k, c) SPORT_CATEGORIES -> k <> x) ->
      (forall pre k c post,
         SPORT_CATEGORIES = (pre ++ (k, c) :: post)%list ->
         (forall k' c', In (k', c') pre -> ~ substring_hit x k') ->
         substring_hit x k ->
         categorize_sport exercise = c)
      /\ ((forall k c, In (k, c) SPORT_CATEGORIES -> ~ substring_hit x k) ->
          categorize_sport exercise = "Other")).
Proof.
  intros x. split; [|intros Hnone; split].
  - intros k c Hin ->. unfold categorize_sport. fold x.
    now rewrite (dict_get_In _ _ _ SPORT_CATEGORIES_keys Hin).
  - intros pre k c post Htab Hpre Hk. unfold categorize_sport. fold x.
    rewrite (dict_get_None _ _ Hnone), Htab.
    rewrite (partial_match_first pre post k c x); [reflexivity| |].
    + intros k' c' Hin. apply not_hit. now apply (Hpre k' c').
    + now apply partial_hit_spec.
  - intros Hall. unfold categorize_sport. fold x.
    rewrite (dict_get_None _ _ Hnone).
    rewrite partial_match_none; [reflexivity|].
    intros k c Hin. apply not_hit. now apply (Hall k c).
Qed.

(** The first clause at the input ["Soccer"]. *)
Lemma categorize_sport_spec_witness :
  categorize_sport "Soccer" = "Ball Sports".
Proof.
  apply (proj1 (categorize_sport_spec "Soccer") "soccer" "Ball Sports").
  - simpl. tauto.
  - reflexivity.
Defined.

(** The examples of the specification. *)
Example categorize_soccer : categorize_sport "Soccer" = "Ball Sports".
Proof. reflexivity. Qed.

Example categorize_rock_climbing :
  categorize_sport "competitive rock climbing" = "Outdoor".
Proof. reflexivity. Qed.

Example categorize_basket_weaving :
  categorize_sport "underwater basket weaving" = "Other".
Proof. reflexivity. Qed.

(** C10: on an input that is empty or made of whitespace only,
    [categorize_sport] answers ["Ball Sports"], the category of the first
    table entry, not ["Other"]: the normalised input is empty, and the
    empty string occurs in every key. *)
Theorem categorize_sport_blank (exercise : string) :
  all_space exercise = true -> categorize_sport exercise = "Ball Sports".
Proof.
  intros H. unfold categorize_sport.
  rewrite (strip_lower_all_space _ H). reflexivity.
Qed.

Lemma categorize_sport_blank_witness :
  all_space "   " = true /\ categorize_sport "   " = "Ball Sports".
Proof.
  split; [reflexivity | exact (categorize_sport_blank "   " eq_refl)].
Defined.

Example categorize_empty : categorize_sport "" = "Ball Sports".
Proof. reflexivity. Qed.

End ClassifierFacts.

(** ** Category inference at persistence *)

Module RoutineFacts.
Import PyStr AIEngine Main Spec PyStrFacts Examples.

Local Open Scope string_scope.

Lemma any_keyword_spec (keywords : list string) (name : string) :
  any_keyword keywords name = true <-> keyword_hit keywords name.
Proof.
  unfold any_keyword, keyword_hit. rewrite existsb_exists.
  split; intros (kw & Hin & Hc); exists kw; split; try assumption;
    now apply contains_spec.
Qed.

Lemma not_keyword_hit (keywords : list string) (name : string) :
  ~ keyword_hit keywords name -> any_keyword keywords name = false.
Proof.
  intros Hn. destruct (any_keyword keywords name) eqn:E; [|reflexivity].
  exfalso. apply Hn. now apply any_keyword_spec.
Qed.

Lemma keyword_loop_first (pre post : list (string * list string))
    (cat : string) (kws : list string) (name sc : string) :
  (forall c' k', In (c', k') pre -> any_keyword k' name = false) ->
  any_keyword kws name = true ->
  keyword_loop (pre ++ (cat, kws) :: post)%list name sc = cat.
Proof.
  induction pre as [|[c' k'] pre IH]; simpl; intros Hpre Hk.
  - now rewrite Hk.
  - rewrite (Hpre c' k') by now left.
    apply IH; [|assumption]. intros c'' k'' Hin. apply (Hpre c'' k''). now right.
Qed.

Lemma keyword_loop_none (items : list (string * list string))
    (name sc : string) :
  (forall c k, In (c, k) items -> any_keyword k name = false) ->
  keyword_loop items name sc = sc.
Proof.
  induction items as [|[c k] items IH]; simpl; intros Hall; [reflexivity|].
  rewrite (Hall c k) by now left.
  apply IH. intros c' k' Hin. apply (Hall c' k'). now right.
Qed.

(** No category of the table is empty or the fallback ["Other"]. *)
Lemma category_keywords_specific (cat : string) (kws : list string) :
  In (cat, kws) category_keywords ->
  negb (truthy cat) || String.eqb cat "Other" = false.
Proof.
  revert cat kws.
  assert (H : List.Forall
                (fun e => negb (truthy (fst e)) || String.eqb (fst e) "Other"
                          = false) category_keywords).
  { unfold category_keywords. repeat (constructor; [reflexivity|]). constructor. }
  intros cat kws Hin.
  exact (proj1 (List.Forall_forall _ _) H (cat, kws) Hin).
Qed.

Lemma fallback_test (sc : string) :
  String.eqb sc "Other" || negb (truthy sc) = true <-> sc = "Other" \/ sc = "".
Proof.
  rewrite orb_true_iff, String.eqb_eq.
  destruct sc; simpl; intuition congruence.
Qed.

(** The category of the stored row. *)
Lemma stored_category_spec (rd : routine) :
  let name := lower (r_exercise rd) in
  let sc := r_sport_category rd in
  ((sc = "Other" \/ sc = "") ->
     (forall pre cat kws post,
        category_keywords = (pre ++ (cat, kws) :: post)%list ->
        (forall c' k', In (c', k') pre -> ~ keyword_hit k' name) ->
        keyword_hit kws name ->
        stored_category rd = cat)
     /\ ((forall c k, In (c, k) category_keywords -> ~ keyword_hit k name) ->
         stored_category rd = "General Fitness"))
  /\ (sc <> "Other" -> sc <> "" -> stored_category rd = sc).
Proof.
  intros name sc. split.
  - intros Hfb. apply fallback_test in Hfb.
    unfold stored_category. fold sc. rewrite Hfb. fold name. split.
    + intros pre cat kws post Htab Hpre Hk.
      assert (Hin : In (cat, kws) category_keywords).
      { rewrite Htab. apply in_or_app. right. now left. }
      rewrite Htab, (keyword_loop_first pre post cat kws name sc).
      * now rewrite (category_keywords_specific cat kws Hin).
      * intros c' k' Hin'. apply not_keyword_hit. now apply (Hpre c' k').
      * now apply any_keyword_spec.
    + intros Hall. rewrite keyword_loop_none.
      * apply fallback_test in Hfb.
        destruct Hfb as [->| ->]; reflexivity.
      * intros c k Hin. apply not_keyword_hit. now apply (Hall c k).
  - intros H1 H2. unfold stored_category. fold sc.
    destruct (String.eqb sc "Other" || negb (truthy sc)) eqn:E; [|reflexivity].
    apply fallback_test in E. tauto.
Qed.

(** C8: [save_routine] appends one row for the user; when the
    classifier's category is ["Other"] or empty the stored category is
    that of the first entry of the broader keyword table, in table order,
    one of whose keywords occurs in the lower-cased exercise name, and
    ["General Fitness"] when no entry matches; a specific category is
    stored unchanged. *)
Theorem save_routine_category (user_id : Z) (rd : routine) (s : db) :
  let name := lower (r_exercise rd) in
  let sc := r_sport_category rd in
  exists row,
    routines (snd (save_routine user_id rd s)) = (routines s ++ [row])%list
    /\ rt_user_id row = user_id
    /\ rt_routine_json row = rd
    /\ ((sc = "Other" \/ sc = "") ->
          (forall pre cat kws post,
             category_keywords = (pre ++ (cat, kws) :: post)%list ->
             (forall c' k', In (c', k') pre -> ~ keyword_hit k' name) ->
             keyword_hit kws name ->
             rt_sport_category row = cat)
          /\ ((forall c k, In (c, k) category_keywords ->
                 ~ keyword_hit k name) ->
              rt_sport_category row = "General Fitness"))
    /\ (sc <> "Other" -> sc <> "" -> rt_sport_category row = sc).
Proof.
  intros name sc. eexists. split; [reflexivity|].
  split; [reflexivity|]. split; [reflexivity|].
  exact (stored_category_spec rd).
Qed.

(** The example of the specification, through the theorem: the name
    ["5k training run"] classified ["Other"] is stored as ["Running"]. *)
Lemma save_routine_category_witness :
  exists row,
    routines (snd (save_routine 1 run_5k empty_db)) = [row]
    /\ rt_sport_category row = "Running".
Proof.
  destruct (save_routine_category 1 run_5k empty_db)
    as (row & Hrows & _ & _ & Hfb & _).
  exists row. split; [exact Hrows|].
  destruct (Hfb (or_introl eq_refl)) as [Hfirst _].
  apply (Hfirst [] "Running"
           ["running"; "run"; "sprint"; "jog"; "marathon"; "5k"; "10k"]
           (tl category_keywords)).
  - reflexivity.
  - intros c' k' [].
  - exists "run". split; [simpl; tauto|].
    apply contains_spec. reflexivity.
Defined.

Example stored_category_5k : stored_category run_5k = "Running".
Proof. reflexivity. Qed.

End RoutineFacts.

(** ** The routine parser *)

Module SpanFacts.
Import PyStr Spec.

Local Open Scope string_scope.

#[local] Arguments String.append !_ _ / : simpl nomatch.

Lemma append_assoc (a b c : string) : (a +:+ b) +:+ c = a +:+ (b +:+ c).
Proof. induction a as [|x a IH]; simpl; [reflexivity|]. f_equal. exact IH. Qed.

Lemma append_length (a b : string) :
  String.length (a +:+ b) = (String.length a + String.length b)%nat.
Proof. induction a as [|x a IH]; simpl; [reflexivity|]. f_equal. exact IH. Qed.

Lemma occurs_append (c : ascii) (a b : string) :
  occurs c (a +:+ b) <-> occurs c a \/ occurs c b.
Proof. induction a as [|x a IH]; simpl; tauto. Qed.

Lemma find_ge (s : string) (c : ascii) : -1 <= find s c.
Proof.
  induction s as [|a r IH]; simpl; [lia|].
  destruct (Ascii.eqb a c); [lia|].
  destruct (Z.eqb_spec (find r c) (-1)); lia.
Qed.

Lemma rfind_ge (s : string) (c : ascii) : -1 <= rfind s c.
Proof.
  induction s as [|a r IH]; simpl; [lia|].
  destruct (Z.eqb_spec (rfind r c) (-1)); [destruct (Ascii.eqb a c)|]; lia.
Qed.

(** [find] returns the length of the longest prefix without [c]. *)
Lemma find_app (c : ascii) (pre post : string) :
  ~ occurs c pre ->
  find (pre +:+ String c post) c = Z.of_nat (String.length pre).
Proof.
  induction pre as [|a pre IH]; simpl; intros Hn.
  - now rewrite Ascii.eqb_refl.
  - destruct (Ascii.eqb_spec a c) as [->|_]; [tauto|].
    rewrite IH by tauto.
    destruct (Z.eqb_spec (Z.of_nat (String.length pre)) (-1)); lia.
Qed.

Lemma find_split (s : string) (c : ascii) :
  0 <= find s c ->
  exists pre post, s = pre +:+ String c post /\ ~ occurs c pre
                   /\ find s c = Z.of_nat (String.length pre).
Proof.
  induction s as [|a r IH]; simpl; [lia|].
  destruct (Ascii.eqb_spec a c) as [->|Hne].
  - intros _. exists "", r. simpl. tauto.
  - destruct (Z.eqb_spec (find r c) (-1)) as [|Hf]; [lia|]. intros _.
    destruct IH as (pre & post & -> & Hn & Hlen).
    { pose proof (find_ge r c). lia. }
    exists (String a pre), post. simpl. rewrite Hlen.
    split; [reflexivity|]. split; [tauto | lia].
Qed.

(** [rfind] returns the position after which no [c] occurs. *)
Lemma rfind_none (s : string) (c : ascii) : ~ occurs c s -> rfind s c = -1.
Proof.
  induction s as [|a r IH]; simpl; [reflexivity|]. intros Hn.
  rewrite IH by tauto. simpl.
  destruct (Ascii.eqb_spec a c); [tauto | reflexivity].
Qed.

Lemma rfind_app (c : ascii) (pre post : string) :
  ~ occurs c post ->
  rfind (pre +:+ String c post) c = Z.of_nat (String.length pre).
Proof.
  intros Hn. induction pre as [|a pre IH]; simpl.
  - rewrite (rfind_none post c Hn). simpl. now rewrite Ascii.eqb_refl.
  - rewrite IH.
    destruct (Z.eqb_spec (Z.of_nat (String.length pre)) (-1)); lia.
Qed.

Lemma rfind_split (s : string) (c : ascii) :
  0 <= rfind s c ->
  exists pre post, s = pre +:+ String c post /\ ~ occurs c post
                   /\ rfind s c = Z.of_nat (String.length pre).
Proof.
  induction s as [|a r IH]; simpl; [lia|].
  destruct (Z.eqb_spec (rfind r c) (-1)) as [Hr|Hr].
  - destruct (Ascii.eqb_spec a c) as [->|Hne]; [|lia]. intros _.
    exists "", r. simpl. split; [reflexivity|]. split; [|reflexivity].
    intros Ho. pose proof (rfind_ge r c) as Hge.
    assert (Hcontra : forall t, occurs c t -> rfind t c <> -1).
    { clear. induction t as [|x t IH]; simpl; [tauto|].
      intros [->|Ho].
      - destruct (Z.eqb_spec (rfind t c) (-1)).
        + rewrite Ascii.eqb_refl. lia.
        + pose proof (rfind_ge t c). lia.
      - specialize (IH Ho).
        destruct (Z.eqb_spec (rfind t c) (-1)); [tauto|].
        pose proof (rfind_ge t c). lia. }
    exact (Hcontra r Ho Hr).
  - intros _. destruct IH as (pre & post & -> & Hn & Hlen).
    { pose proof (rfind_ge r c). lia. }
    exists (String a pre), post. simpl. rewrite Hlen.
    split; [reflexivity|]. split; [tauto | lia].
Qed.

(** Two splittings of one string: the shorter prefix is a prefix of the
    longer one. *)
Lemma append_split (a x q y : string) :
  a +:+ x = q +:+ y -> (String.length a <= String.length q)%nat ->
  exists m, q = a +:+ m /\ x = m +:+ y.
Proof.
  revert q. induction a as [|c a IH]; simpl; intros q Heq Hlen.
  - exists q. split; [reflexivity | assumption].
  - destruct q as [|d q]; simpl in *; [lia|].
    injection Heq as -> Heq.
    destruct (IH q Heq) as (m & -> & ->); [lia|].
    exists m. split; reflexivity.
Qed.

Lemma substring_append (a m b : string) :
  String.substring (String.length a) (String.length m) (a +:+ (m +:+ b)) = m.
Proof.
  induction a as [|c a IH]; simpl.
  - induction m as [|d m IHm]; simpl.
    + now destruct b.
    + now rewrite IHm.
  - exact IH.
Qed.

End SpanFacts.

Module ParserFacts.
Import PyStr AIEngine Spec SpanFacts.

Local Open Scope string_scope.

#[local] Arguments String.append !_ _ / : simpl nomatch.

(** The test of [_safe_json_load] succeeds on a span, and the slice is
    the span. *)
Lemma span_slice (text candidate : string) :
  span text candidate ->
  let start := find text "{" in
  let end_ := rfind text "}" in
  negb (start =? -1)%Z && negb (end_ =? -1)%Z && (start <? end_)%Z = true
  /\ slice text start (end_ + 1) = candidate.
Proof.
  intros (a & mid & b & -> & Ha & Hb & ->).
  set (text := a +:+ String "{" (mid +:+ String "}" b)).
  assert (Hf : find text "{" = Z.of_nat (String.length a)).
  { apply find_app, Ha. }
  assert (Hr : rfind text "}"
               = Z.of_nat (String.length a + S (String.length mid))).
  { unfold text.
    replace (a +:+ String "{" (mid +:+ String "}" b))
      with ((a +:+ String "{" mid) +:+ String "}" b)
      by now rewrite append_assoc.
    now rewrite (rfind_app "}" _ b Hb), append_length. }
  cbv zeta. rewrite Hf, Hr. split.
  - rewrite !andb_true_iff, !negb_true_iff, !Z.eqb_neq, Z.ltb_lt. lia.
  - unfold slice, text.
    replace (Z.to_nat (Z.of_nat (String.length a))) with (String.length a)
      by lia.
    replace (Z.to_nat (Z.of_nat (String.length a + S (String.length mid)) + 1
                       - Z.of_nat (String.length a)))
      with (String.length (String "{" (mid +:+ "}")))
      by (simpl; rewrite append_length; simpl; lia).
    replace (String "{" (mid +:+ String "}" b))
      with (String "{" (mid +:+ "}") +:+ b)
      by (simpl; now rewrite append_assoc).
    apply substring_append.
Qed.

(** When the test succeeds there is a span. *)
Lemma test_span (text : string) :
  let start := find text "{" in
  let end_ := rfind text "}" in
  negb (start =? -1)%Z && negb (end_ =? -1)%Z && (start <? end_)%Z = true ->
  exists candidate, span text candidate.
Proof.
  simpl. rewrite !andb_true_iff, !negb_true_iff, !Z.eqb_neq, Z.ltb_lt.
  intros [[Hs He] Hlt].
  pose proof (find_ge text "{"). pose proof (rfind_ge text "}").
  destruct (find_split text "{") as (a & p & Ea & Ha & Hfa); [lia|].
  destruct (rfind_split text "}") as (q & b & Eq & Hb & Hfq); [lia|].
  rewrite Hfa, Hfq in Hlt.
  destruct (append_split a (String "{" p) q (String "}" b)) as (m & -> & Em).
  { now rewrite <- Ea, <- Eq. }
  { lia. }
  rewrite append_length in Hlt.
  destruct m as [|c mid]; simpl in *; [lia|].
  injection Em as <- ->.
  exists (String "{" (mid +:+ "}")), a, mid, b. tauto.
Qed.

Section Parser.
Context `{PyRuntime}.

(** C6: on empty text [_safe_json_load] returns no document with the
    empty-output message; on a non-empty text that [json.loads] accepts
    it returns the document; when [json.loads] rejects the whole text it
    parses the part from the first opening brace to the last closing
    brace, returning the document or no document with the parser's
    message after ["JSON parse error: "]; without such a part it returns
    no document with the no-object message. *)
Theorem safe_json_load_spec (text : string) :
  (text = "" ->
     _safe_json_load text = (JNull, Some "Empty model output."))
  /\ (text <> "" -> forall v, json_loads text = Loaded v ->
        _safe_json_load text = (v, None))
  /\ (text <> "" -> forall msg, json_loads text = LoadError msg ->
        (forall candidate, span text candidate ->
           _safe_json_load text =
             match json_loads candidate with
             | Loaded v => (v, None)
             | LoadError e => (JNull, Some ("JSON parse error: " +:+ e))
             end)
        /\ ((forall candidate, ~ span text candidate) ->
            _safe_json_load text =
              (JNull, Some "No JSON object found in model output."))).
Proof.
  split; [intros ->; reflexivity|]. split.
  - intros Hne v Hv. unfold _safe_json_load.
    destruct text; [congruence|]. simpl. now rewrite Hv.
  - intros Hne msg Hmsg. split.
    + intros candidate Hspan. unfold _safe_json_load.
      destruct (span_slice text candidate Hspan) as [Htest Hslice].
      destruct text; [congruence|]. cbn [truthy negb]. rewrite Hmsg.
      cbv zeta in Htest, Hslice. rewrite Htest, Hslice. reflexivity.
    + intros Hnone. unfold _safe_json_load.
      destruct text as [|c r]; [congruence|]. cbn [truthy negb].
      rewrite Hmsg.
      destruct (negb (find (String c r) "{" =? -1)%Z
                && negb (rfind (String c r) "}" =? -1)%Z
                && (find (String c r) "{" <? rfind (String c r) "}")%Z)
        eqn:Htest; [|reflexivity].
      destruct (test_span (String c r) Htest) as [candidate Hspan].
      now destruct (Hnone candidate).
Qed.

Lemma truthy_spec (s : string) : truthy s = true <-> s <> "".
Proof. destruct s; simpl; split; congruence. Qed.

Lemma in_valid_types_spec (x : string) :
  in_valid_types x = true <-> x ∈ valid_types.
Proof.
  unfold in_valid_types. rewrite existsb_exists, list_elem_of_In. split.
  - intros (y & Hin & Heq). apply String.eqb_eq in Heq. now subst.
  - intros Hin. exists x. split; [assumption | apply String.eqb_refl].
Qed.

(** One turn of the loop appends the element when it is kept. *)
Lemma warmup_step_kept (warmups : list warmup) (item : json) :
  warmup_step warmups item =
    (warmups ++ match kept_move item with Some w => [w] | None => [] end)%list.
Proof.
  destruct item; simpl; try (now rewrite app_nil_r).
  unfold kept_move, move_name, move_duration, move_notes, move_type,
    get_default.
  set (n := strip (py_str (match dict_get d "name" with
                           | Some v => v | None => JStr "" end))).
  set (dv := match py_int _ with Some z => z | None => 0%Z end).
  set (mt := strip (py_str (match dict_get d "movement_type" with
                            | Some v => v | None => JStr "Mobility" end))).
  assert (Emt : (if in_valid_types mt then mt else "Mobility")
                = (if decide (mt ∈ valid_types) then mt else "Mobility")).
  { destruct (in_valid_types mt) eqn:E, (decide (mt ∈ valid_types)) as [Hin|Hn];
      try reflexivity.
    - apply in_valid_types_spec in E. contradiction.
    - apply in_valid_types_spec in Hin. congruence. }
  rewrite Emt.
  destruct (truthy n) eqn:En, (0 <? dv)%Z eqn:Ed; simpl;
    destruct (decide (n <> "" /\ (0 < dv)%Z)) as [[Hn Hd]|Hno];
    try reflexivity; try (now rewrite app_nil_r).
  - exfalso. apply Hno. split; [now apply truthy_spec | now apply Z.ltb_lt].
  - apply Z.ltb_lt in Hd. congruence.
  - apply truthy_spec in Hn. congruence.
  - apply truthy_spec in Hn. congruence.
Qed.

(** The loop appends the kept elements, in their order. *)
Lemma warmup_loop_kept (items : list json) (warmups : list warmup) :
  warmup_loop items warmups = (warmups ++ omap kept_move items)%list.
Proof.
  revert warmups. induction items as [|item items IH]; intros warmups; simpl.
  - now rewrite app_nil_r.
  - rewrite IH, warmup_step_kept, <- app_assoc. f_equal.
    now destruct (kept_move item).
Qed.

(** Every kept element has a name, a positive duration and one of the
    five movement types. *)
Lemma kept_move_valid (item : json) (w : warmup) :
  kept_move item = Some w ->
  w_name w <> "" /\ (0 < w_duration w)%Z /\ w_movement_type w ∈ valid_types.
Proof.
  destruct item; simpl; try discriminate.
  destruct (decide _) as [[Hn Hd]|]; [|discriminate].
  intros [= <-]. simpl. split; [assumption|]. split; [assumption|].
  unfold move_type. destruct (decide _) as [Hin|_]; [exact Hin|].
  unfold valid_types. set_solver.
Qed.

Lemma omap_kept_valid (items : list json) :
  Forall (fun w => w_name w <> "" /\ (0 < w_duration w)%Z
                   /\ w_movement_type w ∈ valid_types)
         (omap kept_move items).
Proof.
  induction items as [|item items IH]; simpl; [constructor|].
  destruct (kept_move item) as [w|] eqn:E; [|exact IH].
  constructor; [exact (kept_move_valid item w E) | exact IH].
Qed.

End Parser.

End ParserFacts.

Module EngineFacts.
Import PyStr AIEngine Spec SpanFacts ParserFacts Examples.

Local Open Scope string_scope.

Section Engine.
Context `{PyRuntime}.

Lemma extract_kept (d : list (string * json)) (items : list json) :
  dict_get d "warmups" = Some (JList items) ->
  fst (extract (JDict d)) = omap kept_move items.
Proof.
  intros Hd. unfold extract, get_default. rewrite Hd. simpl.
  now rewrite warmup_loop_kept.
Qed.

Lemma or_text_truthy (o : option string) (default : string) :
  default <> "" -> or_text o default <> "".
Proof.
  intros Hd. unfold or_text. destruct o as [s|]; [|assumption].
  destruct s; simpl; [assumption | discriminate].
Qed.

(** C5: when the parsed document is a mapping whose [warmups] field is
    a list, the warmups of the routine are the kept elements of that
    list in their order: the mappings with a non-empty trimmed name and
    a positive coerced duration ([duration_seconds], else [duration],
    else 0; a failed coercion is 0); each kept element carries one of
    the five movement types, any other value having become
    ["Mobility"]. *)
Theorem generate_warmups_kept (model exercise muscle_groups : string)
    (ud : option user_data) (output_text : option string)
    (d : list (string * json)) (items : list json) :
  responses_create model instructions
    (_build_prompt exercise muscle_groups ud) = Ok output_text ->
  fst (_safe_json_load (strip (text_of output_text))) = JDict d ->
  dict_get d "warmups" = Some (JList items) ->
  exists r,
    generate_warmups model exercise muscle_groups ud = Ok r
    /\ r_warmups r = omap kept_move items
    /\ Forall (fun w => w_name w <> "" /\ (0 < w_duration w)%Z
                        /\ w_movement_type w ∈ valid_types)
              (r_warmups r).
Proof.
  intros Hresp Hdoc Hitems.
  pose proof (extract_kept d items Hitems) as Hk.
  pose proof (omap_kept_valid items) as Hv.
  unfold generate_warmups. rewrite Hresp. cbn [bind].
  fold (text_of output_text).
  destruct (_safe_json_load (strip (text_of output_text))) as [obj pe].
  simpl in Hdoc. subst obj.
  destruct (extract (JDict d)) as [ws safety]. simpl in Hk. subst ws.
  destruct (omap kept_move items) as [|w ws]; eexists;
    (split; [reflexivity|]); simpl; split; try reflexivity; assumption.
Qed.

(** C4: when the provider call returns, [generate_warmups] returns a
    routine, whatever the text and however its parsing went; the error
    of the routine is set exactly when its warmups are empty, a set
    error is a non-empty message, and [raw] is the trimmed text. *)
Theorem generate_warmups_error (model exercise muscle_groups : string)
    (ud : option user_data) (output_text : option string) :
  responses_create model instructions
    (_build_prompt exercise muscle_groups ud) = Ok output_text ->
  exists r,
    generate_warmups model exercise muscle_groups ud = Ok r
    /\ (r_error r <> None <-> r_warmups r = [])
    /\ (forall e, r_error r = Some e -> e <> "")
    /\ r_raw r = strip (text_of output_text).
Proof.
  intros Hresp. unfold generate_warmups. rewrite Hresp. cbn [bind].
  fold (text_of output_text).
  destruct (_safe_json_load (strip (text_of output_text))) as [obj pe].
  destruct (extract obj) as [ws safety].
  destruct ws as [|w ws]; eexists; (split; [reflexivity|]); simpl.
  - split; [split; congruence|]. split; [|reflexivity].
    intros e [= <-]. now apply or_text_truthy.
  - split; [split; congruence|]. split; [discriminate | reflexivity].
Qed.

End Engine.

Lemma demo_span : span (strip demo_output) demo_text.
Proof.
  exists "Here you go: ".
  exists (String.substring 1 (String.length demo_text - 2) demo_text).
  exists " Enjoy!".
  split; [vm_compute; reflexivity|].
  split; [simpl; intuition discriminate|].
  split; [simpl; intuition discriminate|].
  vm_compute. reflexivity.
Qed.

(** The document inside a sentence is recovered from its braces. *)
Lemma safe_json_load_spec_witness :
  @_safe_json_load demo_runtime (strip demo_output) = (demo_doc, None).
Proof.
  destruct (@safe_json_load_spec demo_runtime (strip demo_output))
    as (_ & _ & Hspan).
  destruct (Hspan ltac:(vm_compute; discriminate)
              "Expecting value: line 1 column 1 (char 0)"
              ltac:(vm_compute; reflexivity)) as [Hcand _].
  rewrite (Hcand demo_text demo_span). vm_compute. reflexivity.
Defined.

(** The kept elements of the example: the first of the three, its
    movement type replaced. *)
Lemma generate_warmups_kept_witness :
  exists r,
    @generate_warmups demo_runtime "gpt-4o-mini" "tennis" "shoulders" None
      = Ok r
    /\ r_warmups r = [ {| w_name := "Arm circles"; w_duration := 30;
                          w_notes := ""; w_movement_type := "Mobility" |} ].
Proof.
  destruct (@generate_warmups_kept demo_runtime "gpt-4o-mini" "tennis"
              "shoulders" None (Some demo_output)
              [ ("warmups",
                 JList [ JDict [ ("name", JStr "Arm circles");
                                 ("duration_seconds", JInt 30);
                                 ("movement_type", JStr "Explosive") ];
                         JDict [ ("name", JStr " "); ("duration", JInt 20) ];
                         JInt 7 ]);
                ("safety", JStr "Stop if it hurts.") ]
              [ JDict [ ("name", JStr "Arm circles");
                        ("duration_seconds", JInt 30);
                        ("movement_type", JStr "Explosive") ];
                JDict [ ("name", JStr " "); ("duration", JInt 20) ];
                JInt 7 ])
    as (r & Hr & Hw & _).
  - reflexivity.
  - vm_compute. reflexivity.
  - reflexivity.
  - exists r. split; [exact Hr|]. rewrite Hw. vm_compute. reflexivity.
Defined.

Lemma generate_warmups_error_witness :
  exists r,
    @generate_warmups demo_runtime "gpt-4o-mini" "tennis" "shoulders" None
      = Ok r
    /\ (r_error r <> None <-> r_warmups r = [])
    /\ r_raw r = strip demo_output.
Proof.
  destruct (@generate_warmups_error demo_runtime "gpt-4o-mini" "tennis"
              "shoulders" None (Some demo_output) eq_refl)
    as (r & Hr & Hiff & _ & Hraw).
  exists r. split; [exact Hr|]. split; [exact Hiff | exact Hraw].
Defined.

End EngineFacts.

(** ** The ledger and the cached levels *)

Module LedgerFacts.
Import PyStr AIEngine Main Spec Examples.

Local Open Scope Z_scope.

Lemma in_int64_iff (z : Z) :
  in_int64 z = true <-> min_int64 <= z <= max_int64.
Proof.
  unfold in_int64. rewrite andb_true_iff, Z.leb_le, Z.leb_le. tauto.
Qed.

(** Only the exact spelling is a tag. *)
Lemma tag_of_some (t : string) (mt : movement_type) :
  tag_of t = Some mt -> t = movement_type_name mt.
Proof.
  unfold tag_of.
  repeat match goal with
         | |- context [String.eqb t ?k] =>
             destruct (String.eqb_spec t k) as [->|?]
         end; intros [= <-]; reflexivity.
Qed.


(** Every movement type names a level column; setting it changes that
    level and nothing else. *)
Lemma column_setter_level (mt : movement_type) :
  exists set,
    column_setter (level_field (movement_type_name mt)) = Some set
    /\ (forall v u, get_level mt (set v u) = v)
    /\ (forall v u, total_xp (set v u) = total_xp u)
    /\ (forall mt' v u, mt' <> mt -> get_level mt' (set v u) = get_level mt' u).
Proof.
  destruct mt; eexists; (split; [vm_compute; reflexivity|]);
    (split; [reflexivity|]); (split; [reflexivity|]);
    intros [] v u Hne; try reflexivity; congruence.
Qed.

(** *** The checked sum and the sum without bound *)

Lemma sum_integers_fits (values : list (option Z)) (acc : Z) :
  Z.abs acc
  + fold_right (fun x a => Z.abs x + a) 0 (omap id values) <= max_int64 ->
  sum_integers values acc
  = Ok (acc + fold_right Z.add 0 (omap id values)).
Proof.
  revert acc. induction values as [|[x|] values IH]; intros acc; simpl.
  - intros _. f_equal. lia.
  - change (list_omap (option Z) Z id values) with (omap id values).
    intros Hle.
    assert (Hpos : 0 <= fold_right (fun x a => Z.abs x + a) 0
                          (omap id values)).
    { clear. induction (omap id values); simpl; lia. }
    replace (in_int64 (acc + x)) with true
      by (symmetry; apply in_int64_iff; unfold min_int64, max_int64 in *; lia).
    rewrite IH by lia. f_equal. lia.
  - apply IH.
Qed.

(** When the checked sum returns, it is the sum. *)
Lemma sum_integers_value (values : list (option Z)) (acc x : Z) :
  sum_integers values acc = Ok x ->
  x = acc + fold_right Z.add 0 (omap id values).
Proof.
  revert acc. induction values as [|[v|] values IH]; intros acc; simpl.
  - intros [= <-]. lia.
  - change (list_omap (option Z) Z id values) with (omap id values).
    destruct (in_int64 (acc + v)); [|discriminate].
    intros H. apply IH in H. lia.
  - apply IH.
Qed.

Lemma omap_id_map {A B : Type} (f : A -> option B) (l : list A) :
  omap id (map f l) = omap f l.
Proof.
  induction l as [|a l IH]; [reflexivity|].
  change (omap id (map f (a :: l)))
    with (match f a with
          | Some y => y :: omap id (map f l)
          | None => omap id (map f l)
          end).
  change (omap f (a :: l))
    with (match f a with Some y => y :: omap f l | None => omap f l end).
  now rewrite IH.
Qed.

(** Within the magnitude bound, the [SUM] of the query returns the sum
    of the rows. *)
Lemma sum_xp_earned_fits (rows : list completed_exercise) (u : Z)
    (mt : movement_type) :
  xp_magnitude rows u mt <= max_int64 ->
  sum_xp_earned rows u (Some (movement_type_name mt))
  = Ok (xp_sum rows u mt).
Proof.
  intros Hle. unfold sum_xp_earned.
  rewrite sum_integers_fits; rewrite omap_id_map; [reflexivity|].
  exact Hle.
Qed.

Lemma sum_xp_earned_value (rows : list completed_exercise) (u x : Z)
    (mt : movement_type) :
  sum_xp_earned rows u (Some (movement_type_name mt)) = Ok x ->
  x = xp_sum rows u mt.
Proof.
  unfold sum_xp_earned. intros H. apply sum_integers_value in H.
  rewrite omap_id_map in H. exact H.
Qed.

Lemma xp_values_app (a b : list completed_exercise) (u : Z)
    (mt : movement_type) :
  xp_values (a ++ b) u mt = (xp_values a u mt ++ xp_values b u mt)%list.
Proof. unfold xp_values. now rewrite List.filter_app, omap_app. Qed.

Lemma xp_sum_app (a b : list completed_exercise) (u : Z)
    (mt : movement_type) :
  xp_sum (a ++ b) u mt = xp_sum a u mt + xp_sum b u mt.
Proof.
  unfold xp_sum. rewrite xp_values_app.
  induction (xp_values a u mt) as [|x l IH]; simpl; lia.
Qed.






(** *** The statements on regular values *)

Lemma bind_param_int (z : Z) :
  in_int64 z = true -> bind_param (JInt z) = Some (Ok (PInt z)).
Proof. intros H. simpl. now rewrite H. Qed.

(** A column that [F] keeps is kept by [alter F]. *)
Lemma alter_keeps {A : Type} (get : user_row -> A)
    (F : user_row -> user_row) (u u0 : Z) (us : gmap Z user_row) :
  (forall row, get (F row) = get row) ->
  get <$> alter F u us !! u0 = get <$> us !! u0.
Proof.
  intros HF. destruct (decide (u = u0)) as [->|Hne].
  - rewrite lookup_alter_eq. destruct (us !! u0); simpl; [|reflexivity].
    now rewrite HF.
  - now rewrite lookup_alter_ne.
Qed.

(** [update_movement_level] on a tag: it rewrites the level column of
    the tag in the row of the user, and when the query and the formula
    return, with the level of the sum. *)
Lemma update_movement_level_tag (u : Z) (mt : movement_type) (x : json)
    (s : db) :
  in_int64 u = true ->
  exists res F s',
    update_movement_level u (JStr (movement_type_name mt)) x s
    = Some (res, s')
    /\ users s' = alter F u (users s)
    /\ completed_exercises s' = completed_exercises s
    /\ routines s' = routines s
    /\ (forall row, total_xp (F row) = total_xp row)
    /\ (forall mt' row, mt' <> mt -> get_level mt' (F row) = get_level mt' row)
    /\ (forall xp l,
          sum_xp_earned (completed_exercises s) u
            (Some (movement_type_name mt)) = Ok xp ->
          calculate_level xp = Ok l ->
          res = Ok tt /\ forall row, get_level mt (F row) = l).
Proof.
  intros Hu. unfold update_movement_level.
  rewrite (bind_param_int u Hu). cbn [sql_bind bind_param as_text].
  destruct (sum_xp_earned (completed_exercises s) u
              (Some (movement_type_name mt))) as [xp|e] eqn:Es; cbn [bind].
  2:{ exists (Raise e), (fun row => row), s.
      split; [reflexivity|]. split; [symmetry; now apply alter_id|].
      repeat split; try reflexivity; congruence. }
  destruct (calculate_level xp) as [l|e] eqn:El.
  2:{ exists (Raise e), (fun row => row), s.
      split; [reflexivity|]. split; [symmetry; now apply alter_id|].
      repeat split; try reflexivity; congruence. }
  destruct (column_setter_level mt) as (set & -> & Hget & Htot & Hoth).
  eexists (Ok tt), (set l), _. split; [reflexivity|].
  cbn [users completed_exercises routines].
  repeat split; try reflexivity; auto.
  intros row. assert (l0 = l) by congruence. subst. apply Hget.
Qed.

(** [add_total_xp] with an integer. *)
Lemma add_total_xp_int (u x : Z) (s : db) :
  in_int64 u = true -> in_int64 x = true ->
  add_total_xp u (JInt x) s
  = Some (Ok tt,
          {| users := alter (fun row =>
                               with_total (new_total (total_xp row) (Some x))
                                 row) u (users s);
             completed_exercises := completed_exercises s;
             routines := routines s |}).
Proof.
  intros Hu Hx. unfold add_total_xp.
  rewrite (bind_param_int x Hx), (bind_param_int u Hu). reflexivity.
Qed.

(** Within 64 bits the new total is the old one raised. *)
Lemma new_total_raised (stored : total) (x : Z) :
  (forall t, stored = TInt t -> in_int64 (t + x) = true) ->
  new_total stored (Some x) = raised_by x stored.
Proof.
  intros Hfit. destruct stored as [|t|]; try reflexivity.
  simpl. now rewrite (Hfit t).
Qed.

Lemma bindable_bound (v : json) :
  bindable v = true -> exists p, bind_param v = Some (Ok p).
Proof.
  unfold bindable. destruct (bind_param v) as [[p|]|]; try discriminate.
  eauto.
Qed.

(** [save_completed_exercise] on regular values appends the row. *)
Lemma save_completed_exercise_regular (u x : Z) (rid name : json)
    (mt : movement_type) (s : db) :
  in_int64 u = true -> bindable rid = true -> bindable name = true ->
  in_int64 x = true ->
  save_completed_exercise u rid name (JStr (movement_type_name mt)) (JInt x) s
  = Some (Ok tt,
          append_all [ {| ce_user_id := u;
                          ce_movement_type := Some (movement_type_name mt);
                          ce_xp_earned := Some x |} ] s).
Proof.
  intros Hu Hrid Hname Hx. unfold save_completed_exercise.
  destruct (bindable_bound rid Hrid) as [p1 ->].
  destruct (bindable_bound name Hname) as [p2 ->].
  rewrite (bind_param_int u Hu), (bind_param_int x Hx). reflexivity.
Qed.

(** What [action_of] reads in the body of a move completion. *)
Lemma action_of_move (se : option Z) (data : json) (u x : Z)
    (mt : movement_type) :
  action_of (CompleteExercise se data) = Some (Move u mt x) ->
  exists d,
    se = Some u /\ data = JDict d
    /\ get_default d "movement_type" JNull = JStr (movement_type_name mt)
    /\ get_default d "xp_earned" (JInt 10) = JInt x
    /\ in_int64 u = true /\ in_int64 x = true
    /\ bindable (get_default d "routine_id" JNull) = true
    /\ bindable (get_default d "exercise_name" JNull) = true.
Proof.
  destruct se as [u'|]; [|discriminate].
  destruct data as [| | | | | |d]; try discriminate. cbn [action_of].
  destruct (get_default d "movement_type" JNull) as [| | | |t| |] eqn:Em;
    try discriminate.
  destruct (get_default d "xp_earned" (JInt 10)) as [| |x'| | | |] eqn:Ex;
    try discriminate.
  destruct (tag_of t) as [mt'|] eqn:Et; [|discriminate].
  destruct (in_int64 u') eqn:Hu; [|discriminate].
  destruct (bindable (get_default d "routine_id" JNull)) eqn:Hr;
    [|discriminate].
  destruct (bindable (get_default d "exercise_name" JNull)) eqn:Hn;
    [|discriminate].
  destruct (in_int64 x') eqn:Hx; [|discriminate].
  cbn [andb]. intros [= -> -> ->]. exists d.
  apply tag_of_some in Et. subst t. repeat split; auto.
Qed.

Lemma action_of_bonus (se : option Z) (data : json) (u b : Z) :
  action_of (CompleteRoutine se data) = Some (Bonus u b) ->
  exists d,
    se = Some u /\ data = JDict d
    /\ get_default d "bonus_xp" (JInt 50) = JInt b
    /\ in_int64 u = true /\ in_int64 b = true.
Proof.
  destruct se as [u'|]; [|discriminate].
  destruct data as [| | | | | |d]; try discriminate. cbn [action_of].
  destruct (get_default d "bonus_xp" (JInt 50)) as [| |b'| | | |] eqn:Eb;
    try discriminate.
  destruct (in_int64 u') eqn:Hu; [|discriminate].
  destruct (in_int64 b') eqn:Hb; [|discriminate].
  cbn [andb]. intros [= -> ->]. exists d. repeat split; auto.
Qed.

Lemma action_of_shape (r : request) (a : action) :
  action_of r = Some a ->
  match a with
  | Refused => session_of r = None
  | Move u _ _ => exists data, r = CompleteExercise (Some u) data
  | Bonus u _ => exists data, r = CompleteRoutine (Some u) data
  end.
Proof.
  destruct r as [[u|] data|[u|] data]; cbn [action_of session_of].
  - destruct data as [| | | | | |d]; try discriminate.
    destruct (get_default d "movement_type" JNull); try discriminate.
    destruct (get_default d "xp_earned" (JInt 10)); try discriminate.
    destruct (tag_of _); [|discriminate].
    destruct (_ && _); [|discriminate]. intros [= <-]. eauto.
  - intros [= <-]. reflexivity.
  - destruct data as [| | | | | |d]; try discriminate.
    destruct (get_default d "bonus_xp" (JInt 50)); try discriminate.
    destruct (_ && _); [|discriminate]. intros [= <-]. eauto.
  - intros [= <-]. reflexivity.
Qed.

(** *** One regular request *)

Lemma complete_exercise_regular (u x : Z) (d : list (string * json))
    (mt : movement_type) (s s1 s2 : db) (res : result unit) :
  get_default d "movement_type" JNull = JStr (movement_type_name mt) ->
  get_default d "xp_earned" (JInt 10) = JInt x ->
  in_int64 u = true -> in_int64 x = true ->
  bindable (get_default d "routine_id" JNull) = true ->
  bindable (get_default d "exercise_name" JNull) = true ->
  add_total_xp u (JInt x)
    (append_all [ {| ce_user_id := u;
                     ce_movement_type := Some (movement_type_name mt);
                     ce_xp_earned := Some x |} ] s) = Some (Ok tt, s1) ->
  update_movement_level u (JStr (movement_type_name mt)) (JInt x) s1
  = Some (res, s2) ->
  exists res', complete_exercise (Some u) (JDict d) s = Some (res', s2).
Proof.
  intros Hm Hx Hu Hx64 Hrid Hname Htotal Hlevel.
  unfold complete_exercise. cbn zeta. rewrite Hm, Hx.
  unfold op_bind at 1.
  rewrite (save_completed_exercise_regular u x _ _ mt s Hu Hrid Hname Hx64).
  unfold op_bind at 1. unfold add_xp, op_bind at 1.
  rewrite Htotal, Hlevel.
  destruct res as [[]|e]; eexists; reflexivity.
Qed.

Lemma complete_routine_regular (u b : Z) (d : list (string * json))
    (s s1 : db) :
  get_default d "bonus_xp" (JInt 50) = JInt b ->
  add_total_xp u (JInt b) s = Some (Ok tt, s1) ->
  complete_routine (Some u) (JDict d) s = Some (Ok (Success (JInt b)), s1).
Proof.
  intros Hb Htotal. unfold complete_routine. cbn zeta. rewrite Hb.
  unfold op_bind. now rewrite Htotal.
Qed.

Lemma in_int64_sum (t x : Z) :
  Z.abs t + Z.abs x <= max_int64 -> in_int64 (t + x) = true.
Proof.
  intros H. apply in_int64_iff. unfold min_int64, max_int64 in *. lia.
Qed.

Lemma raised_by_0 (o : option total) : raised_by 0 <$> o = o.
Proof.
  destruct o as [[|t|]|]; simpl; try reflexivity.
  do 2 f_equal. lia.
Qed.

(** What one regular request does: to the ledger, to the cached
    levels and, while the totals stay within 64 bits, to the totals. *)
Lemma handle_effect (r : request) (s : db) :
  regular r ->
  exists res s',
    handle r s = Some (res, s')
    /\ completed_exercises s' = (completed_exercises s ++ rows_of r)%list
    /\ routines s' = routines s
    /\ (forall u, is_Some (users s !! u) -> is_Some (users s' !! u))
    /\ (totals_fit s [r] ->
        forall u,
          stored_total s' u = raised_by (gain r u) <$> stored_total s u)
    /\ (forall u mt,
          ~ moves u mt r -> stored_level s' u mt = stored_level s u mt)
    /\ (forall u mt xp l,
          moves u mt r ->
          sum_xp_earned (completed_exercises s') u
            (Some (movement_type_name mt)) = Ok xp ->
          calculate_level xp = Ok l ->
          is_Some (users s !! u) ->
          stored_level s' u mt = Some l).
Proof.
  intros [a Ha]. destruct a as [|u0 mt0 x|u0 b].
  - (* nobody is logged in *)
    exists (Ok NotAuthenticated), s.
    assert (Hrows : rows_of r = []) by (unfold rows_of, row_of; now rewrite Ha).
    assert (Hgain : forall u, gain r u = 0).
    { intros u. unfold gain, bonus_of. rewrite Hrows, Ha. reflexivity. }
    pose proof (action_of_shape r _ Ha) as Hse. simpl in Hse.
    split; [destruct r as [se data|se data]; simpl in Hse; subst se;
            reflexivity|].
    rewrite Hrows, app_nil_r. split; [reflexivity|]. split; [reflexivity|].
    split; [auto|]. split; [|split].
    + intros _ u. rewrite Hgain. symmetry. apply raised_by_0.
    + reflexivity.
    + intros u mt xp l [x' Hmv]. congruence.
  - (* a move completion *)
    destruct (action_of_shape r _ Ha) as [data ->].
    destruct (action_of_move _ _ _ _ _ Ha)
      as (d & _ & -> & Hm & Hx & Hu & Hx64 & Hrid & Hname).
    set (row := {| ce_user_id := u0;
                   ce_movement_type := Some (movement_type_name mt0);
                   ce_xp_earned := Some x |}).
    assert (Hrows : rows_of (CompleteExercise (Some u0) (JDict d)) = [row]).
    { unfold rows_of, row_of. now rewrite Ha. }
    assert (Hswing : swing [CompleteExercise (Some u0) (JDict d)] u0
                     = Z.abs x).
    { unfold swing. cbn [fold_right]. unfold swing_of.
      rewrite Ha, Z.eqb_refl. lia. }
    pose proof (add_total_xp_int u0 x (append_all [row] s) Hu Hx64) as Htotal.
    set (s1 := {| users := alter (fun urow =>
                                    with_total
                                      (new_total (total_xp urow) (Some x))
                                      urow) u0 (users s);
                  completed_exercises := (completed_exercises s ++ [row])%list;
                  routines := routines s |}).
    change (add_total_xp u0 (JInt x) (append_all [row] s) = Some (Ok tt, s1))
      in Htotal.
    destruct (update_movement_level_tag u0 mt0 (JInt x) s1 Hu)
      as (res & F & s2 & Hlevel & Hus2 & Hled2 & Hrt2 & HFt & HFo & HFs).
    destruct (complete_exercise_regular u0 x d mt0 s s1 s2 res
                Hm Hx Hu Hx64 Hrid Hname Htotal Hlevel) as [res' Hres].
    exists res', s2. split; [exact Hres|].
    rewrite Hrows, Hled2. split; [reflexivity|].
    split; [exact Hrt2|].
    cbn [s1 users completed_exercises] in Hus2, HFs.
    split; [|split; [|split]].
    + intros u [urow Hrow]. rewrite Hus2.
      destruct (decide (u0 = u)) as [->|Hne].
      * rewrite !lookup_alter_eq, Hrow. simpl. eauto.
      * rewrite !lookup_alter_ne by exact Hne. eauto.
    + intros Hfit u. unfold stored_total. rewrite Hus2.
      rewrite (alter_keeps total_xp F u0 u _ HFt).
      assert (Hgain : gain (CompleteExercise (Some u0) (JDict d)) u
                      = if u0 =? u then x else 0).
      { unfold gain, bonus_of, ledger_total, ledger_of.
        rewrite Hrows, Ha. simpl List.filter. cbn [ce_user_id row].
        destruct (u0 =? u); simpl; lia. }
      rewrite Hgain.
      destruct (decide (u0 = u)) as [->|Hne].
      * rewrite lookup_alter_eq, Z.eqb_refl.
        destruct (users s !! u) as [urow|] eqn:Hrow; [|reflexivity].
        simpl. f_equal. apply new_total_raised. intros t Ht.
        apply in_int64_sum. rewrite <- Hswing. apply (Hfit u t).
        unfold stored_total. now rewrite Hrow, <- Ht.
      * rewrite lookup_alter_ne by exact Hne.
        replace (u0 =? u) with false by (symmetry; now apply Z.eqb_neq).
        symmetry. apply raised_by_0.
    + intros u mt Hnot. unfold stored_level. rewrite Hus2.
      destruct (decide (u0 = u)) as [->|Hne].
      * rewrite !lookup_alter_eq.
        destruct (users s !! u) as [urow|]; [|reflexivity]. simpl.
        f_equal. rewrite HFo; [now destruct mt|].
        intros ->. apply Hnot. now exists x.
      * now rewrite !lookup_alter_ne.
    + intros u mt xp l [x' Hmv] Hsum Hl [urow Hrow].
      assert (u = u0 /\ mt = mt0) as [-> ->] by (split; congruence).
      destruct (HFs xp l Hsum Hl) as [_ HF].
      unfold stored_level. rewrite Hus2, !lookup_alter_eq, Hrow.
      simpl. now rewrite HF.
  - (* a routine bonus *)
    destruct (action_of_shape r _ Ha) as [data ->].
    destruct (action_of_bonus _ _ _ _ Ha) as (d & _ & -> & Hb & Hu & Hb64).
    assert (Hrows : rows_of (CompleteRoutine (Some u0) (JDict d)) = []).
    { unfold rows_of, row_of. now rewrite Ha. }
    assert (Hswing : swing [CompleteRoutine (Some u0) (JDict d)] u0
                     = Z.abs b).
    { unfold swing. cbn [fold_right]. unfold swing_of.
      rewrite Ha, Z.eqb_refl. lia. }
    pose proof (add_total_xp_int u0 b s Hu Hb64) as Htotal.
    eexists (Ok (Success (JInt b))), _.
    split; [exact (complete_routine_regular u0 b d s _ Hb Htotal)|].
    cbn [users completed_exercises routines].
    rewrite Hrows, app_nil_r. split; [reflexivity|]. split; [reflexivity|].
    split; [|split; [|split]].
    + intros u [urow Hrow].
      destruct (decide (u0 = u)) as [->|Hne].
      * rewrite lookup_alter_eq, Hrow. simpl. eauto.
      * rewrite lookup_alter_ne by exact Hne. eauto.
    + intros Hfit u. unfold stored_total. cbn [users].
      assert (Hgain : gain (CompleteRoutine (Some u0) (JDict d)) u
                      = if u0 =? u then b else 0).
      { unfold gain, bonus_of, ledger_total. rewrite Hrows, Ha.
        destruct (u0 =? u); simpl; lia. }
      rewrite Hgain.
      destruct (decide (u0 = u)) as [->|Hne].
      * rewrite lookup_alter_eq, Z.eqb_refl.
        destruct (users s !! u) as [urow|] eqn:Hrow; [|reflexivity].
        simpl. f_equal. apply new_total_raised. intros t Ht.
        apply in_int64_sum. rewrite <- Hswing. apply (Hfit u t).
        unfold stored_total. now rewrite Hrow, <- Ht.
      * rewrite lookup_alter_ne by exact Hne.
        replace (u0 =? u) with false by (symmetry; now apply Z.eqb_neq).
        symmetry. apply raised_by_0.
    + intros u mt _. unfold stored_level. cbn [users].
      apply alter_keeps. intros urow. now destruct mt.
    + intros u mt xp l [x' Hmv]. congruence.
Qed.

(** *** Sequences of regular requests *)

Lemma serve_cons (r : request) (rs : list request) (s : db) :
  serve (r :: rs) s
  = match handle r s with
    | Some (_, s') => serve rs s'
    | None => None
    end.
Proof. reflexivity. Qed.











Lemma movement_type_eq_dec (a b : movement_type) : {a = b} + {a <> b}.
Proof. decide equality. Qed.

Lemma moves_dec (u : Z) (mt : movement_type) (r : request) :
  moves u mt r \/ ~ moves u mt r.
Proof.
  unfold moves. destruct (action_of r) as [[|u' mt' x|u' b]|];
    try (right; intros [x' H]; discriminate).
  destruct (Z.eq_dec u' u) as [->|Hu];
    [|right; intros [x' H]; congruence].
  destruct (movement_type_eq_dec mt' mt) as [->|Hm];
    [|right; intros [x' H]; congruence].
  left. now exists x.
Qed.



(** *** The levels [get_user_stats] reports *)








End LedgerFacts.

(** ** Total XP, the ledger and the routine bonus *)

Module BonusFacts.
Import PyStr AIEngine Main Spec Examples LedgerFacts.

Local Open Scope Z_scope.





(** A bonus of JSON [null] turns the stored total into NULL, and it
    stays NULL whatever is added later. *)
Example null_bonus_erases_total :
  match serve [CompleteRoutine (Some 1) (JDict [("bonus_xp", JNull)]);
               completion 1 Mobility 150] one_user_db with
  | Some s => stored_total s 1 = Some TNull
  | None => False
  end.
Proof. vm_compute. reflexivity. Qed.

(** An XP value outside 64 bits cannot be bound: the request raises
    [OverflowError] and writes nothing. *)
Example unbound_xp_writes_nothing :
  handle (completion 1 Mobility (2 ^ 63)) one_user_db
  = Some (Raise OverflowError, one_user_db).
Proof. vm_compute. reflexivity. Qed.

(** A completion without [movement_type]: the row is appended with a
    NULL type, the total is raised, and the level update fails at
    [.lower()]. *)
Example missing_movement_type :
  match handle (CompleteExercise (Some 1) (JDict [("xp_earned", JInt 5)]))
          one_user_db with
  | Some (Raise AttributeError, s) =>
      completed_exercises s
      = [ {| ce_user_id := 1; ce_movement_type := None;
             ce_xp_earned := Some 5 |} ]
      /\ stored_total s 1 = Some (TInt 5)
  | _ => False
  end.
Proof. vm_compute. split; reflexivity. Qed.

(** A total that leaves 64 bits is no longer followed, while the rows
    are still appended. *)
Example total_leaves_integers :
  match serve [huge_move; huge_move] one_user_db with
  | Some s =>
      stored_total s 1 = Some TUnknown
      /\ completed_exercises s = [huge_row; huge_row]
  | None => False
  end.
Proof. vm_compute. split; reflexivity. Qed.

End BonusFacts.

(** ** Further properties of the classifier and of the stored category *)

Module NormalFacts.
Import PyStr Spec PyStrFacts.

Local Open Scope string_scope.

(** Lower-casing keeps whitespace whitespace and nothing else. *)
Lemma is_space_lower_char (c : ascii) : is_space (lower_char c) = is_space c.
Proof. destruct c as [[] [] [] [] [] [] [] []]; vm_compute; reflexivity. Qed.

Lemma lower_char_idem (c : ascii) : lower_char (lower_char c) = lower_char c.
Proof. destruct c as [[] [] [] [] [] [] [] []]; vm_compute; reflexivity. Qed.

Lemma lower_idem (s : string) : lower (lower s) = lower s.
Proof.
  induction s as [|c r IH]; simpl; [reflexivity|].
  now rewrite lower_char_idem, IH.
Qed.

Lemma lower_lstrip (s : string) : lower (lstrip s) = lstrip (lower s).
Proof.
  induction s as [|c r IH]; simpl; [reflexivity|].
  rewrite is_space_lower_char. destruct (is_space c); [exact IH | reflexivity].
Qed.

Lemma lower_rstrip (s : string) : lower (rstrip s) = rstrip (lower s).
Proof.
  induction s as [|c r IH]; simpl; [reflexivity|].
  rewrite <- IH, is_space_lower_char.
  destruct (rstrip r) as [|d r']; simpl; [|reflexivity].
  destruct (is_space c); reflexivity.
Qed.

Lemma lower_strip (s : string) : lower (strip s) = strip (lower s).
Proof. unfold strip. now rewrite lower_rstrip, lower_lstrip. Qed.

Lemma rstrip_idem (s : string) : rstrip (rstrip s) = rstrip s.
Proof.
  induction s as [|c r IH]; simpl; [reflexivity|].
  destruct (rstrip r) as [|d r'] eqn:E.
  - destruct (is_space c) eqn:Ec; simpl; [reflexivity|]. now rewrite Ec.
  - change (rstrip (String c (String d r')))
      with (match rstrip (String d r') with
            | EmptyString =>
                if is_space c then EmptyString else String c EmptyString
            | String a b => String c (String a b)
            end).
    now rewrite IH.
Qed.

Lemma lstrip_clean (s : string) : starts_clean (lstrip s).
Proof.
  induction s as [|c r IH]; simpl; [exact I|].
  destruct (is_space c) eqn:E; [exact IH | exact E].
Qed.

Lemma rstrip_clean (s : string) : starts_clean s -> starts_clean (rstrip s).
Proof.
  destruct s as [|c r]; simpl; [auto|]. intros Hc.
  destruct (rstrip r); [rewrite Hc|]; exact Hc.
Qed.

Lemma lstrip_of_clean (s : string) : starts_clean s -> lstrip s = s.
Proof. destruct s as [|c r]; simpl; [auto|]. now intros ->. Qed.

Lemma strip_idem (s : string) : strip (strip s) = strip s.
Proof.
  unfold strip.
  rewrite (lstrip_of_clean (rstrip (lstrip s))).
  - apply rstrip_idem.
  - apply rstrip_clean, lstrip_clean.
Qed.

End NormalFacts.

Module ClassifierExtra.
Import PyStr AIEngine Main Spec PyStrFacts NormalFacts.

Local Open Scope string_scope.

(** X8: The classifier sees its input only through [lower] and [strip]:
    lower-casing the input, or trimming it, beforehand does not change
    the category. *)
Theorem categorize_sport_normal (exercise : string) :
  categorize_sport (lower exercise) = categorize_sport exercise
  /\ categorize_sport (strip exercise) = categorize_sport exercise
  /\ categorize_sport (strip (lower exercise)) = categorize_sport exercise.
Proof.
  unfold categorize_sport. split; [|split].
  - now rewrite lower_idem.
  - now rewrite lower_strip, strip_idem.
  - now rewrite lower_strip, lower_idem, strip_idem.
Qed.

Lemma dict_get_value {A : Type} (d : list (string * A)) (k : string) (v : A) :
  dict_get d k = Some v -> In v (map snd d).
Proof.
  induction d as [|[k' v'] d IH]; simpl; [discriminate|].
  destruct (String.eqb k' k); [intros [= ->]; now left | auto].
Qed.

Lemma partial_match_value (items : list (string * string)) (x c : string) :
  partial_match items x = Some c -> In c (map snd items).
Proof.
  induction items as [|[k v] items IH]; simpl; [discriminate|].
  destruct (partial_hit x k); [intros [= ->]; now left | auto].
Qed.

Lemma table_categories (c : string) :
  In c (map snd SPORT_CATEGORIES) -> In c sport_categories.
Proof.
  assert (H : List.Forall (fun c => In c sport_categories)
                (map snd SPORT_CATEGORIES)).
  { unfold SPORT_CATEGORIES, sport_categories. simpl.
    repeat (constructor; [simpl; tauto|]). constructor. }
  exact (proj1 (List.Forall_forall _ _) H c).
Qed.

(** X9: Whatever the input, the classifier answers one of the eight
    categories of its table or ["Other"]; in particular never the empty
    string. *)
Theorem categorize_sport_range (exercise : string) :
  In (categorize_sport exercise) sport_categories
  /\ categorize_sport exercise <> "".
Proof.
  assert (Hin : In (categorize_sport exercise) sport_categories).
  { unfold categorize_sport.
    destruct (dict_get SPORT_CATEGORIES _) as [c|] eqn:Ed.
    - apply table_categories, (dict_get_value _ _ _ Ed).
    - destruct (partial_match SPORT_CATEGORIES _) as [c|] eqn:Ep.
      + apply table_categories, (partial_match_value _ _ _ Ep).
      + unfold sport_categories. simpl. tauto. }
  split; [exact Hin|].
  intros Heq. rewrite Heq in Hin. unfold sport_categories in Hin. simpl in Hin.
  intuition discriminate.
Qed.

Lemma named_or_default (k : string) :
  let r := if negb (truthy k) || String.eqb k "Other"
           then "General Fitness" else k in
  r <> "Other" /\ r <> "".
Proof.
  destruct k as [|c k]; [split; discriminate|]. cbn [truthy negb orb].
  destruct (String.eqb_spec (String c k) "Other") as [Hk|Hk];
    [split; discriminate|].
  split; [exact Hk | discriminate].
Qed.

Lemma stored_category_named (rd : routine) :
  stored_category rd <> "Other" /\ stored_category rd <> "".
Proof.
  unfold stored_category.
  destruct (String.eqb (r_sport_category rd) "Other"
            || negb (truthy (r_sport_category rd))) eqn:E.
  - apply named_or_default.
  - apply orb_false_iff in E. destruct E as [E1 E2].
    apply String.eqb_neq in E1. split; [exact E1|].
    intros Hs. rewrite Hs in E2. discriminate.
Qed.

(** X10: [save_routine] never stores the fallback category ["Other"] nor an
    empty category: the row it appends carries a named category. *)
Theorem save_routine_named_category (user_id : Z) (rd : routine) (s : db) :
  exists row,
    routines (snd (save_routine user_id rd s)) = (routines s ++ [row])%list
    /\ rt_sport_category row <> "Other"
    /\ rt_sport_category row <> "".
Proof.
  eexists. split; [reflexivity|]. cbn [rt_sport_category].
  apply stored_category_named.
Qed.

End ClassifierExtra.

(** ** Further properties of the engine *)

Module EngineExtra.
Import PyStr AIEngine Spec ParserFacts EngineFacts NormalFacts Examples.

Local Open Scope string_scope.

Lemma blank_field_falsy (o : option string) :
  blank_field o -> field_truthy o = false.
Proof. intros [->| ->]; reflexivity. Qed.

(** X13: A profile whose three fields are absent or empty adds nothing to the
    prompt: it is the prompt built without a profile. *)
Theorem build_prompt_blank_profile (exercise muscle_groups : string)
    (ud : user_data) :
  blank_field (ud_age ud) -> blank_field (ud_fitness_level ud) ->
  blank_field (ud_preference ud) ->
  _build_prompt exercise muscle_groups (Some ud)
  = _build_prompt exercise muscle_groups None.
Proof.
  intros Ha Hf Hp. unfold _build_prompt.
  now rewrite (blank_field_falsy _ Ha), (blank_field_falsy _ Hf),
    (blank_field_falsy _ Hp).
Qed.

Lemma build_prompt_blank_profile_witness :
  _build_prompt "tennis" "shoulders"
    (Some {| ud_age := None; ud_fitness_level := Some "";
             ud_preference := None |})
  = _build_prompt "tennis" "shoulders" None.
Proof.
  apply build_prompt_blank_profile; [now left | now right | now left].
Defined.

Section Engine.
Context `{PyRuntime}.

(** X14: An exception of the provider call leaves [generate_warmups]
    unchanged; when the call returns, the routine repeats the exercise
    and the muscle groups it was asked for, carries the classifier's
    category of the exercise, and has no safety text when it has no
    warmups. *)
Theorem generate_warmups_frame (model exercise muscle_groups : string)
    (ud : option user_data) :
  match responses_create model instructions
          (_build_prompt exercise muscle_groups ud) with
  | Raise e => generate_warmups model exercise muscle_groups ud = Raise e
  | Ok _ =>
      exists r,
        generate_warmups model exercise muscle_groups ud = Ok r
        /\ r_exercise r = exercise
        /\ r_muscle_groups r = muscle_groups
        /\ r_sport_category r = categorize_sport exercise
        /\ (r_warmups r = [] -> r_safety r = "")
  end.
Proof.
  unfold generate_warmups.
  destruct (responses_create _ _ _) as [out|e]; cbn [bind]; [|reflexivity].
  destruct (_safe_json_load _) as [obj pe].
  destruct (extract obj) as [ws safety].
  destruct ws as [|w ws]; eexists; (split; [reflexivity|]); simpl;
    repeat split; try reflexivity; discriminate.
Qed.

Lemma safe_json_load_loaded (text : string) (v : json) :
  text <> "" -> json_loads text = Loaded v ->
  _safe_json_load text = (v, None).
Proof.
  intros Hne Hv. unfold _safe_json_load.
  destruct text; [congruence|]. cbn [truthy negb]. now rewrite Hv.
Qed.

Lemma extract_no_moves (v : json) : no_moves v -> fst (extract v) = [].
Proof.
  destruct v as [| | | | | |d]; try reflexivity.
  unfold no_moves, extract, get_default.
  destruct (dict_get d "warmups") as [[| | | | |items|]|]; try reflexivity.
  simpl. rewrite warmup_loop_kept. auto.
Qed.

(** X15: Valid JSON that yields no move (it is not an object, has no list
    under [warmups], or none of its elements is kept) is reported with
    the message ["Could not parse the model output."], with no warmups
    and no safety text, although the parse succeeded. *)
Theorem generate_warmups_no_moves (model exercise muscle_groups : string)
    (ud : option user_data) (output_text : option string) (v : json) :
  responses_create model instructions
    (_build_prompt exercise muscle_groups ud) = Ok output_text ->
  strip (text_of output_text) <> "" ->
  json_loads (strip (text_of output_text)) = Loaded v ->
  no_moves v ->
  exists r,
    generate_warmups model exercise muscle_groups ud = Ok r
    /\ r_warmups r = [] /\ r_safety r = ""
    /\ r_error r = Some "Could not parse the model output."
    /\ r_raw r = strip (text_of output_text).
Proof.
  intros Hresp Hne Hv Hno.
  pose proof (safe_json_load_loaded _ v Hne Hv) as Hload.
  pose proof (extract_no_moves v Hno) as He.
  unfold generate_warmups. rewrite Hresp. cbn [bind].
  fold (text_of output_text). rewrite Hload.
  destruct (extract v) as [ws safety]. simpl in He. subst ws.
  eexists. split; [reflexivity|]. simpl. repeat split; reflexivity.
Qed.

(** X16: A [duration_seconds] that is present hides [duration]: when it does
    not convert to a positive integer (a JSON null, say) the element is
    dropped, whatever [duration] holds. *)
Theorem duration_seconds_hides_duration (d : list (string * json))
    (v : json) (warmups : list warmup) :
  dict_get d "duration_seconds" = Some v ->
  (forall z, py_int v = Some z -> (z <= 0)%Z) ->
  warmup_step warmups (JDict d) = warmups.
Proof.
  intros Hd Hv. unfold warmup_step, get_default. rewrite Hd.
  destruct (py_int v) as [z|] eqn:Ez.
  - specialize (Hv z eq_refl).
    replace (0 <? z)%Z with false by (symmetry; apply Z.ltb_ge; exact Hv).
    now rewrite andb_false_r.
  - now rewrite andb_false_r.
Qed.

Lemma kept_move_sound (item : json) (w : warmup) :
  kept_move item = Some w -> valid_warmup w.
Proof.
  destruct item; simpl; try discriminate.
  destruct (decide _) as [[Hn Hd]|]; [|discriminate].
  intros [= <-]. unfold valid_warmup. cbn [w_name w_notes w_duration
                                             w_movement_type].
  split; [exact Hn|]. unfold move_name, move_notes.
  split; [apply strip_idem|]. split; [apply strip_idem|].
  split; [exact Hd|].
  unfold move_type. destruct (decide _) as [Hin|_].
  - now apply list_elem_of_In.
  - simpl. tauto.
Qed.

Lemma extract_sound (obj : json) : Forall valid_warmup (fst (extract obj)).
Proof.
  destruct obj as [| | | | | |d]; try constructor.
  unfold extract, get_default.
  destruct (dict_get d "warmups") as [[| | | | |items|]|]; try constructor.
  simpl. rewrite warmup_loop_kept. simpl.
  induction items as [|item items IH]; simpl; [constructor|].
  destruct (kept_move item) as [w|] eqn:E; [|exact IH].
  constructor; [exact (kept_move_sound item w E) | exact IH].
Qed.

Lemma generate_warmups_all_valid (model exercise muscle_groups : string)
    (ud : option user_data) (r : routine) :
  generate_warmups model exercise muscle_groups ud = Ok r ->
  Forall valid_warmup (r_warmups r).
Proof.
  unfold generate_warmups.
  destruct (responses_create _ _ _) as [out|e]; cbn [bind]; [|discriminate].
  destruct (_safe_json_load _) as [obj pe].
  pose proof (extract_sound obj) as Hs.
  destruct (extract obj) as [ws safety]. simpl in Hs.
  destruct ws as [|w ws]; intros [= <-]; simpl; [constructor | exact Hs].
Qed.

(** X17: Whatever the provider answers, every warmup of a returned routine
    is well-formed: a non-empty name and notes without surrounding
    whitespace, a positive duration, one of the five movement types. *)
Theorem generate_warmups_sound (model exercise muscle_groups : string)
    (ud : option user_data) (r : routine) :
  generate_warmups model exercise muscle_groups ud = Ok r ->
  Forall valid_warmup (r_warmups r).
Proof.
  apply generate_warmups_all_valid.
Qed.

End Engine.

Lemma generate_warmups_sound_witness :
  exists r,
    @generate_warmups demo_runtime "gpt-4o-mini" "tennis" "shoulders" None
      = Ok r
    /\ Forall valid_warmup (r_warmups r).
Proof.
  eexists. split; [vm_compute; reflexivity|].
  apply (@generate_warmups_sound demo_runtime "gpt-4o-mini" "tennis"
           "shoulders" None).
  vm_compute. reflexivity.
Defined.

Lemma generate_warmups_no_moves_witness :
  exists r,
    @generate_warmups null_runtime "gpt-4o-mini" "tennis" "shoulders" None
      = Ok r
    /\ r_warmups r = []
    /\ r_error r = Some "Could not parse the model output."
    /\ r_raw r = "null".
Proof.
  destruct (@generate_warmups_no_moves null_runtime "gpt-4o-mini" "tennis"
              "shoulders" None (Some " null ") JNull)
    as (r & Hr & Hw & _ & He & Hraw).
  - reflexivity.
  - vm_compute. discriminate.
  - reflexivity.
  - exact I.
  - exists r. repeat split; assumption.
Defined.

Lemma duration_seconds_hides_duration_witness :
  @warmup_step demo_runtime [] (JDict null_duration) = [].
Proof.
  apply (@duration_seconds_hides_duration demo_runtime null_duration JNull).
  - reflexivity.
  - intros z Hz. discriminate Hz.
Defined.

End EngineExtra.

(** ** Further properties of levels and of the completion endpoints *)

Module XpExtra.
Import PyStr AIEngine Main Spec Examples LevelFacts LedgerFacts BonusFacts.

Local Open Scope Z_scope.

(** On the exact range the formula is the integer one. *)
Lemma calculate_level_in_range (xp : Z) :
  xp <= 50 * 2 ^ 46 -> calculate_level xp = Ok (exact_level xp).
Proof.
  intros Hle.
  destruct (Z_le_gt_dec xp 0) as [Hnp|Hpos].
  - rewrite calculate_level_nonpos by assumption.
    unfold exact_level.
    replace (xp <=? 0) with true by (symmetry; apply Z.leb_le; lia).
    reflexivity.
  - assert (Hpos' : 0 < xp) by lia.
    destruct (Z.eq_dec xp (50 * 2 ^ 46)) as [->|Hne].
    + vm_compute. reflexivity.
    + rewrite exact_level_pos by assumption.
      destruct (exact_level_band xp Hpos') as (Hn & Hlo & Hhi).
      apply calculate_level_band; try assumption.
      set (n := Z.sqrt (xp / 50)) in *.
      assert (Hlt : n ^ 2 < (2 ^ 23) ^ 2).
      { change ((2 ^ 23) ^ 2) with (2 ^ 46). lia. }
      apply Z.pow_lt_mono_l_iff in Hlt; lia.
Qed.

Lemma exact_level_nonneg (xp : Z) : 0 <= exact_level xp.
Proof. unfold exact_level. destruct (xp <=? 0); lia. Qed.

(** X1: Up to [50 * 2^46] XP the level never decreases with the XP, and it
    is never negative. *)
Theorem calculate_level_monotone (a b : Z) :
  a <= b -> b <= 50 * 2 ^ 46 ->
  exists la lb,
    calculate_level a = Ok la /\ calculate_level b = Ok lb
    /\ 0 <= la <= lb.
Proof.
  intros Hab Hb. exists (exact_level a), (exact_level b).
  split; [apply calculate_level_in_range; lia|].
  split; [apply calculate_level_in_range; lia|].
  split; [apply exact_level_nonneg | now apply exact_level_monotone].
Qed.

Lemma calculate_level_monotone_witness :
  exists la lb,
    calculate_level 1249 = Ok la /\ calculate_level 1250 = Ok lb
    /\ 0 <= la <= lb.
Proof. apply calculate_level_monotone; lia. Defined.

Lemma xp_sum_magnitude (rows : list completed_exercise) (u : Z)
    (mt : movement_type) :
  Z.abs (xp_sum rows u mt) <= xp_magnitude rows u mt.
Proof.
  unfold xp_sum, xp_magnitude. induction (xp_values rows u mt); simpl; lia.
Qed.

(** The row of a request that moves [(u, mt)] counts with its XP. *)
Lemma xp_sum_moves (u x : Z) (mt : movement_type) (r : request) :
  action_of r = Some (Move u mt x) -> xp_sum (rows_of r) u mt = x.
Proof.
  intros Ha. unfold xp_sum, xp_values, rows_of, row_of. rewrite Ha. simpl.
  unfold row_matches. cbn [ce_user_id ce_movement_type].
  rewrite Z.eqb_refl, String.eqb_refl. simpl. lia.
Qed.

(** X3: A regular move completion that earns no negative XP never lowers
    a cached level, of any user and movement type whose cache was
    right, as long as the XP of that user and type stays on the exact
    range. *)
Theorem completion_keeps_level (s : db) (r : request) (u l : Z)
    (mt : movement_type) :
  stored_level s u mt = Some l -> cache_right s u mt ->
  regular r ->
  (forall u' mt' xp, action_of r = Some (Move u' mt' xp) -> 0 <= xp) ->
  xp_magnitude (completed_exercises s ++ rows_of r) u mt <= 50 * 2 ^ 46 ->
  exists res s' l',
    handle r s = Some (res, s')
    /\ stored_level s' u mt = Some l' /\ l <= l'.
Proof.
  intros Hl (xp0 & l0 & Hsum0 & Hl0 & Hst) Hreg Hpos Hmag.
  assert (l0 = l) by congruence. subst l0.
  apply sum_xp_earned_value in Hsum0. subst xp0.
  assert (Hs : is_Some (users s !! u)).
  { unfold stored_level in Hl. destruct (users s !! u); [eauto|discriminate]. }
  destruct (handle_effect r s Hreg)
    as (res & s' & Hh & Hled & _ & _ & _ & Hoth & Hsame).
  exists res, s'.
  destruct (moves_dec u mt r) as [Hmv|Hnot].
  - exists (exact_level (xp_sum (completed_exercises s ++ rows_of r) u mt)).
    split; [exact Hh|].
    pose proof (xp_sum_magnitude (completed_exercises s ++ rows_of r) u mt)
      as Hb.
    split.
    + apply (Hsame u mt
               (xp_sum (completed_exercises s ++ rows_of r) u mt) _ Hmv);
        [|apply calculate_level_in_range; lia|exact Hs].
      rewrite Hled. apply sum_xp_earned_fits.
      unfold max_int64. lia.
    + destruct Hmv as [x Hx]. pose proof (Hpos _ _ _ Hx) as Hx0.
      rewrite xp_sum_app, (xp_sum_moves u x mt r Hx) in Hb |- *.
      rewrite calculate_level_in_range in Hl0 by lia.
      injection Hl0 as <-. apply exact_level_monotone. lia.
  - exists l. split; [exact Hh|]. rewrite (Hoth u mt Hnot).
    split; [exact Hl | lia].
Qed.

Lemma completion_keeps_level_witness :
  exists res s' l',
    handle (completion 1 Mobility 150) one_user_db = Some (res, s')
    /\ stored_level s' 1 Mobility = Some l' /\ 0 <= l'.
Proof.
  apply (completion_keeps_level one_user_db (completion 1 Mobility 150)
           1 0 Mobility).
  - reflexivity.
  - exists 0, 0. repeat split; reflexivity.
  - eexists. reflexivity.
  - intros u' mt' xp [= _ _ <-]. lia.
  - vm_compute. discriminate.
Defined.

(** *** What the endpoints leave alone *)

Lemma column_setter_total (field : string)
    (set : Z -> user_row -> user_row) (v : Z) (row : user_row) :
  column_setter field = Some set -> total_xp (set v row) = total_xp row.
Proof.
  unfold column_setter.
  repeat match goal with
         | |- context [String.eqb field ?k] => destruct (String.eqb field k)
         end; intros [= <-]; reflexivity.
Qed.

Lemma update_movement_level_shape (u : Z) (m x : json) (s s' : db)
    (res : result unit) :
  update_movement_level u m x s = Some (res, s') ->
  completed_exercises s' = completed_exercises s
  /\ routines s' = routines s
  /\ forall u0, u0 <> u -> users s' !! u0 = users s !! u0.
Proof.
  unfold update_movement_level.
  destruct (sql_bind _ _) as [[text|e]|]; [| |discriminate].
  - destruct (bind _ _) as [l|e].
    + destruct text as [t|].
      * destruct (column_setter _) as [set|]; [|discriminate].
        intros [= <- <-]. cbn [users completed_exercises routines].
        repeat split. intros u0 Hne. now rewrite lookup_alter_ne.
      * intros [= <- <-]. repeat split.
    + intros [= <- <-]. repeat split.
  - intros [= <- <-]. repeat split.
Qed.

Lemma add_total_xp_shape (u : Z) (x : json) (s s' : db)
    (res : result unit) :
  add_total_xp u x s = Some (res, s') ->
  completed_exercises s' = completed_exercises s
  /\ routines s' = routines s
  /\ forall u0, u0 <> u -> users s' !! u0 = users s !! u0.
Proof.
  unfold add_total_xp.
  destruct (sql_bind _ _) as [[amount|e]|]; [| |discriminate].
  - intros [= <- <-]. cbn [users completed_exercises routines].
    repeat split. intros u0 Hne. now rewrite lookup_alter_ne.
  - intros [= <- <-]. repeat split.
Qed.

Lemma save_completed_exercise_shape (u : Z) (rid name m x : json)
    (s s' : db) (res : result unit) :
  save_completed_exercise u rid name m x s = Some (res, s') ->
  users s' = users s /\ routines s' = routines s
  /\ forall u0, u0 <> u ->
       ledger_of (completed_exercises s') u0
       = ledger_of (completed_exercises s) u0.
Proof.
  unfold save_completed_exercise.
  destruct (bind_param (JInt u)) as [[p0|e]|]; cbn [sql_bind];
    [| intros [= <- <-]; repeat split | discriminate].
  destruct (bind_param rid) as [[p1|e]|]; cbn [sql_bind];
    [| intros [= <- <-]; repeat split | discriminate].
  destruct (bind_param name) as [[p2|e]|]; cbn [sql_bind];
    [| intros [= <- <-]; repeat split | discriminate].
  destruct (bind_param m) as [[p3|e]|]; cbn [sql_bind];
    [| intros [= <- <-]; repeat split | discriminate].
  destruct (bind_param x) as [[p4|e]|]; cbn [sql_bind];
    [| intros [= <- <-]; repeat split | discriminate].
  destruct (as_text p3) as [[text|e]|]; cbn [sql_bind];
    [| intros [= <- <-]; repeat split | discriminate].
  destruct (as_integer p4) as [[xp|e]|]; cbn [sql_bind];
    [| intros [= <- <-]; repeat split | discriminate].
  intros [= <- <-]. cbn [users completed_exercises routines].
  repeat split. intros u0 Hne. unfold ledger_of.
  rewrite List.filter_app. simpl.
  destruct (Z.eqb_spec u u0); [congruence|]. apply app_nil_r.
Qed.

(** What a request of another user, or of nobody, leaves alone. *)
Lemma handle_frame (r : request) (s s' : db) (res : result response)
    (u : Z) :
  handle r s = Some (res, s') ->
  routines s' = routines s
  /\ (session_of r <> Some u ->
      users s' !! u = users s !! u
      /\ ledger_of (completed_exercises s') u
         = ledger_of (completed_exercises s) u)
  /\ (session_of r = None -> s' = s).
Proof.
  destruct r as [[u'|] data | [u'|] data]; cbn [handle session_of].
  - unfold complete_exercise.
    destruct data as [| | | | | |d];
      try (intros [= <- <-]; repeat split; discriminate).
    cbn zeta. unfold op_bind at 1.
    destruct (save_completed_exercise _ _ _ _ _ s) as [[[[]|e] s1]|] eqn:E1;
      [| |discriminate].
    2:{ intros [= <- <-].
        destruct (save_completed_exercise_shape _ _ _ _ _ _ _ _ E1)
          as (Hu & Hr & Hl).
        split; [exact Hr|]. split; [|discriminate].
        intros Hne. rewrite Hu. split; [reflexivity|].
        apply Hl. congruence. }
    destruct (save_completed_exercise_shape _ _ _ _ _ _ _ _ E1)
      as (Hu1 & Hr1 & Hl1).
    unfold op_bind at 1. unfold add_xp, op_bind at 1.
    destruct (add_total_xp u' _ s1) as [[[[]|e] s2]|] eqn:E2;
      [| |discriminate].
    2:{ intros [= <- <-].
        destruct (add_total_xp_shape _ _ _ _ _ E2) as (Hl2 & Hr2 & Hu2).
        split; [congruence|]. split; [|discriminate].
        intros Hne. assert (u <> u') by congruence.
        rewrite Hu2, Hu1, Hl2 by assumption. split; [reflexivity|].
        now apply Hl1. }
    destruct (add_total_xp_shape _ _ _ _ _ E2) as (Hl2 & Hr2 & Hu2).
    destruct (update_movement_level u' _ _ s2) as [[r3 s3]|] eqn:E3;
      [|discriminate].
    destruct (update_movement_level_shape _ _ _ _ _ _ E3)
      as (Hl3 & Hr3 & Hu3).
    intros Hres.
    assert (s' = s3) by (destruct r3 as [[]|e]; now injection Hres as _ <-).
    subst s'. split; [congruence|]. split; [|discriminate].
    intros Hne. assert (u <> u') by congruence.
    rewrite Hu3, Hu2, Hu1, Hl3, Hl2 by assumption. split; [reflexivity|].
    now apply Hl1.
  - intros [= <- <-]. repeat split; reflexivity.
  - unfold complete_routine.
    destruct data as [| | | | | |d];
      try (intros [= <- <-]; repeat split; discriminate).
    cbn zeta. unfold op_bind.
    destruct (add_total_xp u' _ s) as [[r2 s2]|] eqn:E2; [|discriminate].
    destruct (add_total_xp_shape _ _ _ _ _ E2) as (Hl2 & Hr2 & Hu2).
    intros Hres.
    assert (s' = s2) by (destruct r2 as [[]|e]; now injection Hres as _ <-).
    subst s'. split; [exact Hr2|]. split; [|discriminate].
    intros Hne. assert (u <> u') by congruence.
    rewrite Hu2, Hl2 by assumption. split; reflexivity.
  - intros [= <- <-]. repeat split; reflexivity.
Qed.

(** X4: Requests without a session are always answered and change
    nothing.  Whenever a sequence of requests is served, the routines
    are as before, and if none of the requests is made by user [u], the
    row and the ledger rows of [u] are as before. *)
Theorem serve_frame (rs : list request) (s : db) (u : Z) :
  (Forall (fun r => session_of r = None) rs -> serve rs s = Some s)
  /\ forall s',
       serve rs s = Some s' ->
       routines s' = routines s
       /\ (Forall (fun r => session_of r <> Some u) rs ->
           users s' !! u = users s !! u
           /\ ledger_of (completed_exercises s') u
              = ledger_of (completed_exercises s) u).
Proof.
  revert s. induction rs as [|r rs IH]; intros s.
  - split; [reflexivity|]. intros s' [= <-]. repeat split; reflexivity.
  - rewrite serve_cons. split.
    + intros Hall. inversion Hall as [|? ? Hx Hrest]; subst.
      destruct r as [se data|se data]; simpl in Hx; subst se;
        cbn [handle complete_exercise complete_routine op_ret];
        now apply IH.
    + intros s' Hs.
      destruct (handle r s) as [[res s1]|] eqn:Eh; [|discriminate].
      destruct (handle_frame r s s1 res u Eh) as (Hr1 & Hu1 & _).
      destruct (IH s1) as [_ IH1]. destruct (IH1 s' Hs) as [Hr Hu].
      split; [congruence|].
      intros Hall. inversion Hall as [|? ? Hx Hrest]; subst.
      destruct (Hu Hrest) as [Ha Hb]. destruct (Hu1 Hx) as [Ha1 Hb1].
      split; congruence.
Qed.

Lemma serve_frame_witness :
  exists s',
    serve [CompleteRoutine (Some 2) (JDict []);
           CompleteExercise None JNull] one_user_db = Some s'
    /\ users s' !! 1 = Some fresh_user.
Proof.
  assert (E : serve [CompleteRoutine (Some 2) (JDict []);
                     CompleteExercise None JNull] one_user_db
              = Some one_user_db) by (vm_compute; reflexivity).
  exists one_user_db. split; [exact E|].
  destruct (serve_frame [CompleteRoutine (Some 2) (JDict []);
                         CompleteExercise None JNull] one_user_db 1)
    as [_ H].
  destruct (H one_user_db E) as [_ Hu].
  destruct Hu as [Hu _].
  - repeat constructor; discriminate.
  - exact Hu.
Defined.

(** The loop of [get_user_stats] when every sum and level returns. *)
Lemma stats_loop_ok (rows : list completed_exercise) (u : Z)
    (xp level : movement_type -> Z) (mts : list movement_type)
    (mx lv : list (string * Z)) :
  (forall mt,
     sum_xp_earned rows u (Some (movement_type_name mt)) = Ok (xp mt)
     /\ calculate_level (xp mt) = Ok (level mt)) ->
  stats_loop rows u mts mx lv
  = Ok ((mx ++ map (fun mt => (lower (movement_type_name mt), xp mt))
                 mts)%list,
        (lv ++ map (fun mt => (lower (movement_type_name mt), level mt))
                 mts)%list).
Proof.
  intros Hall. revert mx lv.
  induction mts as [|mt mts IH]; intros mx lv; cbn [stats_loop map].
  - now rewrite !app_nil_r.
  - destruct (Hall mt) as [-> Hl]. cbn [bind]. rewrite Hl. cbn [bind].
    rewrite IH, <- !app_assoc. reflexivity.
Qed.

(** X5: [get_user_stats], for a user id within 64 bits and when the query
    of every movement type returns a sum on the exact range: for a user
    without a row it raises [TypeError]; otherwise it returns the
    stored total ([0] for NULL), the number of the user's ledger rows
    and, for each movement type,
    the XP sum the query returned and its exact level, whatever the
    cached levels are. *)
Theorem get_user_stats_returns (s : db) (u : Z) (xp : movement_type -> Z) :
  in_int64 u = true ->
  (forall mt,
     sum_xp_earned (completed_exercises s) u (Some (movement_type_name mt))
     = Ok (xp mt)
     /\ xp mt <= 50 * 2 ^ 46) ->
  match users s !! u with
  | None => get_user_stats u s = Raise TypeError
  | Some row =>
      exists st,
        get_user_stats u s = Ok st
        /\ st_total_xp st = match total_xp row with
                            | TNull => TInt 0
                            | t => t
                            end
        /\ st_total_exercises st
           = Z.of_nat (length (ledger_of (completed_exercises s) u))
        /\ forall mt,
             dict_get (st_movement_xp st) (lower (movement_type_name mt))
             = Some (xp mt)
             /\ dict_get (st_levels st) (lower (movement_type_name mt))
                = Some (exact_level (xp mt))
  end.
Proof.
  intros Hu Hsum.
  assert (Hloop := stats_loop_ok (completed_exercises s) u xp
                     (fun mt => exact_level (xp mt))
                     movement_types [] []
                     (fun mt => conj (proj1 (Hsum mt))
                                  (calculate_level_in_range _
                                     (proj2 (Hsum mt))))).
  unfold get_user_stats. rewrite Hu, Hloop. cbn [negb bind].
  destruct (users s !! u) as [row|]; [|reflexivity].
  eexists. split; [reflexivity|]. cbn [st_total_xp st_total_exercises
                                        st_movement_xp st_levels fst snd].
  split; [reflexivity|]. split; [reflexivity|].
  intros mt. destruct mt; split; reflexivity.
Qed.

Lemma get_user_stats_returns_witness :
  exists st,
    get_user_stats 1 stale_db = Ok st
    /\ st_total_xp st = TInt 0
    /\ dict_get (st_movement_xp st) "mobility" = Some 210
    /\ dict_get (st_levels st) "mobility" = Some 2.
Proof.
  pose proof (get_user_stats_returns stale_db 1
                (fun mt => match mt with Mobility => 210 | _ => 0 end)) as H.
  assert (Hsum : forall mt,
            sum_xp_earned (completed_exercises stale_db) 1
              (Some (movement_type_name mt))
            = Ok (match mt with Mobility => 210 | _ => 0 end)
            /\ match mt with Mobility => 210 | _ => 0 end <= 50 * 2 ^ 46).
  { intros []; split; vm_compute; try reflexivity; discriminate. }
  specialize (H eq_refl Hsum).
  change (users stale_db !! 1) with (Some fresh_user) in H.
  destruct H as (st & Hst & Ht & _ & Hl).
  exists st. split; [exact Hst|]. split; [exact Ht|].
  destruct (Hl Mobility) as [Hx Hm]. split; [exact Hx | exact Hm].
Defined.

(** A ledger whose rows sum to [0] for a movement type, while the
    running sum leaves 64 bits on the way: the query raises, and so does
    [get_user_stats]. *)
Example get_user_stats_overflow :
  let row x := {| ce_user_id := 1; ce_movement_type := Some "Mobility";
                  ce_xp_earned := Some x |} in
  let s := append_all [row (2 ^ 62); row (2 ^ 62); row (- 2 ^ 63)]
             one_user_db in
  xp_sum (completed_exercises s) 1 Mobility = 0
  /\ get_user_stats 1 s = Raise OperationalError.
Proof. vm_compute. split; reflexivity. Qed.

(** X2: On the exact range, the XP of a level [L] lies between the two
    thresholds of [xp_for_next_level]: at or above the one that leads
    to [L], below the one that leads to [L + 1]. *)
Theorem level_between_thresholds (xp L : Z) :
  0 < xp -> xp <= 50 * 2 ^ 46 -> calculate_level xp = Ok L ->
  xp_for_next_level (L - 1) <= xp < xp_for_next_level L.
Proof.
  intros Hpos Hle Hl.
  rewrite calculate_level_in_range in Hl by exact Hle.
  injection Hl as <-. rewrite exact_level_pos by exact Hpos.
  destruct (exact_level_band xp Hpos) as (Hn & Hlo & Hhi).
  unfold xp_for_next_level.
  replace (Z.sqrt (xp / 50) - 1 + 1) with (Z.sqrt (xp / 50)) by lia. lia.
Qed.

Lemma level_between_thresholds_witness :
  xp_for_next_level (2 - 1) <= 210 < xp_for_next_level 2.
Proof.
  apply level_between_thresholds; [lia | lia | vm_compute; reflexivity].
Defined.

End XpExtra.

(** ** Properties of the pages *)

Module PagesExtra.
Import PyStr AIEngine Main Pages Spec PyStrFacts EngineFacts ClassifierExtra
  EngineExtra Examples.

Local Open Scope string_scope.

Lemma save_routine_lookup (user_id : Z) (rd : routine) (s : db) :
  let id := (Z.of_nat (length (routines s)) + 1)%Z in
  fst (save_routine user_id rd s) = Ok id
  /\ routine_by_id (snd (save_routine user_id rd s)) id
     = Some {| rt_user_id := user_id; rt_routine_json := rd;
               rt_sport_category := stored_category rd |}
  /\ forall id', (id' < id)%Z ->
       routine_by_id (snd (save_routine user_id rd s)) id'
       = routine_by_id s id'.
Proof.
  intros id. split; [reflexivity|]. unfold routine_by_id, id. simpl. split.
  - replace (Z.of_nat (length (routines s)) + 1 <=? 0)%Z with false
      by (symmetry; apply Z.leb_gt; lia).
    replace (Z.to_nat (Z.of_nat (length (routines s)) + 1 - 1))
      with (length (routines s) + 0)%nat by lia.
    now rewrite nth_error_app2, Nat.add_comm, Nat.add_sub by lia.
  - intros id' Hlt. destruct (Z.leb_spec id' 0); [reflexivity|].
    apply nth_error_app1. lia.
Qed.

(** X21: The id [save_routine] returns opens the saved routine for its
    owner, in both routine pages, and for nobody else; the routines
    saved before keep their ids. *)
Theorem save_then_view (user_id : Z) (rd : routine) (s : db) :
  exists id,
    fst (save_routine user_id rd s) = Ok id
    /\ view_routine (Some user_id) id (snd (save_routine user_id rd s))
       = ResultsPage rd (Some id)
    /\ interactive_routine (Some user_id) id
         (snd (save_routine user_id rd s))
       = InteractivePage id (r_exercise rd) (r_muscle_groups rd)
           (r_warmups rd) (r_safety rd)
    /\ (forall other, other <> user_id ->
          view_routine (Some other) id (snd (save_routine user_id rd s))
          = RedirectProfile
          /\ interactive_routine (Some other) id
               (snd (save_routine user_id rd s)) = RedirectProfile)
    /\ (forall session id', (id' < id)%Z ->
          view_routine session id' (snd (save_routine user_id rd s))
          = view_routine session id' s).
Proof.
  destruct (save_routine_lookup user_id rd s) as (Hid & Hnew & Hold).
  exists (Z.of_nat (length (routines s)) + 1)%Z.
  split; [exact Hid|].
  unfold view_routine, interactive_routine.
  split; [rewrite Hnew; cbn [rt_user_id rt_routine_json];
          now rewrite Z.eqb_refl|].
  split; [rewrite Hnew; cbn [rt_user_id rt_routine_json];
          now rewrite Z.eqb_refl|].
  split.
  - intros other Hne. rewrite Hnew. cbn [rt_user_id].
    replace (user_id =? other)%Z with false
      by (symmetry; apply Z.eqb_neq; congruence).
    split; reflexivity.
  - intros session id' Hlt. now rewrite (Hold id' Hlt).
Qed.

(** X22: A routine page shows a routine only to the logged-in user who owns
    it: whenever [view_routine] or [interactive_routine] renders, the
    session holds the user id of the row with the requested id. *)
Theorem routine_pages_owner (session : option Z) (routine_id : Z) (s : db) :
  (forall rd rid,
     view_routine session routine_id s = ResultsPage rd rid ->
     exists row,
       routine_by_id s routine_id = Some row
       /\ session = Some (rt_user_id row) /\ rd = rt_routine_json row)
  /\ (forall rid exercise muscle_groups warmups safety,
        interactive_routine session routine_id s
        = InteractivePage rid exercise muscle_groups warmups safety ->
        exists row,
          routine_by_id s routine_id = Some row
          /\ session = Some (rt_user_id row)
          /\ warmups = r_warmups (rt_routine_json row)).
Proof.
  unfold view_routine, interactive_routine.
  destruct session as [u|]; [|split; intros; discriminate].
  destruct (routine_by_id s routine_id) as [row|];
    [|split; intros; discriminate].
  destruct (Z.eqb_spec (rt_user_id row) u) as [Heq|Hne]; simpl;
    [|split; intros; discriminate].
  split.
  - intros rd rid [= <- <-]. exists row. now rewrite Heq.
  - intros rid e m w sf [= <- <- <- <- <-]. exists row. now rewrite Heq.
Qed.

Lemma routine_pages_owner_witness :
  exists row,
    routine_by_id (snd (save_routine 1 run_5k empty_db)) 1 = Some row
    /\ rt_user_id row = 1%Z.
Proof.
  destruct (routine_pages_owner (Some 1%Z) 1
              (snd (save_routine 1 run_5k empty_db))) as [Hv _].
  destruct (Hv run_5k (Some 1%Z) eq_refl) as (row & Hrow & Hse & _).
  exists row. split; [exact Hrow|]. congruence.
Defined.

Lemma form_text_blank (field : option string) :
  blank_form_field field -> form_text field = "".
Proof.
  destruct field as [text|]; simpl; [|reflexivity]. intros Hb.
  unfold form_text. destruct (truthy text); [|reflexivity].
  unfold strip. now rewrite lstrip_all_space.
Qed.

Section Home.
Context `{PyRuntime}.

(** X18: [home] without a session redirects to the login page; with a
    session, a form whose exercise or muscle groups are absent or made of
    whitespace only is answered with the index page and its error
    message.  Neither case changes the database, and neither answer
    depends on the engine. *)
Theorem home_blank_form (model : string) (session : option Z)
    (method : http_method) (form_exercise form_muscle_groups : option string)
    (user : option user_data) (s : db) :
  (session = None ->
   home model session method form_exercise form_muscle_groups user s
   = (Ok RedirectLogin, s))
  /\ (session <> None ->
      blank_form_field form_exercise \/ blank_form_field form_muscle_groups ->
      home model session POST form_exercise form_muscle_groups user s
      = (Ok (IndexPage
               (Some "Please enter both the exercise name and target muscle groups.")
               (form_text form_exercise) (form_text form_muscle_groups)), s)).
Proof.
  split; [intros ->; reflexivity|].
  intros Hs Hblank. destruct session as [u|]; [|congruence].
  unfold home.
  destruct Hblank as [Hb|Hb]; rewrite (form_text_blank _ Hb); cbn [truthy negb orb].
  - reflexivity.
  - now rewrite orb_true_r.
Qed.

Lemma generate_warmups_shape (model exercise muscle_groups : string)
    (ud : option user_data) (r : routine) :
  generate_warmups model exercise muscle_groups ud = Ok r ->
  (r_warmups r = [] /\ exists msg, r_error r = Some msg /\ msg <> "")
  \/ (r_warmups r <> [] /\ r_error r = None).
Proof.
  unfold generate_warmups.
  destruct (responses_create _ _ _) as [out|e]; cbn [bind]; [|discriminate].
  destruct (_safe_json_load _) as [obj pe].
  destruct (extract obj) as [ws safety].
  destruct ws as [|w ws]; intros [= <-]; simpl.
  - left. split; [reflexivity|]. eexists. split; [reflexivity|].
    now apply or_text_truthy.
  - right. split; [discriminate | reflexivity].
Qed.

(** X19: [home] on a filled form: an exception of the engine passes through
    and nothing is stored; a routine without warmups is shown with its
    error and nothing is stored; a routine with warmups is stored by
    [save_routine] and the answer redirects to its interactive page. *)
Theorem home_saves_routine (model : string) (user_id : Z)
    (form_exercise form_muscle_groups : option string)
    (user : option user_data) (s : db) :
  form_text form_exercise <> "" -> form_text form_muscle_groups <> "" ->
  match generate_warmups model (form_text form_exercise)
          (form_text form_muscle_groups) (Some (profile_of user)) with
  | Raise e =>
      home model (Some user_id) POST form_exercise form_muscle_groups user s
      = (Raise e, s)
  | Ok r =>
      match r_warmups r with
      | [] =>
          home model (Some user_id) POST form_exercise form_muscle_groups
            user s
          = (Ok (ResultsPage r None), s)
      | _ =>
          home model (Some user_id) POST form_exercise form_muscle_groups
            user s
          = (Ok (RedirectInteractive
                   (Z.of_nat (length (routines s)) + 1)),
             snd (save_routine user_id r s))
      end
  end.
Proof.
  intros He Hm. unfold home.
  destruct (form_text form_exercise) as [|c1 e1]; [congruence|].
  destruct (form_text form_muscle_groups) as [|c2 m2]; [congruence|].
  cbn [truthy negb orb].
  destruct (generate_warmups _ _ _ _) as [r|e] eqn:Eg; [|reflexivity].
  destruct (generate_warmups_shape _ _ _ _ _ Eg)
    as [[Hw (msg & Hmsg & _)]|[Hw Herr]].
  - rewrite Hw. reflexivity.
  - rewrite Herr. destruct (r_warmups r) as [|w ws]; [congruence|].
    cbn [andb negb]. unfold save_routine. cbn [fst snd].
    replace (Z.of_nat (length (routines s)) + 1 =? 0)%Z with false
      by (symmetry; apply Z.eqb_neq; lia).
    reflexivity.
Qed.

(** X20: [home] stores only sound routines: if every stored routine has
    warmups, all well-formed, no error and a named category, the same
    holds after any request to [home]. *)
Theorem home_keeps_sound (model : string) (session : option Z)
    (method : http_method) (form_exercise form_muscle_groups : option string)
    (user : option user_data) (s : db) :
  Forall sound_row (routines s) ->
  Forall sound_row
    (routines (snd (home model session method form_exercise
                      form_muscle_groups user s))).
Proof.
  intros Hs. unfold home.
  destruct session as [u|]; [|exact Hs].
  destruct method; [exact Hs|].
  destruct (negb (truthy (form_text form_exercise))
            || negb (truthy (form_text form_muscle_groups))); [exact Hs|].
  destruct (generate_warmups _ _ _ _) as [r|e] eqn:Eg; [|exact Hs].
  pose proof (generate_warmups_all_valid _ _ _ _ _ Eg) as Hv.
  destruct (generate_warmups_shape _ _ _ _ _ Eg)
    as [[Hw (msg & Hmsg & _)]|[Hw Herr]].
  - rewrite Hw. exact Hs.
  - rewrite Herr. destruct (r_warmups r) as [|w ws] eqn:Ew; [congruence|].
    cbn [andb negb]. unfold save_routine. cbn [fst snd].
    replace (Z.of_nat (length (routines s)) + 1 =? 0)%Z with false
      by (symmetry; apply Z.eqb_neq; lia).
    cbn [snd routines]. apply Forall_app. split; [exact Hs|].
    constructor; [|constructor].
    unfold sound_row. cbn [rt_routine_json rt_sport_category].
    rewrite Ew. split; [discriminate|]. split; [exact Hv|].
    split; [exact Herr|].
    destruct (stored_category_named r) as [Ho He]. now split.
Qed.

End Home.

Lemma home_saves_routine_witness :
  @home demo_runtime "gpt-4o-mini" (Some 1%Z) POST (Some " Tennis ")
    (Some "shoulders") None one_user_db
  = (Ok (RedirectInteractive 1),
     snd (save_routine 1
            {| r_exercise := "Tennis"; r_sport_category := "Racket Sports";
               r_muscle_groups := "shoulders";
               r_warmups := [ {| w_name := "Arm circles"; w_duration := 30;
                                 w_notes := "";
                                 w_movement_type := "Mobility" |} ];
               r_safety := "Stop if it hurts.";
               r_raw := strip demo_output; r_error := None |}
            one_user_db)).
Proof.
  pose proof (@home_saves_routine demo_runtime "gpt-4o-mini" 1
                (Some " Tennis ") (Some "shoulders") None one_user_db) as H.
  assert (He : form_text (Some " Tennis ") <> "") by (vm_compute; discriminate).
  assert (Hm : form_text (Some "shoulders") <> "")
    by (vm_compute; discriminate).
  specialize (H He Hm). vm_compute in H. vm_compute. exact H.
Defined.

Lemma home_keeps_sound_witness :
  Forall sound_row
    (routines (snd (@home demo_runtime "gpt-4o-mini" (Some 1%Z) POST
                      (Some " Tennis ") (Some "shoulders") None
                      one_user_db)))
  /\ length (routines (snd (@home demo_runtime "gpt-4o-mini" (Some 1%Z) POST
                             (Some " Tennis ") (Some "shoulders") None
                             one_user_db))) = 1%nat.
Proof.
  split; [|vm_compute; reflexivity].
  apply (@home_keeps_sound demo_runtime). constructor.
Defined.

Lemma home_blank_form_witness :
  @home demo_runtime "gpt-4o-mini" (Some 1%Z) POST (Some "   ")
    (Some "shoulders") None one_user_db
  = (Ok (IndexPage
           (Some "Please enter both the exercise name and target muscle groups.")
           "" "shoulders"), one_user_db).
Proof.
  destruct (@home_blank_form demo_runtime "gpt-4o-mini" (Some 1%Z) POST
              (Some "   ") (Some "shoulders") None one_user_db) as [_ H].
  apply H; [discriminate | left; reflexivity].
Defined.

End PagesExtra.

(** ** The grouping of the profile page *)

Module ProfileExtra.
Import PyStr AIEngine Main Pages Spec PyStrFacts RoutineFacts ClassifierExtra
  Examples.

Local Open Scope string_scope.

Lemma append_to_keys (categories : list (string * list routine_row))
    (category : string) (row : routine_row) :
  NoDup (map fst categories) ->
  NoDup (map fst (append_to categories category row))
  /\ forall c, In c (map fst (append_to categories category row)) <->
               c = category \/ In c (map fst categories).
Proof.
  induction categories as [|[c0 l0] cats IH]; simpl; intros Hnd.
  - split; [repeat constructor; set_solver | intros c; intuition].
  - apply NoDup_cons in Hnd. destruct Hnd as [Hnot Hnd].
    destruct (IH Hnd) as [IH1 IH2].
    destruct (String.eqb_spec c0 category) as [->|Hne]; simpl.
    + split; [apply NoDup_cons; split; assumption | intros c; intuition].
    + split.
      * apply NoDup_cons. split; [|assumption].
        rewrite list_elem_of_In, IH2. rewrite list_elem_of_In in Hnot.
        intros [Heq|Hin]; congruence.
      * intros c. rewrite IH2. intuition.
Qed.

Lemma append_to_get (categories : list (string * list routine_row))
    (category : string) (row : routine_row) (c : string) :
  dict_get (append_to categories category row) c
  = if String.eqb category c
    then Some (match dict_get categories category with
               | Some l => l
               | None => []
               end ++ [row])%list
    else dict_get categories c.
Proof.
  induction categories as [|[c0 l0] cats IH]; simpl.
  - destruct (String.eqb category c); reflexivity.
  - destruct (String.eqb_spec c0 category) as [->|Hne]; simpl.
    + destruct (String.eqb_spec category c); reflexivity.
    + rewrite IH. destruct (String.eqb_spec category c) as [->|Hc].
      * destruct (String.eqb_spec c0 c); [congruence | reflexivity].
      * reflexivity.
Qed.

Lemma group_routines_get (rows : list routine_row)
    (categories : list (string * list routine_row)) (c : string) :
  dict_get (group_routines rows categories) c
  = match filed_under c rows with
    | [] => dict_get categories c
    | l => Some (match dict_get categories c with
                 | Some l0 => l0
                 | None => []
                 end ++ l)%list
    end.
Proof.
  revert categories. induction rows as [|row rows IH]; intros categories.
  - reflexivity.
  - cbn [group_routines]. rewrite IH, append_to_get. unfold filed_under.
    cbn [List.filter]. fold (filed_under c rows).
    destruct (String.eqb_spec (profile_category (rt_routine_json row)) c)
      as [->|Hne].
    + destruct (filed_under _ rows) as [|r0 l];
        [reflexivity | now rewrite <- app_assoc].
    + reflexivity.
Qed.

Lemma group_routines_keys (rows : list routine_row)
    (categories : list (string * list routine_row)) :
  NoDup (map fst categories) ->
  NoDup (map fst (group_routines rows categories))
  /\ forall c, In c (map fst (group_routines rows categories)) <->
               In c (map fst categories)
               \/ exists row, In row rows
                    /\ profile_category (rt_routine_json row) = c.
Proof.
  revert categories. induction rows as [|row rows IH]; intros categories Hnd.
  - split; [exact Hnd|]. intros c. simpl. split; [tauto|].
    intros [H|(row & [] & _)]. exact H.
  - cbn [group_routines].
    destruct (append_to_keys categories
                (profile_category (rt_routine_json row)) row Hnd)
      as [Hnd' Hk].
    destruct (IH _ Hnd') as [IH1 IH2]. split; [exact IH1|].
    intros c. rewrite IH2, Hk. split.
    + intros [[->|Hin]|(r & Hr & Hc)].
      * right. exists row. split; [now left | reflexivity].
      * now left.
      * right. exists r. split; [now right | exact Hc].
    + intros [Hin|(r & [<-|Hr] & Hc)].
      * left. now right.
      * left. left. now symmetry.
      * right. now exists r.
Qed.

Lemma profile_category_named (rd : routine) :
  profile_category rd <> "Other" /\ profile_category rd <> "".
Proof. unfold profile_category. apply named_or_default. Qed.

(** X11: The grouping of [profile]: the keys of [categories] are distinct,
    none is empty or ["Other"], every group is non-empty, and the group
    of a category holds exactly the routines filed under it, in the
    order of the rows; so every routine is in one group and one only. *)
Theorem profile_groups (rows : list routine_row) :
  NoDup (map fst (group_routines rows []))
  /\ (forall c,
        dict_get (group_routines rows []) c
        = match filed_under c rows with
          | [] => None
          | l => Some l
          end)
  /\ (forall c, In c (map fst (group_routines rows [])) ->
        c <> "" /\ c <> "Other" /\ filed_under c rows <> []).
Proof.
  destruct (group_routines_keys rows []) as [Hnd Hk]; [constructor|].
  split; [exact Hnd|]. split.
  - intros c. rewrite group_routines_get. simpl.
    now destruct (filed_under c rows).
  - intros c Hin. apply Hk in Hin. destruct Hin as [[]|(row & Hrow & <-)].
    destruct (profile_category_named (rt_routine_json row)) as [Ho He].
    split; [exact He|]. split; [exact Ho|].
    intros Hnil.
    assert (Hf : In row (filed_under
                           (profile_category (rt_routine_json row)) rows)).
    { unfold filed_under. apply filter_In. split; [exact Hrow|].
      apply String.eqb_refl. }
    rewrite Hnil in Hf. exact Hf.
Qed.

Lemma keyword_loop_cases (items : list (string * list string))
    (name sc : string) :
  ((forall c k, In (c, k) items -> any_keyword k name = false)
   /\ keyword_loop items name sc = sc)
  \/ (exists c k, In (c, k) items /\ any_keyword k name = true
                  /\ keyword_loop items name sc = c).
Proof.
  induction items as [|[c k] items IH]; simpl.
  - left. split; [intros c k []|reflexivity].
  - destruct (any_keyword k name) eqn:E.
    + right. exists c, k. split; [now left|]. split; [exact E | reflexivity].
    + destruct IH as [[Hall Heq]|(c' & k' & Hin & Hk & Heq)].
      * left. split; [|exact Heq].
        intros c' k' [[= <- <-]|Hin]; [exact E | now apply (Hall c' k')].
      * right. exists c', k'. split; [now right|]. split; assumption.
Qed.

Lemma table_not_general (c : string) (k : list string) :
  In (c, k) category_keywords -> c <> "General Fitness".
Proof.
  assert (H : List.Forall (fun e => fst e <> "General Fitness")
                category_keywords).
  { unfold category_keywords. repeat (constructor; [discriminate|]).
    constructor. }
  intros Hin. exact (proj1 (List.Forall_forall _ _) H (c, k) Hin).
Qed.

(** X12: The profile page files a routine by the classifier's category, not
    by the stored one: when the classifier answered ["Other"] (or
    nothing) and [save_routine] inferred a sport from a keyword, the
    stored category is that sport while the page files the routine under
    ["General Fitness"]; in every other case the two agree. *)
Theorem profile_ignores_inferred (rd : routine) :
  let sc := r_sport_category rd in
  let hit := exists c k, In (c, k) category_keywords
                         /\ keyword_hit k (lower (r_exercise rd)) in
  ((sc = "Other" \/ sc = "") -> hit ->
     profile_category rd = "General Fitness"
     /\ stored_category rd <> "General Fitness"
     /\ In (stored_category rd) (map fst category_keywords))
  /\ (~ ((sc = "Other" \/ sc = "") /\ hit) ->
      profile_category rd = stored_category rd).
Proof.
  intros sc hit.
  assert (Hpc : (sc = "Other" \/ sc = "") ->
                profile_category rd = "General Fitness").
  { unfold profile_category. fold sc. intros [->| ->]; reflexivity. }
  destruct (keyword_loop_cases category_keywords (lower (r_exercise rd)) sc)
    as [[Hall Heq]|(c & k & Hin & Hk & Heq)].
  - (* no keyword occurs *)
    split.
    + intros _ (c & k & Hin & Hhit). apply any_keyword_spec in Hhit.
      rewrite (Hall c k Hin) in Hhit. discriminate.
    + intros _. unfold stored_category, profile_category. fold sc.
      rewrite Heq.
      destruct sc as [|a sc']; [reflexivity|]. cbn [truthy negb orb].
      destruct (String.eqb (String a sc') "Other"); reflexivity.
  - (* the first entry with a keyword is [c] *)
    assert (Hst : (sc = "Other" \/ sc = "") -> stored_category rd = c).
    { intros Hfb. apply fallback_test in Hfb.
      unfold stored_category. fold sc. rewrite Hfb, Heq.
      now rewrite (category_keywords_specific c k Hin). }
    split.
    + intros Hfb _. rewrite (Hst Hfb). split; [now apply Hpc|].
      split; [exact (table_not_general c k Hin)|].
      apply in_map_iff. exists (c, k). split; [reflexivity | exact Hin].
    + intros Hno.
      assert (Hnf : ~ (sc = "Other" \/ sc = "")).
      { intros Hfb. apply Hno. split; [exact Hfb|].
        exists c, k. split; [exact Hin | now apply any_keyword_spec]. }
      unfold stored_category, profile_category. fold sc.
      destruct sc as [|a sc']; [tauto|]. cbn [truthy negb orb].
      rewrite orb_false_r.
      destruct (String.eqb_spec (String a sc') "Other"); [tauto | reflexivity].
Qed.

(** The example routine: stored as ["Running"], filed under
    ["General Fitness"]. *)
Lemma profile_ignores_inferred_witness :
  profile_category run_5k = "General Fitness"
  /\ stored_category run_5k <> "General Fitness".
Proof.
  destruct (profile_ignores_inferred run_5k) as [H _].
  destruct H as (Hp & Hs & _).
  - now left.
  - exists "Running",
      ["running"; "run"; "sprint"; "jog"; "marathon"; "5k"; "10k"].
    split; [now left|]. exists "run". split; [simpl; tauto|].
    apply contains_spec. reflexivity.
  - split; assumption.
Defined.

End ProfileExtra.

(** ** The migration script *)

Module DbinitExtra.
Import PyStr AIEngine Main Dbinit Spec LevelFacts LedgerFacts Examples.

Local Open Scope Z_scope.

(** The cache is right when it holds the recomputed level. *)
Lemma cache_right_recomputed (s : db) (u l : Z) (mt : movement_type) :
  recomputed_level (completed_exercises s) u mt = Ok l ->
  stored_level s u mt = Some l ->
  cache_right s u mt.
Proof.
  unfold recomputed_level, cache_right. intros Hr Hst.
  destruct (sum_xp_earned _ u _) as [xp|]; cbn [bind] in Hr; [|discriminate].
  now exists xp, l.
Qed.

(** One turn of the loop of the script computes the recomputed level. *)
Lemma dbinit_turn (rows : list completed_exercise) (u : Z)
    (mt : movement_type) :
  (do total_xp <- sum_xp_earned rows u (Some (movement_type_name mt));
   dbinit_level total_xp)
  = recomputed_level rows u mt.
Proof.
  unfold recomputed_level.
  destruct (sum_xp_earned rows u _); cbn [bind]; [|reflexivity].
  apply dbinit_level_eq.
Qed.

Lemma recalculate_cons (rows : list completed_exercise) (u : Z)
    (mt : movement_type) (mts : list movement_type) (us : gmap Z user_row) :
  recalculate rows u (mt :: mts) us
  = (do level <- recomputed_level rows u mt;
     match column_setter (level_field (movement_type_name mt)) with
     | None => Raise OperationalError
     | Some set => recalculate rows u mts (alter (set level) u us)
     end).
Proof.
  rewrite <- dbinit_turn. cbn [recalculate].
  destruct (sum_xp_earned rows u _); reflexivity.
Qed.

(** Writing a level column with the value it holds changes nothing. *)
Lemma column_setter_same (mt : movement_type) (set : Z -> user_row -> user_row)
    (row : user_row) :
  column_setter (level_field (movement_type_name mt)) = Some set ->
  set (get_level mt row) row = row.
Proof.
  destruct row. destruct mt; vm_compute; intros [= <-]; reflexivity.
Qed.

(** The loop over the movement types rewrites one row of [users]. *)
Lemma recalculate_alter (rows : list completed_exercise) (u : Z)
    (mts : list movement_type) (us us' : gmap Z user_row) :
  recalculate rows u mts us = Ok us' ->
  exists F,
    us' = alter F u us
    /\ (forall row, total_xp (F row) = total_xp row)
    /\ (forall mt row, In mt mts ->
          recomputed_level rows u mt = Ok (get_level mt (F row)))
    /\ (forall mt row, ~ In mt mts -> get_level mt (F row) = get_level mt row).
Proof.
  revert us. induction mts as [|mt mts IH]; intros us.
  - intros [= <-]. exists (fun row => row).
    split; [symmetry; now apply alter_id|]. split; [reflexivity|].
    split; [intros mt row []|reflexivity].
  - rewrite recalculate_cons.
    destruct (recomputed_level rows u mt) as [l|] eqn:El;
      cbn [bind]; [|discriminate].
    destruct (column_setter_level mt) as (set & -> & Hget & Htot & Hoth).
    intros Hrec. destruct (IH _ Hrec) as (F & -> & HFt & HFin & HFout).
    exists (F ∘ set l). split; [apply alter_alter_eq|].
    split; [intros row; simpl; now rewrite HFt, Htot|]. split.
    + intros mt' row Hin. simpl.
      destruct (in_dec movement_type_eq_dec mt' mts) as [Hr|Hr].
      * now apply HFin.
      * destruct Hin as [<-|Hin]; [|contradiction].
        now rewrite (HFout mt (set l row) Hr), Hget.
    + intros mt' row Hnot. simpl.
      rewrite HFout by (intros Hin; apply Hnot; now right).
      apply Hoth. intros ->. apply Hnot. now left.
Qed.

(** The loop over the users: every listed user's levels are those of
    the ledger, the totals and the other rows are as before. *)
Lemma recalculate_users_rows (rows : list completed_exercise) (ids : list Z)
    (us us' : gmap Z user_row) (u : Z) :
  recalculate_users rows ids us = Ok us' ->
  match us !! u with
  | None => us' !! u = None
  | Some row =>
      exists row',
        us' !! u = Some row' /\ total_xp row' = total_xp row
        /\ (In u ids -> forall mt,
              recomputed_level rows u mt = Ok (get_level mt row'))
        /\ (~ In u ids -> row' = row)
  end.
Proof.
  revert us. induction ids as [|id ids IH]; intros us; cbn [recalculate_users].
  - intros [= <-]. destruct (us !! u) as [row|]; [|reflexivity].
    exists row. split; [reflexivity|]. split; [reflexivity|].
    split; [intros [] | reflexivity].
  - destruct (recalculate rows id movement_types us) as [us1|] eqn:E1;
      cbn [bind]; [|discriminate].
    destruct (recalculate_alter _ _ _ _ _ E1) as (F & -> & HFt & HFin & _).
    intros Hrec. specialize (IH _ Hrec).
    destruct (decide (id = u)) as [->|Hne].
    + rewrite lookup_alter_eq in IH.
      destruct (us !! u) as [row|]; simpl in IH; [|exact IH].
      destruct IH as (row' & Hrow' & Htot & Hin & Hout).
      exists row'. split; [exact Hrow'|]. split; [now rewrite Htot, HFt|].
      split; [|intros Hnot; exfalso; apply Hnot; now left].
      intros _ mt.
      destruct (in_dec Z.eq_dec u ids) as [Hr|Hr]; [now apply Hin|].
      rewrite (Hout Hr). apply HFin. destruct mt; simpl; tauto.
    + rewrite lookup_alter_ne in IH by exact Hne.
      destruct (us !! u) as [row|]; [|exact IH].
      destruct IH as (row' & Hrow' & Htot & Hin & Hout).
      exists row'. split; [exact Hrow'|]. split; [exact Htot|]. split.
      * intros [Heq|Hr]; [congruence | now apply Hin].
      * intros Hnot. apply Hout. intros Hr. apply Hnot. now right.
Qed.

Lemma users_ids (us : gmap Z user_row) (u : Z) :
  In u (map fst (map_to_list us)) <-> is_Some (us !! u).
Proof.
  rewrite in_map_iff. split.
  - intros ([k row] & <- & Hin). apply list_elem_of_In in Hin.
    apply elem_of_map_to_list in Hin. simpl. eauto.
  - intros [row Hrow]. exists (u, row). split; [reflexivity|].
    apply list_elem_of_In. now apply elem_of_map_to_list.
Qed.

Lemma default_category_named (row : routine_row) :
  rt_sport_category (default_category row) <> ""
  /\ rt_sport_category (default_category row) <> "Other"
  /\ rt_user_id (default_category row) = rt_user_id row
  /\ rt_routine_json (default_category row) = rt_routine_json row.
Proof.
  unfold default_category.
  destruct (String.eqb_spec (rt_sport_category row) "");
    destruct (String.eqb_spec (rt_sport_category row) "Other"); simpl;
    repeat split; try assumption; discriminate.
Qed.

(** X6: A migration that completes leaves the ledger and every total as
    they were, and afterwards the cached level of every user and
    movement type is the level [calculate_level] gives for the ledger;
    no routine is left under an empty category or under ["Other"], and
    the routines keep their owner and their content. *)
Theorem migrate_levels (s s' : db) :
  migrate s = Ok s' ->
  completed_exercises s' = completed_exercises s
  /\ (forall u, stored_total s' u = stored_total s u)
  /\ (forall u mt, is_Some (users s !! u) -> cache_right s' u mt)
  /\ Forall (fun row => rt_sport_category row <> ""
                         /\ rt_sport_category row <> "Other")
            (routines s')
  /\ map rt_user_id (routines s') = map rt_user_id (routines s)
  /\ map rt_routine_json (routines s') = map rt_routine_json (routines s).
Proof.
  unfold migrate.
  destruct (recalculate_users _ _ (users s)) as [us'|] eqn:E;
    cbn [bind]; [|discriminate].
  intros [= <-]. cbn [completed_exercises users routines].
  split; [reflexivity|]. split; [|split; [|split; [|split]]].
  - intros u. unfold stored_total. cbn [users].
    pose proof (recalculate_users_rows _ _ _ _ u E) as H.
    destruct (users s !! u) as [row|].
    + destruct H as (row' & -> & Ht & _). simpl. now rewrite Ht.
    + now rewrite H.
  - intros u mt Hs.
    pose proof (recalculate_users_rows _ _ _ _ u E) as H.
    assert (Hin := proj2 (users_ids (users s) u) Hs).
    destruct Hs as [row Hrow]. rewrite Hrow in H.
    destruct H as (row' & Hrow' & _ & Hlv & _).
    apply (cache_right_recomputed _ u (get_level mt row') mt).
    + cbn [completed_exercises]. now apply Hlv.
    + unfold stored_level. cbn [users]. now rewrite Hrow'.
  - apply List.Forall_forall. intros row Hin.
    apply in_map_iff in Hin. destruct Hin as (r0 & <- & _).
    destruct (default_category_named r0) as (H1 & H2 & _). now split.
  - rewrite map_map. apply map_ext. intros r0.
    now destruct (default_category_named r0) as (_ & _ & H3 & _).
  - rewrite map_map. apply map_ext. intros r0.
    now destruct (default_category_named r0) as (_ & _ & _ & H4).
Qed.

Lemma migrate_levels_witness :
  exists s',
    migrate stale_db = Ok s'
    /\ stored_level s' 1 Mobility = Some 2
    /\ map rt_sport_category (routines s') = ["General Fitness"%string].
Proof.
  assert (E : migrate stale_db
              = Ok {| users :=
                        {[ 1 := {| total_xp := TInt 0; mobility_level := 2;
                                   activation_level := 0;
                                   stability_level := 0; power_level := 0;
                                   balance_level := 0 |} ]};
                      completed_exercises := [move_a; move_b];
                      routines :=
                        [ {| rt_user_id := 1; rt_routine_json := run_5k;
                             rt_sport_category := "General Fitness" |} ] |})
    by (vm_compute; reflexivity).
  eexists. split; [exact E|].
  destruct (migrate_levels _ _ E) as (_ & _ & Hc & _).
  destruct (Hc 1 Mobility) as (xp & l & Hsum & Hl & Hst).
  - exists fresh_user. reflexivity.
  - split; [|reflexivity]. rewrite Hst. f_equal.
    cbn [completed_exercises] in Hsum.
    assert (Hx : xp = 210) by (vm_compute in Hsum; congruence).
    subst xp. vm_compute in Hl. congruence.
Defined.

Lemma recalculate_fix (rows : list completed_exercise) (u : Z)
    (mts : list movement_type) (us : gmap Z user_row) (row : user_row) :
  us !! u = Some row ->
  (forall mt, In mt mts ->
     recomputed_level rows u mt = Ok (get_level mt row)) ->
  recalculate rows u mts us = Ok us.
Proof.
  intros Hrow. induction mts as [|mt mts IH]; intros Hall.
  - reflexivity.
  - rewrite recalculate_cons, (Hall mt) by now left. cbn [bind].
    destruct (column_setter_level mt) as (set & Hset & _). rewrite Hset.
    rewrite alter_id.
    + apply IH. intros mt' Hin. apply Hall. now right.
    + intros x Hx. rewrite Hrow in Hx. injection Hx as <-.
      now apply column_setter_same.
Qed.

Lemma recalculate_users_fix (rows : list completed_exercise) (ids : list Z)
    (us : gmap Z user_row) :
  (forall u, In u ids ->
     exists row, us !! u = Some row
       /\ forall mt, recomputed_level rows u mt = Ok (get_level mt row)) ->
  recalculate_users rows ids us = Ok us.
Proof.
  induction ids as [|id ids IH]; intros Hall; cbn [recalculate_users].
  - reflexivity.
  - destruct (Hall id) as (row & Hrow & Hlv); [now left|].
    rewrite (recalculate_fix rows id movement_types us row Hrow)
      by (intros mt _; apply Hlv).
    cbn [bind]. apply IH. intros u Hin. apply Hall. now right.
Qed.

Lemma default_category_idem (row : routine_row) :
  default_category (default_category row) = default_category row.
Proof.
  unfold default_category.
  destruct (String.eqb (rt_sport_category row) ""
            || String.eqb (rt_sport_category row) "Other") eqn:E;
    [reflexivity | now rewrite E].
Qed.

(** X7: Running the migration a second time changes nothing: on the state a
    completed migration leaves, the migration completes again and
    returns that same state. *)
Theorem migrate_idempotent (s s' : db) :
  migrate s = Ok s' -> migrate s' = Ok s'.
Proof.
  unfold migrate.
  destruct (recalculate_users _ _ (users s)) as [us'|] eqn:E;
    cbn [bind]; [|discriminate].
  intros [= <-]. cbn [completed_exercises users routines].
  rewrite recalculate_users_fix.
  - cbn [bind]. rewrite map_map.
    rewrite (map_ext _ default_category default_category_idem). reflexivity.
  - intros u Hin. apply users_ids in Hin. destruct Hin as [row' Hrow'].
    pose proof (recalculate_users_rows _ _ _ _ u E) as H.
    destruct (users s !! u) as [row|] eqn:Hrow; [|congruence].
    destruct H as (r & Hr & _ & Hlv & _).
    exists r. split; [exact Hr|].
    apply Hlv. apply users_ids. rewrite Hrow. eauto.
Qed.

Lemma migrate_idempotent_witness :
  exists s', migrate stale_db = Ok s' /\ migrate s' = Ok s'.
Proof.
  assert (E : migrate stale_db
              = Ok {| users :=
                        {[ 1 := {| total_xp := TInt 0; mobility_level := 2;
                                   activation_level := 0;
                                   stability_level := 0; power_level := 0;
                                   balance_level := 0 |} ]};
                      completed_exercises := [move_a; move_b];
                      routines :=
                        [ {| rt_user_id := 1; rt_routine_json := run_5k;
                             rt_sport_category := "General Fitness" |} ] |})
    by (vm_compute; reflexivity).
  eexists. split; [exact E|]. exact (migrate_idempotent _ _ E).
Defined.

End DbinitExtra.
